(** * Superstore sales analysis: the aggregation pipeline of the three scripts

    The repository holds three pandas scripts over one CSV table:
    [superstore_analysis.py] (the basic report), [enhanced_superstore_analysis.py]
    (the enhanced report) and [interactive_dashboard.py] (the dashboard).
    This development embeds the data path they share: cleaning, the derived
    columns, [pd.cut] segmentation, [groupby(...).agg(...)], ranking with
    [sort_values]/[head]/[nlargest] and the scalar KPIs.

    Numbers.  A numeric cell of the table is modelled by [float64]: its exact
    value as a rational, one of the two infinities, or NaN (which is also how
    pandas marks a missing cell).  The grouped tables are computed on these
    exact values; the statements about them say which rows are grouped, kept
    and in what order, not what the last bits of a sum are.  The columns
    derived row by row (the profit margin and the per-unit ratios) are
    computed in IEEE binary64, in [Binary64] over the Standard Library's
    [SpecFloat]: every operation rounds to the nearest double, overflows to an
    infinity and keeps the sign of zero, as numpy's does.

    Dates.  [pd.to_datetime] converts a whole column at once and chooses how to
    read it from the cells it finds.  [convert_dates_with] takes that
    conversion as an argument, so what is proved with it holds whatever pandas
    makes of a cell; [to_datetime] is the reading of one day/month/year cell.

    The other library calls ([pd.cut], [groupby], [nlargest], [dropna], ...)
    are modelled after the behaviour pandas documents for the arguments the
    scripts pass. *)

From Stdlib Require Import List String Ascii ZArith QArith Qcanon Bool Arith Lia Lqa.
From Stdlib Require Import Sorting.Sorted Sorting.Permutation Structures.OrdersEx.
From Corelib Require SpecFloat.
Import ListNotations.

Local Close Scope Q_scope.
Local Close Scope Qc_scope.
Local Open Scope string_scope.
Local Open Scope nat_scope.
Local Open Scope list_scope.

(** ** Float cells *)

Module Float.

Inductive float64 : Type :=
| Fin (q : Qc)
| PInf
| NInf
| NaN.

Definition of_Z (z : Z) : float64 := Fin (Q2Qc (inject_Z z)).
Definition of_nat (n : nat) : float64 := of_Z (Z.of_nat n).
Definition of_Q (q : Q) : float64 := Fin (Q2Qc q).

Definition isna (x : float64) : bool :=
  match x with NaN => true | _ => false end.

Definition notna (x : float64) : bool := negb (isna x).

Definition isfinite (x : float64) : bool :=
  match x with Fin _ => true | _ => false end.

(** Sign of a rational, as a [comparison] against zero. *)
Definition sgn (q : Qc) : comparison := (q ?= 0)%Qc.

Definition fneg (x : float64) : float64 :=
  match x with
  | Fin q => Fin (- q)%Qc
  | PInf => NInf
  | NInf => PInf
  | NaN => NaN
  end.

Definition fadd (x y : float64) : float64 :=
  match x, y with
  | NaN, _ | _, NaN => NaN
  | Fin a, Fin b => Fin (a + b)%Qc
  | PInf, NInf | NInf, PInf => NaN
  | PInf, _ | _, PInf => PInf
  | NInf, _ | _, NInf => NInf
  end.

Definition fmul (x y : float64) : float64 :=
  match x, y with
  | NaN, _ | _, NaN => NaN
  | Fin a, Fin b => Fin (a * b)%Qc
  | PInf, Fin b | Fin b, PInf =>
      match sgn b with Gt => PInf | Lt => NInf | Eq => NaN end
  | NInf, Fin b | Fin b, NInf =>
      match sgn b with Gt => NInf | Lt => PInf | Eq => NaN end
  | PInf, PInf | NInf, NInf => PInf
  | PInf, NInf | NInf, PInf => NInf
  end.

(** numpy's [true_divide]: a zero divisor gives an infinity of the sign of the
    dividend, and [0/0] gives NaN; nothing is raised. *)
Definition fdiv (x y : float64) : float64 :=
  match x, y with
  | NaN, _ | _, NaN => NaN
  | Fin a, Fin b =>
      match sgn b with
      | Eq => match sgn a with Gt => PInf | Lt => NInf | Eq => NaN end
      | _ => Fin (a / b)%Qc
      end
  | Fin _, (PInf | NInf) => Fin 0%Qc
  | PInf, Fin b => match sgn b with Lt => NInf | _ => PInf end
  | NInf, Fin b => match sgn b with Lt => PInf | _ => NInf end
  | (PInf | NInf), (PInf | NInf) => NaN
  end.

(** Comparisons: every comparison with NaN is false. *)
Definition fltb (x y : float64) : bool :=
  match x, y with
  | NaN, _ | _, NaN => false
  | Fin a, Fin b => match (a ?= b)%Qc with Lt => true | _ => false end
  | NInf, NInf => false
  | NInf, _ => true
  | _, NInf => false
  | PInf, _ => false
  | _, PInf => true
  end.

Definition fleb (x y : float64) : bool :=
  match x, y with
  | NaN, _ | _, NaN => false
  | Fin a, Fin b => match (a ?= b)%Qc with Gt => false | _ => true end
  | NInf, _ => true
  | _, NInf => false
  | _, PInf => true
  | PInf, _ => false
  end.

Definition fgtb (x y : float64) : bool := fltb y x.
Definition fgeb (x y : float64) : bool := fleb y x.

Definition feqb (x y : float64) : bool :=
  match x, y with
  | Fin a, Fin b => Qc_eq_bool a b
  | PInf, PInf | NInf, NInf => true
  | _, _ => false
  end.

(** Round half to even, the rule of [numpy.rint]. *)
Definition rint (q : Qc) : Z :=
  let n := Qnum q in
  let d := Zpos (Qden q) in
  let fl := (n / d)%Z in
  match (2 * (n mod d) ?= d)%Z with
  | Lt => fl
  | Gt => (fl + 1)%Z
  | Eq => if Z.even fl then fl else (fl + 1)%Z
  end.

Definition pow10 (decimals : nat) : Qc := Q2Qc (inject_Z (10 ^ Z.of_nat decimals)).

(** [DataFrame.round(decimals)] on the exact value of a total: scale, round
    to the nearest integer, scale back; infinities and NaN pass through.
    The rounding of a derived column, double by double, is [Binary64.round]. *)
Definition round (decimals : nat) (x : float64) : float64 :=
  match x with
  | Fin q => Fin (Q2Qc (inject_Z (rint (q * pow10 decimals)%Qc)) / pow10 decimals)%Qc
  | other => other
  end.

(** [Series.sum()] with the default [skipna=True]: NaN cells are left out and
    the empty sum is [0.0].  The cells are added up exactly; a sum of doubles
    also depends on the order of the additions and can overflow. *)
Definition sum (xs : list float64) : float64 :=
  fold_right fadd (Fin 0%Qc) (filter notna xs).

End Float.
Export Float.

(** ** Binary64 cells *)

Module Binary64.
Import SpecFloat.

(** An IEEE 754 double: a signed zero, a signed infinity, NaN, or
    [(-1)^s * m * 2^e]. *)
Definition double : Type := spec_float.

Definition prec : Z := 53.
Definition emax : Z := 1024.

(** [+], [*] and [/] on float columns: the exact result rounded to the
    nearest double, halfway cases to the even one. *)
Definition add (x y : double) : double := SFadd prec emax x y.
Definition mul (x y : double) : double := SFmul prec emax x y.
Definition div (x y : double) : double := SFdiv prec emax x y.

Definition of_Z (z : Z) : double := binary_normalize prec emax z 0 false.

(** The double nearest to [n / d]: the quotient of the two integers, rounded
    once. *)
Definition nearest (n : Z) (d : positive) : double :=
  match n with
  | Z0 => S754_zero false
  | Zpos m => div (S754_finite false m 0) (S754_finite false d 0)
  | Zneg m => div (S754_finite true m 0) (S754_finite false d 0)
  end.

(** The double a cell of the table holds. *)
Definition of_float64 (x : float64) : double :=
  match x with
  | Fin q => nearest (Qnum q) (Qden q)
  | PInf => S754_infinity false
  | NInf => S754_infinity true
  | NaN => S754_nan
  end.

Definition isna (x : double) : bool :=
  match x with S754_nan => true | _ => false end.

Definition is_zero (x : double) : bool :=
  match x with S754_zero _ => true | _ => false end.

(** Neither NaN nor an infinity. *)
Definition isfinite (x : double) : bool :=
  match x with S754_zero _ | S754_finite _ _ _ => true | _ => false end.

(** The sign bit. *)
Definition signbit (x : double) : bool :=
  match x with
  | S754_zero s | S754_infinity s | S754_finite s _ _ => s
  | S754_nan => false
  end.

(** The integer nearest to [m / d], halfway cases to the even one. *)
Definition half_even (m d : Z) : Z :=
  let q := (m / d)%Z in
  match (2 * (m mod d) ?= d)%Z with
  | Lt => q
  | Gt => (q + 1)%Z
  | Eq => if Z.even q then q else (q + 1)%Z
  end.

(** The double of sign [s] and integer magnitude [k]. *)
Definition integer (s : bool) (k : Z) : double :=
  match k with
  | Zpos m => binary_round prec emax s m 0
  | _ => S754_zero s
  end.

(** [numpy.rint]: a double with a fractional part, [m * 2^(-p)], goes to the
    nearest integer, which keeps its sign even when it is zero; every other
    double is returned as it is. *)
Definition rint (x : double) : double :=
  match x with
  | S754_finite s m (Zneg p) => integer s (half_even (Zpos m) (Z.pow_pos 2 p))
  | _ => x
  end.

Definition pow10 (decimals : nat) : double := of_Z (10 ^ Z.of_nat decimals).

(** [Series.round(decimals)], which is numpy's: multiply by [10**decimals],
    [rint], divide by [10**decimals], each step in doubles. *)
Definition round (decimals : nat) (x : double) : double :=
  div (rint (mul x (pow10 decimals))) (pow10 decimals).

Definition hundred : double := of_Z 100.

(** [profit / sales * 100] *)
Definition quotient (profit sales : double) : double :=
  mul (div profit sales) hundred.

(** [(profit / sales * 100).round(2)] *)
Definition profit_margin (profit sales : double) : double :=
  round 2 (quotient profit sales).

End Binary64.

(** ** Dates: one cell under [pd.to_datetime(..., dayfirst=True, errors='coerce')] *)

Module Dates.

Record date : Type := mkDate { year : nat; month : nat; day : nat }.

Definition date_eqb (a b : date) : bool :=
  (year a =? year b)%nat && (month a =? month b)%nat && (day a =? day b)%nat.

Definition is_digit (c : ascii) : bool :=
  let n := nat_of_ascii c in ((48 <=? n) && (n <=? 57))%nat.

(** Decimal value of a non-empty run of digits. *)
Fixpoint digits_value (acc : nat) (s : string) : option nat :=
  match s with
  | EmptyString => Some acc
  | String c rest =>
      if is_digit c then digits_value (10 * acc + (nat_of_ascii c - 48)) rest
      else None
  end.

Definition parse_nat (s : string) : option nat :=
  match s with
  | EmptyString => None
  | _ => digits_value 0 s
  end.

(** Fields of [s] between occurrences of [sep]. *)
Fixpoint split_on (sep : ascii) (s : string) : list string :=
  match s with
  | EmptyString => [EmptyString]
  | String c rest =>
      if Ascii.eqb c sep then EmptyString :: split_on sep rest
      else match split_on sep rest with
           | [] => [String c EmptyString]
           | f :: fs => String c f :: fs
           end
  end.

Definition leap (y : nat) : bool :=
  ((y mod 4 =? 0) && negb (y mod 100 =? 0) || (y mod 400 =? 0))%nat.

Definition days_in_month (y m : nat) : nat :=
  match m with
  | 1 | 3 | 5 | 7 | 8 | 10 | 12 => 31
  | 4 | 6 | 9 | 11 => 30
  | 2 => if leap y then 29 else 28
  | _ => 0
  end.

Definition valid_date (y m d : nat) : bool :=
  ((1 <=? m) && (m <=? 12) && (1 <=? d) && (d <=? days_in_month y m))%nat.

Definition has_char (c : ascii) (s : string) : bool :=
  existsb (Ascii.eqb c) (list_ascii_of_string s).

(** A date cell written [day/month/year] (or with dashes), the first field
    being the day, as in a column pandas reads day first.  A cell that is
    missing or does not read as a calendar date becomes [None] (NaT): with
    [errors='coerce'] the conversion never raises.  pandas settles how to
    read a column from the column as a whole; [convert_dates_with] below
    leaves that open. *)
Definition to_datetime (cell : option string) : option date :=
  match cell with
  | None => None
  | Some s =>
      let sep := if has_char "/"%char s then "/"%char else "-"%char in
      match map parse_nat (split_on sep s) with
      | [Some d; Some m; Some y] =>
          if valid_date y m d then Some (mkDate y m d) else None
      | _ => None
      end
  end.

Definition quarter (m : nat) : nat := (m - 1) / 3 + 1.

(** Calendar order. *)
Definition date_leb (a b : date) : bool :=
  (year a <? year b)
  || ((year a =? year b) && ((month a <? month b)
      || ((month a =? month b) && (day a <=? day b)))).

End Dates.
Export Dates.

(** ** Rows of the table *)

Module Table.

(** One line of [Superstore.csv].  Text cells are [option string] and numeric
    cells are [float64]; [None] and [NaN] are the missing cell.  [D] is the
    type of the two date cells: text as read from the file, [option date]
    once [to_datetime] has been applied. *)
Record row (D : Type) : Type := mkRow {
  Order_ID : option string;
  Order_Date : D;
  Ship_Date : D;
  Ship_Mode : option string;
  Customer_Name : option string;
  Category : option string;
  Sub_Category : option string;
  Product_Name : option string;
  Region : option string;
  State : option string;
  Postal_Code : option Z;
  Sales : float64;
  Quantity : float64;
  Discount : float64;
  Profit : float64;
  Shipping_Cost : float64
}.

Arguments mkRow {D}.
Arguments Order_ID {D}.
Arguments Order_Date {D}.
Arguments Ship_Date {D}.
Arguments Ship_Mode {D}.
Arguments Customer_Name {D}.
Arguments Category {D}.
Arguments Sub_Category {D}.
Arguments Product_Name {D}.
Arguments Region {D}.
Arguments State {D}.
Arguments Postal_Code {D}.
Arguments Sales {D}.
Arguments Quantity {D}.
Arguments Discount {D}.
Arguments Profit {D}.
Arguments Shipping_Cost {D}.

Definition raw_row : Type := row (option string).
Definition dated_row : Type := row (option date).

(** [df['Order Date'] = pd.to_datetime(df['Order Date'], dayfirst=True, errors='coerce')]
    and the same for ['Ship Date'], for a table of day/month/year cells: the
    other cells are untouched. *)
Definition convert_dates (r : raw_row) : dated_row :=
  mkRow (Order_ID r) (to_datetime (Order_Date r)) (to_datetime (Ship_Date r))
        (Ship_Mode r) (Customer_Name r) (Category r) (Sub_Category r)
        (Product_Name r) (Region r) (State r) (Postal_Code r)
        (Sales r) (Quantity r) (Discount r) (Profit r) (Shipping_Cost r).

(** A row with its two date cells replaced and every other cell kept. *)
Definition with_dates {D E} (r : row D) (order_date ship_date : E) : row E :=
  mkRow (Order_ID r) order_date ship_date
        (Ship_Mode r) (Customer_Name r) (Category r) (Sub_Category r)
        (Product_Name r) (Region r) (State r) (Postal_Code r)
        (Sales r) (Quantity r) (Discount r) (Profit r) (Shipping_Cost r).

(** Row [i], [i + 1], ... of the table take cell [i], [i + 1], ... of the two
    converted columns. *)
Fixpoint assign_dates (i : nat) (order_dates ship_dates : list (option date))
         (raw : list raw_row) : list dated_row :=
  match raw with
  | [] => []
  | r :: rest =>
      with_dates r (nth i order_dates None) (nth i ship_dates None)
      :: assign_dates (S i) order_dates ship_dates rest
  end.

(** The two assignments above on the whole table.  [to_datetime_column] is
    [pd.to_datetime(..., dayfirst=True, errors='coerce')] as a function from
    the cells of a column to the converted cells, NaT being [None]: with
    [errors='coerce'] the call returns for every column. *)
Definition convert_dates_with
           (to_datetime_column : list (option string) -> list (option date))
           (raw : list raw_row) : list dated_row :=
  assign_dates 0 (to_datetime_column (map Order_Date raw))
               (to_datetime_column (map Ship_Date raw)) raw.

Definition isnone {A} (o : option A) : bool :=
  match o with None => true | Some _ => false end.

Definition notnone {A} (o : option A) : bool := negb (isnone o).

Definition opt_eqb {A} (eqb : A -> A -> bool) (a b : option A) : bool :=
  match a, b with
  | None, None => true
  | Some x, Some y => eqb x y
  | _, _ => false
  end.

(** Cell equality as [duplicated] sees it: two missing cells are equal. *)
Definition cell_eqb (x y : float64) : bool :=
  match x, y with
  | NaN, NaN => true
  | _, _ => feqb x y
  end.

Definition row_eqb (a b : dated_row) : bool :=
  opt_eqb String.eqb (Order_ID a) (Order_ID b)
  && opt_eqb date_eqb (Order_Date a) (Order_Date b)
  && opt_eqb date_eqb (Ship_Date a) (Ship_Date b)
  && opt_eqb String.eqb (Ship_Mode a) (Ship_Mode b)
  && opt_eqb String.eqb (Customer_Name a) (Customer_Name b)
  && opt_eqb String.eqb (Category a) (Category b)
  && opt_eqb String.eqb (Sub_Category a) (Sub_Category b)
  && opt_eqb String.eqb (Product_Name a) (Product_Name b)
  && opt_eqb String.eqb (Region a) (Region b)
  && opt_eqb String.eqb (State a) (State b)
  && opt_eqb Z.eqb (Postal_Code a) (Postal_Code b)
  && cell_eqb (Sales a) (Sales b)
  && cell_eqb (Quantity a) (Quantity b)
  && cell_eqb (Discount a) (Discount b)
  && cell_eqb (Profit a) (Profit b)
  && cell_eqb (Shipping_Cost a) (Shipping_Cost b).

(** [df.drop_duplicates()]: a row equal to an earlier one is removed, the first
    occurrence stays ([keep='first']). *)
Fixpoint drop_duplicates_from (seen : list dated_row) (df : list dated_row)
  : list dated_row :=
  match df with
  | [] => []
  | r :: rest =>
      if existsb (row_eqb r) seen then drop_duplicates_from seen rest
      else r :: drop_duplicates_from (r :: seen) rest
  end.

Definition drop_duplicates (df : list dated_row) : list dated_row :=
  drop_duplicates_from [] df.

(** A row in which no cell is missing. *)
Definition complete (r : dated_row) : bool :=
  notnone (Order_ID r) && notnone (Order_Date r) && notnone (Ship_Date r)
  && notnone (Ship_Mode r) && notnone (Customer_Name r) && notnone (Category r)
  && notnone (Sub_Category r) && notnone (Product_Name r) && notnone (Region r)
  && notnone (State r) && notnone (Postal_Code r)
  && notna (Sales r) && notna (Quantity r) && notna (Discount r)
  && notna (Profit r) && notna (Shipping_Cost r).

(** [df.dropna()]: every row with a missing cell in any column is removed. *)
Definition dropna (df : list dated_row) : list dated_row := filter complete df.

End Table.
Export Table.

(** ** The pandas operations the scripts call *)

Module Pandas.

(** A call either returns or raises [ValueError]. *)
Inductive result (A : Type) : Type :=
| Ok (a : A)
| ValueError.

Arguments Ok {A}.
Arguments ValueError {A}.

(** *** [pd.cut(x, bins=..., labels=...)] with the defaults [right=True],
    [include_lowest=False] *)

Fixpoint increasing (bins : list float64) : bool :=
  match bins with
  | a :: (b :: _) as rest => fltb a b && increasing rest
  | _ => true
  end.

(** [bins.searchsorted(x, side='left')] on increasing [bins]: the number of
    edges strictly below [x]. *)
Fixpoint searchsorted_left (bins : list float64) (x : float64) : nat :=
  match bins with
  | [] => 0
  | e :: rest => if fltb e x then S (searchsorted_left rest x) else 0
  end.

(** The bin of one value.  [ValueError] is raised when the edges do not
    increase or the labels are not one fewer than the edges; otherwise the
    value gets the label of the interval [(e_i, e_{i+1}]] holding it, and NaN
    ([None]) when it is missing or lies outside [(e_0, e_n]]. *)
Definition cut (x : float64) (bins : list float64) (labels : list string)
  : result (option string) :=
  if negb (increasing bins) then ValueError
  else if negb (S (List.length labels) =? List.length bins)%nat then ValueError
  else
    let ids := searchsorted_left bins x in
    if isna x || (ids =? List.length bins)%nat || (ids =? 0)%nat then Ok None
    else Ok (nth_error labels (ids - 1)).

(** The cell stored in the new column. *)
Definition cell_of (c : result (option string)) : option string :=
  match c with Ok v => v | ValueError => None end.

(** *** [groupby] *)

Definition str_ltb (a b : string) : bool :=
  match String_as_OT.compare a b with Lt => true | _ => false end.

(** Insertion into an ascending list without repetition. *)
Fixpoint insert_key (k : string) (ks : list string) : list string :=
  match ks with
  | [] => [k]
  | h :: t =>
      match String_as_OT.compare k h with
      | Lt => k :: ks
      | Eq => ks
      | Gt => h :: insert_key k t
      end
  end.

(** The distinct values, ascending. *)
Definition unique_sorted (ks : list string) : list string :=
  fold_right insert_key [] ks.

(** The cells that are present. *)
Definition present {A} (cells : list (option A)) : list A :=
  flat_map (fun c => match c with Some v => [v] | None => [] end) cells.

(** [Series.nunique()]: number of distinct values, missing cells not counted. *)
Definition nunique (cells : list (option string)) : nat :=
  List.length (unique_sorted (present cells)).

Section GroupBy.
Context {R : Type}.
Variable by_ : R -> option string.

Definition has_key (k : string) (r : R) : bool :=
  opt_eqb String.eqb (by_ r) (Some k).

(** [df.groupby(by)] with the defaults [sort=True], [dropna=True]: one group
    per distinct key that is present, keys ascending, each group holding its
    rows in frame order.  A row whose key is missing is in no group. *)
Definition groupby (df : list R) : list (string * list R) :=
  map (fun k => (k, filter (has_key k) df))
      (unique_sorted (present (map by_ df))).

(** Grouping by a categorical column (the output of [cut]): one group per
    category, in category order, empty ones included. *)
Definition groupby_categorical (categories : list string) (df : list R)
  : list (string * list R) :=
  map (fun k => (k, filter (has_key k) df)) categories.
End GroupBy.

(** *** Ordering and selection *)

Section Ranking.
Context {A : Type}.
Variable column : A -> float64.

Fixpoint insert_desc (x : A) (l : list A) : list A :=
  match l with
  | [] => [x]
  | y :: t =>
      if fltb (column x) (column y) then y :: insert_desc x t else x :: l
  end.

Definition sort_desc (l : list A) : list A := fold_right insert_desc [] l.

(** [df.sort_values(column, ascending=False)]: greatest first, rows whose
    cell is NaN last ([na_position='last']).  Rows with equal cells are kept
    here in frame order; pandas' default sort kind does not promise an order
    among them, and the theorems on sorted tables below do not rest on that
    order. *)
Definition sort_values_desc (df : list A) : list A :=
  sort_desc (filter (fun r => notna (column r)) df)
  ++ filter (fun r => isna (column r)) df.

Definition head (n : nat) (df : list A) : list A := firstn n df.

(** [df.nlargest(n, column)] with the default [keep='first']: the first [n]
    rows in descending order of the column, rows with equal cells in frame
    order, rows whose cell is NaN after all others.  pandas keeps equal
    cells in frame order when [n] is less than the number of rows; for a
    larger [n] it returns [sort_values(ascending=False).head(n)], with the
    default sort kind.  What is stated below of the order among equal cells
    is stated for [n] less than the number of rows. *)
Definition nlargest (n : nat) (df : list A) : list A :=
  firstn n (sort_desc (filter (fun r => notna (column r)) df)
            ++ filter (fun r => isna (column r)) df).
End Ranking.

(** *** Picking a row *)

Section Picking.
Context {A : Type}.
Variable column : A -> float64.

(** The first row holding the greatest cell: a later row replaces the best
    so far only when its cell is strictly greater. *)
Fixpoint first_max (best : A) (l : list A) : A :=
  match l with
  | [] => best
  | x :: t =>
      if fltb (column best) (column x) then first_max x t else first_max best t
  end.

(** [df.loc[df[column].idxmax()]] on a frame whose index labels are
    distinct: NaN cells are skipped, and the call raises when no cell is
    left to compare. *)
Definition loc_idxmax (df : list A) : result A :=
  match filter (fun r => notna (column r)) df with
  | [] => ValueError
  | x :: t => Ok (first_max x t)
  end.
End Picking.

(** A positional access either returns or raises [IndexError]. *)
Inductive lookup (A : Type) : Type :=
| Found (a : A)
| IndexError.

Arguments Found {A}.
Arguments IndexError {A}.

(** [df.iloc[0]] *)
Definition iloc0 {A} (df : list A) : lookup A :=
  match df with
  | [] => IndexError
  | x :: _ => Found x
  end.

(** [Series.mean()] with [skipna=True]: the sum of the cells that are not
    NaN over their number, NaN when there is none. *)
Definition mean (xs : list float64) : float64 :=
  match filter notna xs with
  | [] => NaN
  | x :: t => fdiv (fold_right fadd (Fin 0%Qc) (x :: t)) (of_nat (List.length (x :: t)))
  end.

(** [s[:n] + "..."]; the file is read as latin-1, one byte to a character. *)
Definition clip (n : nat) (s : string) : string :=
  String.append (String.substring 0 n s) "...".

(** *** Grouping by two integer columns *)

(** A pair of keys, here a year and a month. *)
Definition period : Type := (nat * nat)%type.

Definition period_ltb (a b : period) : bool :=
  (fst a <? fst b) || ((fst a =? fst b) && (snd a <? snd b)).

Definition period_eqb (a b : period) : bool :=
  (fst a =? fst b) && (snd a =? snd b).

Fixpoint insert_period (k : period) (ks : list period) : list period :=
  match ks with
  | [] => [k]
  | h :: t =>
      if period_ltb k h then k :: ks
      else if period_ltb h k then h :: insert_period k t
      else ks
  end.

Definition unique_periods (ks : list period) : list period :=
  fold_right insert_period [] ks.

Section GroupBy2.
Context {R : Type}.
Variable by1 by2 : R -> option nat.

(** The key of a row; it is missing when either column is. *)
Definition period_of (r : R) : option period :=
  match by1 r, by2 r with
  | Some y, Some m => Some (y, m)
  | _, _ => None
  end.

Definition has_period (k : period) (r : R) : bool :=
  match period_of r with
  | Some k' => period_eqb k k'
  | None => false
  end.

(** [df.groupby([col1, col2])]: one group per pair of keys present, pairs
    ascending by the first key and then the second; a row with a missing key
    is in no group. *)
Definition groupby2 (df : list R) : list (period * list R) :=
  map (fun k => (k, filter (has_period k) df))
      (unique_periods (present (map period_of df))).
End GroupBy2.

(** *** Ascending order *)

Section Ascending.
Context {A : Type}.
Variable column : A -> float64.

Fixpoint insert_asc (x : A) (l : list A) : list A :=
  match l with
  | [] => [x]
  | y :: t =>
      if fltb (column y) (column x) then y :: insert_asc x t else x :: l
  end.

Definition sort_asc (l : list A) : list A := fold_right insert_asc [] l.

(** [s.sort_values()]: least first, NaN cells last.  As for the descending
    sort, rows with equal cells are kept here in frame order. *)
Definition sort_values_asc (df : list A) : list A :=
  sort_asc (filter (fun r => notna (column r)) df)
  ++ filter (fun r => isna (column r)) df.
End Ascending.

End Pandas.
Export Pandas.

Definition c100 : Qc := Q2Qc (inject_Z 100).
Definition hundred : float64 := Fin c100.

(** ** [superstore_analysis.py] *)

Module Basic.

(** Section 4 of the script: dates converted, duplicates dropped, then every
    row with a missing cell dropped. *)
Definition clean (raw : list raw_row) : list dated_row :=
  dropna (drop_duplicates (map convert_dates raw)).

(** The same steps, for any conversion of the date columns. *)
Definition clean_with (to_datetime_column : list (option string) -> list (option date))
           (raw : list raw_row) : list dated_row :=
  dropna (drop_duplicates (convert_dates_with to_datetime_column raw)).

(** [df.groupby('Product Name')['Sales'].sum()] *)
Definition sales_by_product (df : list dated_row) : list (string * float64) :=
  map (fun g => (fst g, Float.sum (map Sales (snd g)))) (groupby Product_Name df).

(** [....sort_values(ascending=False).head(10)] *)
Definition top_products (df : list dated_row) : list (string * float64) :=
  head 10 (sort_values_desc snd (sales_by_product df)).

(** The figures printed under "ADDITIONAL INSIGHTS". *)
Definition total_sales (df : list dated_row) : float64 := Float.sum (map Sales df).
Definition total_profit (df : list dated_row) : float64 := Float.sum (map Profit df).
Definition average_profit_margin (df : list dated_row) : float64 :=
  fmul (fdiv (total_profit df) (total_sales df)) hundred.
Definition number_of_orders (df : list dated_row) : nat := List.length df.
Definition number_of_products (df : list dated_row) : nat :=
  nunique (map Product_Name df).
Definition number_of_customers (df : list dated_row) : nat :=
  nunique (map Customer_Name df).

(** [df.groupby(key)[column].sum().sort_values()] *)
Definition total_by (key : dated_row -> option string) (column : dated_row -> float64)
           (df : list dated_row) : list (string * float64) :=
  sort_values_asc snd
    (map (fun g => (fst g, Float.sum (map column (snd g)))) (groupby key df)).

Definition region_profit (df : list dated_row) : list (string * float64) :=
  total_by Region Profit df.
Definition cat_profit (df : list dated_row) : list (string * float64) :=
  total_by Category Profit df.
Definition sub_profit (df : list dated_row) : list (string * float64) :=
  total_by Sub_Category Profit df.
Definition sub_sales (df : list dated_row) : list (string * float64) :=
  total_by Sub_Category Sales df.

End Basic.

(** ** Derived columns shared by the enhanced report and the dashboard *)

Module Features.

(** A row with the columns both scripts add.  The weekday name and the
    shipping days, which no analysis below reads, are left out. *)
Record enriched : Type := mkEnriched {
  base : dated_row;
  Order_Year : option nat;
  Order_Month : option nat;
  Order_Quarter : option nat;
  Profit_Margin : Binary64.double
}.

(** [df['Profit Margin'] = (df['Profit'] / df['Sales'] * 100).round(2)],
    on the doubles the two cells hold. *)
Definition profit_margin_cell (r : dated_row) : Binary64.double :=
  Binary64.profit_margin (Binary64.of_float64 (Profit r))
                         (Binary64.of_float64 (Sales r)).

Definition add_features (r : dated_row) : enriched :=
  mkEnriched r
    (option_map year (Order_Date r))
    (option_map month (Order_Date r))
    (option_map (fun d => quarter (month d)) (Order_Date r))
    (profit_margin_cell r).

(** [df.dropna(subset=['Postal Code'])] *)
Definition has_postal_code (r : enriched) : bool := notnone (Postal_Code (base r)).

(** The bins of the discount analysis, the same in both scripts. *)
Definition discount_bins : list float64 :=
  [of_Z 0; of_Q (1 # 10); of_Q (2 # 10); of_Q (3 # 10); of_Q (4 # 10);
   of_Q (5 # 10); of_Z 1].
Definition discount_labels : list string :=
  ["0-10%"; "10-20%"; "20-30%"; "30-40%"; "40-50%"; "50%+"].

(** The bins of the customer tiers, the same in both scripts. *)
Definition segment_bins : list float64 :=
  [of_Z 0; of_Z 1000; of_Z 5000; of_Z 10000; PInf].
Definition segment_labels : list string :=
  ["Bronze"; "Silver"; "Gold"; "Platinum"].

(** [pd.cut(df['Discount'], bins=[0, 0.1, ..., 1.0], labels=[...])] *)
Definition Discount_Bin (r : enriched) : option string :=
  cell_of (cut (Discount (base r)) discount_bins discount_labels).

End Features.
Export Features.

(** ** [interactive_dashboard.py] *)

Module Dashboard.

Definition load_data (raw : list raw_row) : list enriched :=
  filter has_postal_code (map (fun r => add_features (convert_dates r)) raw).


(** The sidebar: the dates returned by the date input, and the two select
    boxes, whose first choice is the literal ['All']. *)
Record filters : Type := mkFilters {
  date_range : list date;
  selected_category : string;
  selected_region : string
}.

(** A row whose order date is NaT compares false against both bounds. *)
Definition in_range (lo hi : date) (r : enriched) : bool :=
  match Order_Date (base r) with
  | Some d => date_leb lo d && date_leb d hi
  | None => false
  end.

Definition is_cell (v : string) (c : option string) : bool :=
  opt_eqb String.eqb c (Some v).

Definition apply_filters (f : filters) (df : list enriched) : list enriched :=
  let by_date :=
    match date_range f with
    | [lo; hi] => filter (in_range lo hi) df
    | _ => df
    end in
  let by_category :=
    if negb (String.eqb (selected_category f) "All")
    then filter (fun r => is_cell (selected_category f) (Category (base r))) by_date
    else by_date in
  if negb (String.eqb (selected_region f) "All")
  then filter (fun r => is_cell (selected_region f) (Region (base r))) by_category
  else by_category.

(** *** Key metrics row *)

Definition total_sales (df : list enriched) : float64 :=
  Float.sum (map (fun r => Sales (base r)) df).

Definition total_profit (df : list enriched) : float64 :=
  Float.sum (map (fun r => Profit (base r)) df).

(** [(total_profit / total_sales * 100) if total_sales > 0 else 0] *)
Definition profit_margin (df : list enriched) : float64 :=
  if fgtb (total_sales df) (of_Z 0)
  then fmul (fdiv (total_profit df) (total_sales df)) hundred
  else of_Z 0.

Definition total_orders (df : list enriched) : nat :=
  nunique (map (fun r => Order_ID (base r)) df).

Definition total_customers (df : list enriched) : nat :=
  nunique (map (fun r => Customer_Name (base r)) df).

Definition avg_order_value (df : list enriched) : float64 :=
  fdiv (total_sales df) (of_nat (total_orders df)).

Definition customer_lifetime_value (df : list enriched) : float64 :=
  fdiv (total_sales df) (of_nat (total_customers df)).

(** *** Grouped tables *)

(** [.agg({'Sales': 'sum', 'Profit': 'sum'}).reset_index()] *)
Record totals : Type := mkTotals {
  index : string;
  sum_Sales : float64;
  sum_Profit : float64
}.

Definition agg_totals (g : string * list enriched) : totals :=
  mkTotals (fst g)
           (Float.sum (map (fun r => Sales (base r)) (snd g)))
           (Float.sum (map (fun r => Profit (base r)) (snd g))).

(** [t['Profit_Margin'] = t['Profit'] / t['Sales'] * 100], not rounded. *)
Definition Profit_Margin_ratio (t : totals) : float64 :=
  fmul (fdiv (sum_Profit t) (sum_Sales t)) hundred.

(** The customer table also counts distinct order ids. *)
Record customer : Type := mkCustomer {
  customer_totals : totals;
  nunique_Order_ID : nat
}.

Definition customer_Sales (c : customer) : float64 := sum_Sales (customer_totals c).

Definition customer_analysis (df : list enriched) : list customer :=
  map (fun g => mkCustomer (agg_totals g)
                           (nunique (map (fun r => Order_ID (base r)) (snd g))))
      (groupby (fun r => Customer_Name (base r)) df).

Definition Customer_Segment (c : customer) : option string :=
  cell_of (cut (customer_Sales c) segment_bins segment_labels).

Definition top_customers (df : list enriched) : list customer :=
  nlargest customer_Sales 10 (customer_analysis df).

Definition state_analysis (df : list enriched) : list totals :=
  sort_values_desc sum_Sales (map agg_totals (groupby (fun r => State (base r)) df)).

Definition top_states (df : list enriched) : list totals :=
  head 10 (state_analysis df).

Definition top_profit_states (df : list enriched) : list totals :=
  nlargest Profit_Margin_ratio 10 (state_analysis df).

Definition discount_analysis (df : list enriched) : list totals :=
  map agg_totals (groupby_categorical Discount_Bin discount_labels df).

(** *** Products, regions and categories *)

(** [.agg({'Sales': 'sum', 'Profit': 'sum', 'Quantity': 'sum'}).reset_index()] *)
Record product : Type := mkProductRow {
  product_totals : totals;
  sum_Quantity : float64
}.

Definition product_Sales (p : product) : float64 := sum_Sales (product_totals p).
Definition product_Margin (p : product) : float64 :=
  Profit_Margin_ratio (product_totals p).

Definition product_analysis (df : list enriched) : list product :=
  map (fun g => mkProductRow (agg_totals g)
                  (Float.sum (map (fun r => Quantity (base r)) (snd g))))
      (groupby (fun r => Product_Name (base r)) df).

Definition top_products (df : list enriched) : list product :=
  nlargest product_Sales 10 (product_analysis df).

(** [product_analysis.loc[product_analysis['Sales'].idxmax()]] *)
Definition best_product (df : list enriched) : result product :=
  loc_idxmax product_Sales (product_analysis df).

(** [best_product['Product Name'][:30] + "..."] *)
Definition best_product_label (p : product) : string :=
  clip 30 (index (product_totals p)).

(** [product_analysis['Profit_Margin'].mean()] *)
Definition avg_profit_margin (df : list enriched) : float64 :=
  mean (map product_Margin (product_analysis df)).

(** The regional table counts distinct customers and orders. *)
Record regional : Type := mkRegional {
  regional_totals : totals;
  nunique_Customer_Name : nat;
  regional_Order_ID : nat
}.

Definition regional_analysis (df : list enriched) : list regional :=
  map (fun g => mkRegional (agg_totals g)
                  (nunique (map (fun r => Customer_Name (base r)) (snd g)))
                  (nunique (map (fun r => Order_ID (base r)) (snd g))))
      (groupby (fun r => Region (base r)) df).

(** [filtered_df.groupby('Category')['Sales'].sum().reset_index()] *)
Definition category_sales (df : list enriched) : list (string * float64) :=
  map (fun g => (fst g, Float.sum (map (fun r => Sales (base r)) (snd g))))
      (groupby (fun r => Category (base r)) df).

Definition category_profit (df : list enriched) : list totals :=
  map agg_totals (groupby (fun r => Category (base r)) df).

Definition subcategory_analysis (df : list enriched) : list totals :=
  map agg_totals (groupby (fun r => Sub_Category (base r)) df).

(** [filtered_df.groupby(['Order Year', 'Order Month'])['Sales'].sum().reset_index()] *)
Definition monthly_sales (df : list enriched) : list (period * float64) :=
  map (fun g => (fst g, Float.sum (map (fun r => Sales (base r)) (snd g))))
      (groupby2 Order_Year Order_Month df).

End Dashboard.

(** ** [enhanced_superstore_analysis.py] *)

Module Enhanced.

(** The enhanced report stores two more ratios per row:
    [df['Sales'] / df['Quantity']] and [df['Profit'] / df['Quantity']]. *)
Record xrow : Type := mkXrow {
  common : enriched;
  Revenue_per_Order : Binary64.double;
  Profit_per_Order : Binary64.double
}.

Definition add_ratios (e : enriched) : xrow :=
  mkXrow e
    (Binary64.div (Binary64.of_float64 (Sales (base e)))
                  (Binary64.of_float64 (Quantity (base e))))
    (Binary64.div (Binary64.of_float64 (Profit (base e)))
                  (Binary64.of_float64 (Quantity (base e)))).

Definition load (raw : list raw_row) : list xrow :=
  map (fun r => add_ratios (add_features (convert_dates r))) raw.

Definition df_cleaned (raw : list raw_row) : list xrow :=
  filter (fun r => has_postal_code (common r)) (load raw).

(** [df_cleaned], for any conversion of the date columns. *)
Definition df_cleaned_with
           (to_datetime_column : list (option string) -> list (option date))
           (raw : list raw_row) : list xrow :=
  filter (fun r => has_postal_code (common r))
         (map (fun r => add_ratios (add_features r))
              (convert_dates_with to_datetime_column raw)).

Definition row_of (r : xrow) : dated_row := base (common r).

(** [df_cleaned[numeric_cols]], the columns [corr()] is computed from:
    ['Sales', 'Quantity', 'Discount', 'Profit', 'Shipping Cost',
    'Profit Margin']. *)
Definition numeric_cols (df : list xrow) : list (list Binary64.double) :=
  [map (fun r => Binary64.of_float64 (Sales (row_of r))) df;
   map (fun r => Binary64.of_float64 (Quantity (row_of r))) df;
   map (fun r => Binary64.of_float64 (Discount (row_of r))) df;
   map (fun r => Binary64.of_float64 (Profit (row_of r))) df;
   map (fun r => Binary64.of_float64 (Shipping_Cost (row_of r))) df;
   map (fun r => Profit_Margin (common r)) df].

(** [sns.boxplot(data=df_cleaned, x='Category', y='Profit Margin')]: the
    points of the box plot. *)
Definition margin_by_category (df : list xrow)
  : list (option string * Binary64.double) :=
  map (fun r => (Category (row_of r), Profit_Margin (common r))) df.

(** *** Product performance *)

Record product_totals : Type := mkProduct {
  index : string;
  sum_Sales : float64;
  sum_Profit : float64;
  sum_Quantity : float64
}.

(** [groupby('Product Name').agg({...sum...}).round(2).sort_values('Sales', ascending=False)] *)
Definition top_products (df : list xrow) : list product_totals :=
  sort_values_desc sum_Sales
    (map (fun g => mkProduct (fst g)
            (round 2 (Float.sum (map (fun r => Sales (row_of r)) (snd g))))
            (round 2 (Float.sum (map (fun r => Profit (row_of r)) (snd g))))
            (round 2 (Float.sum (map (fun r => Quantity (row_of r)) (snd g)))))
         (groupby (fun r => Product_Name (row_of r)) df)).

Definition Profit_Margin_ratio (t : product_totals) : float64 :=
  round 2 (fmul (fdiv (sum_Profit t) (sum_Sales t)) hundred).

Definition top_10_sales (df : list xrow) : list product_totals :=
  head 10 (top_products df).

(** [top_products[top_products['Profit'] < 0].head(10)] *)
Definition bottom_10_profit (df : list xrow) : list product_totals :=
  head 10 (filter (fun t => fltb (sum_Profit t) (of_Z 0)) (top_products df)).

(** *** Discount impact *)

Record discount_totals : Type := mkDiscount {
  band : string;
  band_Sales : float64;
  band_Profit : float64;
  band_Quantity : float64;
  band_Order_ID : nat
}.

Definition Discount_Bin (r : xrow) : option string := Features.Discount_Bin (common r).

Definition discount_analysis (df : list xrow) : list discount_totals :=
  map (fun g => mkDiscount (fst g)
          (round 2 (Float.sum (map (fun r => Sales (row_of r)) (snd g))))
          (round 2 (Float.sum (map (fun r => Profit (row_of r)) (snd g))))
          (round 2 (Float.sum (map (fun r => Quantity (row_of r)) (snd g))))
          (nunique (map (fun r => Order_ID (row_of r)) (snd g))))
      (groupby_categorical Discount_Bin discount_labels df).

Definition band_Profit_Margin (t : discount_totals) : float64 :=
  round 2 (fmul (fdiv (band_Profit t) (band_Sales t)) hundred).

Definition band_Avg_Order_Value (t : discount_totals) : float64 :=
  round 2 (fdiv (band_Sales t) (of_nat (band_Order_ID t))).

(** *** Key performance indicators *)

Definition total_sales (df : list xrow) : float64 :=
  Float.sum (map (fun r => Sales (row_of r)) df).
Definition total_profit (df : list xrow) : float64 :=
  Float.sum (map (fun r => Profit (row_of r)) df).
Definition total_orders (df : list xrow) : nat :=
  nunique (map (fun r => Order_ID (row_of r)) df).
Definition total_customers (df : list xrow) : nat :=
  nunique (map (fun r => Customer_Name (row_of r)) df).
Definition total_products (df : list xrow) : nat :=
  nunique (map (fun r => Product_Name (row_of r)) df).

Definition avg_order_value (df : list xrow) : float64 :=
  fdiv (total_sales df) (of_nat (total_orders df)).
Definition avg_profit_margin (df : list xrow) : float64 :=
  fmul (fdiv (total_profit df) (total_sales df)) hundred.
Definition customer_lifetime_value (df : list xrow) : float64 :=
  fdiv (total_sales df) (of_nat (total_customers df)).
Definition profit_per_order (df : list xrow) : float64 :=
  fdiv (total_profit df) (of_nat (total_orders df)).

(** *** Labels and best performers *)

(** [name[:30] + '...' if len(name) > 30 else name] *)
Definition tick_label (name : string) : string :=
  if 30 <? String.length name then clip 30 name else name.

(** [top_products.iloc[0]] *)
Definition best_product (df : list xrow) : lookup product_totals :=
  iloc0 (top_products df).

Record category_totals : Type := mkCategory {
  category_sums : product_totals;
  category_Order_ID : nat
}.

Definition category_Sales (c : category_totals) : float64 :=
  sum_Sales (category_sums c).

(** [groupby('Category').agg({... 'Order ID': 'nunique'}).round(2)] *)
Definition category_analysis (df : list xrow) : list category_totals :=
  map (fun g => mkCategory
          (mkProduct (fst g)
             (round 2 (Float.sum (map (fun r => Sales (row_of r)) (snd g))))
             (round 2 (Float.sum (map (fun r => Profit (row_of r)) (snd g))))
             (round 2 (Float.sum (map (fun r => Quantity (row_of r)) (snd g)))))
          (nunique (map (fun r => Order_ID (row_of r)) (snd g))))
      (groupby (fun r => Category (row_of r)) df).

(** [category_analysis.loc[category_analysis['Sales'].idxmax()]] *)
Definition best_category (df : list xrow) : result category_totals :=
  loc_idxmax category_Sales (category_analysis df).

(** *** Time series *)

Definition monthly_sales (df : list xrow) : list (period * float64) :=
  map (fun g => (fst g, Float.sum (map (fun r => Sales (row_of r)) (snd g))))
      (groupby2 (fun r => Order_Year (common r)) (fun r => Order_Month (common r)) df).

Definition monthly_profit (df : list xrow) : list (period * float64) :=
  map (fun g => (fst g, Float.sum (map (fun r => Profit (row_of r)) (snd g))))
      (groupby2 (fun r => Order_Year (common r)) (fun r => Order_Month (common r)) df).

End Enhanced.

(** * Vocabulary of the statements *)

Definition str_lt : string -> string -> Prop := String_as_OT.lt.

(** The keys [groupby] makes groups for. *)
Definition group_keys {R} (by_ : R -> option string) (df : list R) : list string :=
  unique_sorted (present (map by_ df)).

(** Number of records in all groups together. *)
Definition group_sizes {R} (groups : list (string * list R)) : nat :=
  list_sum (map (fun g => List.length (snd g)) groups).

(** Cells read from the file: a number or missing, never an infinity. *)
Definition finite_or_na (x : float64) : bool := isfinite x || isna x.

(** The [sum] reducer on one group. *)
Definition group_total {R} (column : R -> float64) (g : string * list R) : float64 :=
  Float.sum (map column (snd g)).

(** A row ranks before another when the other's cell is NaN or no greater. *)
Definition ranks_before {A} (column : A -> float64) (a b : A) : Prop :=
  isna (column b) = true \/ fleb (column b) (column a) = true.

(** The rows whose cell equals [v]. *)
Definition tied {A} (column : A -> float64) (v : float64) (l : list A) : list A :=
  filter (fun r => feqb (column r) v) l.

(** Descending by the column, rows with equal cells by ascending key. *)
Definition desc_then_key {A} (column : A -> float64) (key : A -> string)
           (a b : A) : Prop :=
  fltb (column b) (column a) = true
  \/ (column a = column b /\ str_lt (key a) (key b)).

Definition customer_key (c : Dashboard.customer) : string :=
  Dashboard.index (Dashboard.customer_totals c).

(** [sorted] holds the rows of [frame] in descending order of the column,
    NaN last: anything a descending sort of the frame may return, whatever
    order it leaves rows with equal cells in. *)
Definition descending_rearrangement {A} (column : A -> float64)
           (frame sorted : list A) : Prop :=
  Permutation sorted frame /\ StronglySorted (ranks_before column) sorted.

(** [sub] keeps some of the rows of [l], in the order they have in [l]. *)
Inductive subseq {A : Type} : list A -> list A -> Prop :=
| subseq_nil : subseq [] []
| subseq_keep (x : A) (sub l : list A) : subseq sub l -> subseq (x :: sub) (x :: l)
| subseq_skip (x : A) (sub l : list A) : subseq sub l -> subseq sub (x :: l).

(** A row passes the sidebar when it meets every filter that is switched on. *)
Definition passes (f : Dashboard.filters) (e : enriched) : bool :=
  match Dashboard.date_range f with
  | [lo; hi] => Dashboard.in_range lo hi e
  | _ => true
  end
  && (String.eqb (Dashboard.selected_category f) "All"
      || Dashboard.is_cell (Dashboard.selected_category f) (Category (base e)))
  && (String.eqb (Dashboard.selected_region f) "All"
      || Dashboard.is_cell (Dashboard.selected_region f) (Region (base e))).

(** Earlier in the calendar: an earlier year, or the same year and an
    earlier month. *)
Definition period_lt (a b : period) : Prop :=
  fst a < fst b \/ (fst a = fst b /\ snd a < snd b).

Definition category_key (c : Enhanced.category_totals) : string :=
  Enhanced.index (Enhanced.category_sums c).

(** The better of two rows by a column, the left one on a tie. *)
Definition pick {A} (column : A -> float64) (a b : A) : A :=
  if fltb (column a) (column b) then b else a.

(** A row without its dates: the cells [to_datetime] does not touch. *)
Definition undated {D} (r : row D) : row unit := with_dates r tt tt.

(** The margin a row gets from its profit and sales cells. *)
Definition margin_of {D} (r : row D) : Binary64.double :=
  Binary64.profit_margin (Binary64.of_float64 (Profit r))
                         (Binary64.of_float64 (Sales r)).


(** * Sample tables *)

Definition sample_row (sales profit discount : float64) : dated_row :=
  mkRow (Some "CA-2014-1") (Some (mkDate 2014 1 3)) (Some (mkDate 2014 1 7))
        (Some "Standard Class") (Some "Ann Lee") (Some "Furniture")
        (Some "Chairs") (Some "Task Chair") (Some "West") (Some "Ohio")
        (Some 43017%Z) sales (of_Z 2) discount profit (of_Z 4).

Definition zero_sales_frame : list enriched :=
  [add_features (sample_row (of_Z 0) (of_Z 5) (of_Z 0))].

Definition zero_discount_frame : list enriched :=
  [add_features (sample_row (of_Z 100) (of_Z 20) (of_Z 0))].


Definition banded_and_unbanded : list enriched :=
  [add_features (sample_row (of_Z 100) (of_Z 20) (of_Q (5 # 100)));
   add_features (sample_row (of_Z 50) (of_Z 5) (of_Z 0))].


Definition order_line (order customer state product : string)
           (sales profit : float64) : enriched :=
  add_features
    (mkRow (Some order) (Some (mkDate 2014 1 3)) (Some (mkDate 2014 1 7))
           (Some "Standard Class") (Some customer) (Some "Furniture")
           (Some "Chairs") (Some product) (Some "West") (Some state)
           (Some 43017%Z) sales (of_Z 2) (of_Q (5 # 100)) profit (of_Z 4)).

(** Eleven states.  Ohio and Utah both have a margin of 50; the other nine
    sell more and have margins 1 to 9. *)
Definition eleven_states : list enriched :=
  [order_line "CA-1" "Ann Lee" "Ohio" "Task Chair" (of_Z 100) (of_Z 50);
   order_line "CA-2" "Bo Diaz" "Utah" "Desk" (of_Z 200) (of_Z 100);
   order_line "CA-3" "Ann Lee" "Iowa" "Desk" (of_Z 1100) (of_Z 11);
   order_line "CA-4" "Ann Lee" "Idaho" "Desk" (of_Z 1200) (of_Z 24);
   order_line "CA-5" "Ann Lee" "Maine" "Desk" (of_Z 1300) (of_Z 39);
   order_line "CA-6" "Ann Lee" "Texas" "Desk" (of_Z 1400) (of_Z 56);
   order_line "CA-7" "Ann Lee" "Nevada" "Desk" (of_Z 1500) (of_Z 75);
   order_line "CA-8" "Ann Lee" "Oregon" "Desk" (of_Z 1600) (of_Z 96);
   order_line "CA-9" "Ann Lee" "Kansas" "Desk" (of_Z 1700) (of_Z 119);
   order_line "CA-10" "Ann Lee" "Alaska" "Desk" (of_Z 1800) (of_Z 144);
   order_line "CA-11" "Ann Lee" "Hawaii" "Desk" (of_Z 1900) (of_Z 171)].

Definition tied_customers : list enriched :=
  [order_line "CA-1" "Cy Young" "Ohio" "Task Chair" (of_Z 200) (of_Z 50);
   order_line "CA-2" "Bo Diaz" "Utah" "Desk" (of_Z 200) (of_Z 100);
   order_line "CA-3" "Ann Lee" "Utah" "Desk" (of_Z 50) (of_Z 10)].

(** Eleven customers.  Bo Diaz and Cy Young bought most, 2000 each; Cy
    Young's order comes first in the file. *)
Definition eleven_customers : list enriched :=
  [order_line "CA-1" "Cy Young" "Ohio" "Task Chair" (of_Z 2000) (of_Z 50);
   order_line "CA-2" "Bo Diaz" "Utah" "Desk" (of_Z 2000) (of_Z 100);
   order_line "CA-3" "Ann Lee" "Utah" "Desk" (of_Z 100) (of_Z 10);
   order_line "CA-4" "Di Wong" "Utah" "Desk" (of_Z 200) (of_Z 10);
   order_line "CA-5" "Ed Moss" "Utah" "Desk" (of_Z 300) (of_Z 10);
   order_line "CA-6" "Flo Hart" "Utah" "Desk" (of_Z 400) (of_Z 10);
   order_line "CA-7" "Gus Pike" "Utah" "Desk" (of_Z 500) (of_Z 10);
   order_line "CA-8" "Hal Reed" "Utah" "Desk" (of_Z 600) (of_Z 10);
   order_line "CA-9" "Ida Cole" "Utah" "Desk" (of_Z 700) (of_Z 10);
   order_line "CA-10" "Jo Park" "Utah" "Desk" (of_Z 800) (of_Z 10);
   order_line "CA-11" "Kit Dunn" "Utah" "Desk" (of_Z 900) (of_Z 10)].

Definition product_line (product : string) (sales profit : Z) : Enhanced.xrow :=
  Enhanced.add_ratios
    (order_line "CA-1" "Ann Lee" "Ohio" product (of_Z sales) (of_Z profit)).

Definition two_losses : list Enhanced.xrow :=
  [product_line "Lamp" 100 (-100); product_line "Desk" 300 (-1)].

(** Eleven loss-making products; the one that loses most sells least. *)
Definition eleven_losses : list Enhanced.xrow :=
  [product_line "P01" 1100 (-1); product_line "P02" 1000 (-2);
   product_line "P03" 900 (-3); product_line "P04" 800 (-4);
   product_line "P05" 700 (-5); product_line "P06" 600 (-6);
   product_line "P07" 500 (-7); product_line "P08" 400 (-8);
   product_line "P09" 300 (-9); product_line "P10" 200 (-10);
   product_line "P11" 100 (-1000)].

Definition raw_line (order product : string) : raw_row :=
  mkRow (Some order) (Some "03/01/2014") (Some "07/01/2014")
        (Some "Standard Class") (Some "Ann Lee") (Some "Furniture")
        (Some "Chairs") (Some product) (Some "West") (Some "Ohio")
        (Some 43017%Z) (of_Z 100) (of_Z 2) (of_Z 0) (of_Z 20) (of_Z 4).

(** One order of two lines. *)
Definition one_order_two_lines : list raw_row :=
  [raw_line "CA-2014-1" "Task Chair"; raw_line "CA-2014-1" "Desk"].

(** * Properties *)

(** ** Float cells *)

Lemma sgn_Eq (q : Qc) : sgn q = Eq <-> q = 0%Qc.
Proof. unfold sgn. symmetry. apply Qceq_alt. Qed.

Lemma fdiv_zero (a : Qc) :
  fdiv (Fin a) (Fin 0%Qc) =
  match sgn a with Gt => PInf | Lt => NInf | Eq => NaN end.
Proof. reflexivity. Qed.

Lemma fdiv_zero_not_finite (a : Qc) : isfinite (fdiv (Fin a) (Fin 0%Qc)) = false.
Proof. rewrite fdiv_zero. destruct (sgn a); reflexivity. Qed.

Lemma fmul_hundred_not_finite (x : float64) :
  isfinite x = false -> isfinite (fmul x hundred) = false.
Proof. destruct x; simpl; intros H; try discriminate; reflexivity. Qed.

Lemma round_not_finite (d : nat) (x : float64) :
  isfinite x = false -> round d x = x.
Proof. destruct x; simpl; intros H; try discriminate; reflexivity. Qed.

(** Two finite cells are equal when their reduced fractions are. *)
Lemma Fin_ext (a b : Qc) : this a = this b -> Fin a = Fin b.
Proof. intros H. f_equal. apply Qc_decomp. exact H. Qed.

Ltac float_eq := apply Fin_ext; vm_compute; reflexivity.


(** ** Binary64 arithmetic *)

Lemma hundred_value :
  Binary64.hundred = SpecFloat.S754_finite false 7036874417766400 (-46).
Proof. reflexivity. Qed.

Lemma pow10_2 : Binary64.pow10 2 = Binary64.hundred.
Proof. reflexivity. Qed.

Lemma shr_1_nonneg (mrs : SpecFloat.shr_record) :
  (0 <= SpecFloat.shr_m mrs)%Z -> (0 <= SpecFloat.shr_m (SpecFloat.shr_1 mrs))%Z.
Proof.
  destruct mrs as [m r s]. cbn.
  destruct m as [| [p | p |] | [p | p |]]; cbn; lia.
Qed.

Lemma iter_pos_invariant {A} (P : A -> Prop) (f : A -> A) :
  (forall x, P x -> P (f x)) ->
  forall p x, P x -> P (SpecFloat.iter_pos f p x).
Proof.
  intros Hf. induction p as [p IH | p IH |]; intros x Hx; cbn; auto.
Qed.

Lemma shr_nonneg (mrs : SpecFloat.shr_record) (e n : Z) :
  (0 <= SpecFloat.shr_m mrs)%Z -> (0 <= SpecFloat.shr_m (fst (SpecFloat.shr mrs e n)))%Z.
Proof.
  intros H. unfold SpecFloat.shr. destruct n as [| p | p]; cbn [fst]; try exact H.
  apply (iter_pos_invariant (fun x => (0 <= SpecFloat.shr_m x)%Z)); [| exact H].
  apply shr_1_nonneg.
Qed.

Lemma shr_fexp_nonneg (m e : Z) (l : SpecFloat.location) :
  (0 <= m)%Z ->
  (0 <= SpecFloat.shr_m (fst (SpecFloat.shr_fexp Binary64.prec Binary64.emax m e l)))%Z.
Proof.
  intros H. unfold SpecFloat.shr_fexp. apply shr_nonneg.
  destruct l as [| []]; exact H.
Qed.

Lemma round_nearest_even_nonneg (m : Z) (l : SpecFloat.location) :
  (0 <= m)%Z -> (0 <= SpecFloat.round_nearest_even m l)%Z.
Proof.
  intros H. destruct l as [| []]; cbn; try destruct (Z.even m); lia.
Qed.

(** Rounding a non-negative mantissa gives a zero, a finite double or an
    infinity. *)
Lemma binary_round_aux_notna (s : bool) (m e : Z) (l : SpecFloat.location) :
  (0 <= m)%Z ->
  Binary64.isna (SpecFloat.binary_round_aux Binary64.prec Binary64.emax s m e l) = false.
Proof.
  intros H. unfold SpecFloat.binary_round_aux.
  pose proof (shr_fexp_nonneg m e l H) as H1.
  destruct (SpecFloat.shr_fexp Binary64.prec Binary64.emax m e l) as [mrs' e'].
  cbn [fst] in H1.
  pose proof (shr_fexp_nonneg _ e' SpecFloat.loc_Exact
                (round_nearest_even_nonneg _ (SpecFloat.loc_of_shr_record mrs') H1)) as H2.
  destruct (SpecFloat.shr_fexp Binary64.prec Binary64.emax
              (SpecFloat.round_nearest_even (SpecFloat.shr_m mrs')
                 (SpecFloat.loc_of_shr_record mrs')) e' SpecFloat.loc_Exact)
    as [mrs'' e''].
  cbn [fst] in H2.
  destruct (SpecFloat.shr_m mrs'') as [| q | q]; [reflexivity | | lia].
  destruct (Z.leb e'' (Binary64.emax - Binary64.prec)); reflexivity.
Qed.

Lemma binary_round_notna (s : bool) (m : positive) (e : Z) :
  Binary64.isna (SpecFloat.binary_round Binary64.prec Binary64.emax s m e) = false.
Proof.
  unfold SpecFloat.binary_round.
  destruct (SpecFloat.shl_align m e _) as [mz ez].
  apply binary_round_aux_notna. lia.
Qed.

Lemma mul_notna (x y : Binary64.double) (s : bool) (m : positive) (e : Z) :
  y = SpecFloat.S754_finite s m e ->
  Binary64.isna x = false -> Binary64.isna (Binary64.mul x y) = false.
Proof.
  intros -> Hx. destruct x as [sx | sx | | sx mx ex]; try discriminate Hx;
    try reflexivity.
  unfold Binary64.mul, SpecFloat.SFmul. apply binary_round_aux_notna. lia.
Qed.

Lemma div_core_nonneg (m1 m2 : positive) (e1 e2 : Z) :
  (0 <= fst (fst (SpecFloat.SFdiv_core_binary Binary64.prec Binary64.emax
                    (Zpos m1) e1 (Zpos m2) e2)))%Z.
Proof.
  unfold SpecFloat.SFdiv_core_binary.
  match goal with
  | |- context [Z.div_eucl ?a ?b] =>
      assert (Ha : (0 <= a)%Z);
      [| pose proof (Z.div_pos a b Ha ltac:(lia)) as Hq;
         unfold Z.div in Hq; destruct (Z.div_eucl a b) as [q r]; exact Hq]
  end.
  match goal with
  | |- (0 <= match ?s with _ => _ end)%Z => destruct s
  end; try lia.
  apply Z.shiftl_nonneg. lia.
Qed.

Lemma div_notna (x y : Binary64.double) (s : bool) (m : positive) (e : Z) :
  y = SpecFloat.S754_finite s m e ->
  Binary64.isna x = false -> Binary64.isna (Binary64.div x y) = false.
Proof.
  intros -> Hx. destruct x as [sx | sx | | sx mx ex]; try discriminate Hx;
    try reflexivity.
  unfold Binary64.div, SpecFloat.SFdiv.
  pose proof (div_core_nonneg mx m ex e) as H.
  destruct (SpecFloat.SFdiv_core_binary Binary64.prec Binary64.emax
              (Zpos mx) ex (Zpos m) e) as [[mz ez] lz].
  apply binary_round_aux_notna. exact H.
Qed.

Lemma rint_notna (x : Binary64.double) :
  Binary64.isna x = false -> Binary64.isna (Binary64.rint x) = false.
Proof.
  intros Hx. destruct x as [sx | sx | | sx mx [| p | p]]; try discriminate Hx;
    try reflexivity.
  unfold Binary64.rint, Binary64.integer.
  destruct (Binary64.half_even (Zpos mx) (Z.pow_pos 2 p));
    [reflexivity | apply binary_round_notna | reflexivity].
Qed.

Lemma round_2_notna (x : Binary64.double) :
  Binary64.isna x = false -> Binary64.isna (Binary64.round 2 x) = false.
Proof.
  intros Hx. unfold Binary64.round. rewrite pow10_2.
  apply (div_notna _ _ _ _ _ hundred_value), rint_notna.
  apply (mul_notna _ _ _ _ _ hundred_value). exact Hx.
Qed.

Lemma round_2_infinity (s : bool) :
  Binary64.round 2 (SpecFloat.S754_infinity s) = SpecFloat.S754_infinity s.
Proof. destruct s; reflexivity. Qed.

Lemma quotient_notna_iff (p s : Binary64.double) :
  Binary64.isfinite p = true -> Binary64.isfinite s = true ->
  (Binary64.isna (Binary64.quotient p s) = true
   <-> Binary64.is_zero s = true /\ Binary64.is_zero p = true).
Proof.
  intros Hp Hs. unfold Binary64.quotient.
  destruct s as [ss | ss | | ss ms es]; try discriminate Hs.
  - destruct p as [sp | sp | | sp mp ep]; try discriminate Hp; cbn.
    + split; auto.
    + split; [discriminate | intros [_ H]; discriminate H].
  - assert (H : Binary64.isna (Binary64.mul (Binary64.div p (SpecFloat.S754_finite ss ms es))
                                  Binary64.hundred) = false).
    { apply (mul_notna _ _ _ _ _ hundred_value).
      apply (div_notna _ _ ss ms es eq_refl).
      destruct p; try discriminate Hp; reflexivity. }
    rewrite H. cbn. split; [discriminate | intros [H' _]; discriminate H'].
Qed.

Lemma half_even_nearest (m d : Z) :
  (0 <= m)%Z -> (0 < d)%Z ->
  (0 <= Binary64.half_even m d)%Z
  /\ (2 * Z.abs (Binary64.half_even m d * d - m) <= d)%Z
  /\ ((2 * Z.abs (Binary64.half_even m d * d - m) = d)%Z ->
      Z.even (Binary64.half_even m d) = true).
Proof.
  intros Hm Hd. unfold Binary64.half_even.
  pose proof (Z.div_mod m d ltac:(lia)) as Hdm.
  pose proof (Z.mod_pos_bound m d Hd) as Hb.
  pose proof (Z.div_pos m d Hm Hd) as Hq.
  set (q := (m / d)%Z) in *. set (r := (m mod d)%Z) in *.
  destruct (Z.compare_spec (2 * r) d) as [E | L | G].
  - destruct (Z.even q) eqn:Hev.
    + repeat split; try lia. intros _. exact Hev.
    + repeat split; try lia. intros _.
      rewrite Z.add_1_r, Z.even_succ, <- Z.negb_even, Hev. reflexivity.
  - repeat split; lia.
  - repeat split; lia.
Qed.

(** ** C1: the per-record profit margin *)

(** C1, refuted as stated.  For the record with sales 0 and profit 5 the
    stored margin is [+inf], which pandas does not count as missing; for
    sales 3 and profit 1 it is 33.33, not the quotient. *)
Lemma C1_counterexample :
  Profit_Margin (add_features (sample_row (of_Z 0) (of_Z 5) (of_Z 0)))
    = SpecFloat.S754_infinity false
  /\ Binary64.isna (Profit_Margin (add_features (sample_row (of_Z 0) (of_Z 5) (of_Z 0))))
     = false
  /\ Profit_Margin (add_features (sample_row (of_Z 3) (of_Z 1) (of_Z 0)))
     = Binary64.nearest 3333 100
  /\ Binary64.quotient (Binary64.of_Z 1) (Binary64.of_Z 3) <> Binary64.nearest 3333 100.
Proof.
  split; [| split; [| split]]; try (vm_compute; reflexivity).
  vm_compute. discriminate.
Qed.

(** The margin of sales 160 and profit 23: the quotient is the double just
    below 14.375, so the cell stored is 14.37. *)
Example margin_rounds_the_double :
  Binary64.quotient (Binary64.of_Z 23) (Binary64.of_Z 160)
    = SpecFloat.S754_finite false 8092405580431359 (-49)
  /\ Binary64.nearest 14375 1000 = SpecFloat.S754_finite false 8092405580431360 (-49)
  /\ Binary64.profit_margin (Binary64.of_Z 23) (Binary64.of_Z 160)
     = Binary64.nearest 1437 100.
Proof. repeat split; vm_compute; reflexivity. Qed.

(** C1, amended.  For finite profit and sales cells the stored margin is
    [profit / sales * 100] computed in doubles and rounded to two decimals.
    It is NaN exactly when sales and profit are both zero.  With sales zero
    and profit not zero it is the infinity whose sign is the product of the
    two signs, which pandas does not count as missing; so with sales zero it
    is never a finite number, in particular never 0.  With sales not zero it
    is never NaN. *)
Theorem C1_profit_margin_cell (p s : Binary64.double) :
  Binary64.isfinite p = true -> Binary64.isfinite s = true ->
  (Binary64.isna (Binary64.profit_margin p s) = true
   <-> Binary64.is_zero s = true /\ Binary64.is_zero p = true)
  /\ (Binary64.is_zero s = true -> Binary64.is_zero p = false ->
      Binary64.profit_margin p s
      = SpecFloat.S754_infinity (xorb (Binary64.signbit p) (Binary64.signbit s)))
  /\ (Binary64.is_zero s = true ->
      Binary64.isfinite (Binary64.profit_margin p s) = false)
  /\ (Binary64.is_zero s = false ->
      Binary64.isna (Binary64.profit_margin p s) = false)
  /\ Binary64.profit_margin p s = Binary64.round 2 (Binary64.quotient p s)
  /\ (forall r : dated_row,
        Profit_Margin (add_features r)
        = Binary64.profit_margin (Binary64.of_float64 (Profit r))
                                 (Binary64.of_float64 (Sales r))).
Proof.
  intros Hp Hs.
  assert (Hna : Binary64.isna (Binary64.profit_margin p s)
                = Binary64.isna (Binary64.quotient p s)).
  { unfold Binary64.profit_margin.
    destruct (Binary64.isna (Binary64.quotient p s)) eqn:Hq.
    - destruct (Binary64.quotient p s); try discriminate Hq. reflexivity.
    - apply round_2_notna. exact Hq. }
  split; [| split; [| split; [| split; [| split]]]].
  - rewrite Hna. apply quotient_notna_iff; assumption.
  - intros Hz Hpz.
    destruct s as [ss | | |]; try discriminate Hz.
    destruct p as [| | | sp mp ep]; try discriminate Hp; try discriminate Hpz.
    unfold Binary64.profit_margin, Binary64.quotient. cbn.
    destruct sp, ss; reflexivity.
  - intros Hz.
    destruct s as [ss | | |]; try discriminate Hz.
    destruct p as [sp | | | sp mp ep]; try discriminate Hp.
    + reflexivity.
    + destruct sp, ss; reflexivity.
  - intros Hnz. rewrite Hna.
    destruct (Binary64.isna (Binary64.quotient p s)) eqn:Hq; [| reflexivity].
    apply (quotient_notna_iff p s Hp Hs) in Hq as [Hz _]. congruence.
  - reflexivity.
  - reflexivity.
Qed.

Lemma C1_profit_margin_cell_witness :
  Binary64.profit_margin (Binary64.of_Z 5) (Binary64.of_Z 0)
    = SpecFloat.S754_infinity false
  /\ (Binary64.isna (Binary64.profit_margin (Binary64.of_Z 20) (Binary64.of_Z 100)) = true
      <-> Binary64.is_zero (Binary64.of_Z 100) = true
          /\ Binary64.is_zero (Binary64.of_Z 20) = true).
Proof.
  split.
  - exact (proj1 (proj2 (C1_profit_margin_cell (Binary64.of_Z 5) (Binary64.of_Z 0)
                           eq_refl eq_refl)) eq_refl eq_refl).
  - exact (proj1 (C1_profit_margin_cell (Binary64.of_Z 20) (Binary64.of_Z 100)
                    eq_refl eq_refl)).
Defined.

(** ** Converting the date columns *)

(** Cells other than the dates are the same before and after the conversion. *)
Lemma assign_dates_undated (i : nat) (os ss : list (option date)) (raw : list raw_row) :
  map undated (assign_dates i os ss raw) = map undated raw.
Proof.
  revert i. induction raw as [| r rest IH]; intros i; [reflexivity |].
  cbn [assign_dates map]. rewrite IH. reflexivity.
Qed.

Lemma convert_dates_with_undated
      (conv : list (option string) -> list (option date)) (raw : list raw_row) :
  map undated (convert_dates_with conv raw) = map undated raw.
Proof. apply assign_dates_undated. Qed.

(** Two tables that agree through [h] and [h'] agree on what is selected and
    read through them. *)
Lemma map_filter_through {A B C D} (h : A -> C) (h' : B -> C)
      (p : C -> bool) (g : C -> D) (l : list A) (l' : list B) :
  map h l = map h' l' ->
  map (fun a => g (h a)) (filter (fun a => p (h a)) l)
  = map (fun b => g (h' b)) (filter (fun b => p (h' b)) l').
Proof.
  revert l'. induction l as [| a l IH]; intros [| b l'] H; try discriminate H;
    [reflexivity |].
  cbn [map] in H. injection H as Hab Hl. cbn [filter]. rewrite Hab.
  destruct (p (h' b)); cbn [map]; rewrite ?Hab, (IH l' Hl); reflexivity.
Qed.

Lemma df_cleaned_with_margins
      (conv : list (option string) -> list (option date)) (raw : list raw_row) :
  map (fun r => Profit_Margin (Enhanced.common r)) (Enhanced.df_cleaned_with conv raw)
  = map margin_of (filter (fun r => notnone (Postal_Code r)) raw).
Proof.
  unfold Enhanced.df_cleaned_with.
  pose proof (convert_dates_with_undated conv raw) as H.
  set (l := convert_dates_with conv raw) in *.
  transitivity (map margin_of (filter (fun c => notnone (Postal_Code c)) l)).
  - clear H. induction l as [| c l IH]; [reflexivity |].
    cbn [map filter]. unfold has_postal_code at 1.
    cbn [Enhanced.common Enhanced.add_ratios add_features base].
    destruct (notnone (Postal_Code c)); cbn [map]; rewrite IH; reflexivity.
  - exact (map_filter_through undated undated
             (fun u => notnone (Postal_Code u)) margin_of l raw H).
Qed.

(** ** C10: when the margin is rounded *)

(** C10, refuted as stated.  For the record with sales 3 and profit 2 the
    stored margin is 66.67, while the quotient [2 / 3 * 100] is not; this
    rounded cell is the one in the column of the correlation matrix. *)
Lemma C10_counterexample :
  Profit_Margin (add_features (sample_row (of_Z 3) (of_Z 2) (of_Z 0)))
    = Binary64.nearest 6667 100
  /\ Binary64.quotient (Binary64.of_Z 2) (Binary64.of_Z 3) <> Binary64.nearest 6667 100
  /\ nth 5 (Enhanced.numeric_cols
              [Enhanced.add_ratios (add_features (sample_row (of_Z 3) (of_Z 2) (of_Z 0)))])
         []
     = [Binary64.nearest 6667 100].
Proof.
  split; [| split]; try (vm_compute; reflexivity).
  vm_compute. discriminate.
Qed.

(** C10, amended.  The margin is rounded when the column is derived.  With
    [y] the quotient [profit / sales * 100] times 100, in doubles: when [y]
    has a fractional part, [y = m * 2^(-e)], the stored cell is [k / 100] for
    the integer [k] nearest to [y], the even one of two equally near; when
    [y] is an integer the stored cell is [y / 100].  A quotient that is NaN
    or an infinity is stored as it is.  The rounded cells are what the
    correlation matrix and the box plot of the enhanced report read: their
    margin column holds, for every row with a postal code, the rounded margin
    of that row. *)
Theorem C10_margin_rounded_when_derived
  (p s : Binary64.double)
  (to_datetime_column : list (option string) -> list (option date))
  (raw : list raw_row) :
  let y := Binary64.mul (Binary64.quotient p s) Binary64.hundred in
  (forall sign m e,
     y = SpecFloat.S754_finite sign m (Zneg e) ->
     exists k : Z,
       Binary64.profit_margin p s
       = Binary64.div (Binary64.integer sign k) Binary64.hundred
       /\ (0 <= k)%Z
       /\ (2 * Z.abs (k * Z.pow_pos 2 e - Zpos m) <= Z.pow_pos 2 e)%Z
       /\ ((2 * Z.abs (k * Z.pow_pos 2 e - Zpos m) = Z.pow_pos 2 e)%Z ->
           Z.even k = true))
  /\ (forall sign m e,
        y = SpecFloat.S754_finite sign m e -> (0 <= e)%Z ->
        Binary64.profit_margin p s = Binary64.div y Binary64.hundred)
  /\ (Binary64.is_zero y = true -> Binary64.profit_margin p s = y)
  /\ (Binary64.isfinite (Binary64.quotient p s) = false ->
      Binary64.profit_margin p s = Binary64.quotient p s)
  /\ nth 5 (Enhanced.numeric_cols (Enhanced.df_cleaned_with to_datetime_column raw)) []
     = map margin_of (filter (fun r => notnone (Postal_Code r)) raw)
  /\ map snd (Enhanced.margin_by_category
                (Enhanced.df_cleaned_with to_datetime_column raw))
     = map margin_of (filter (fun r => notnone (Postal_Code r)) raw).
Proof.
  intros y.
  assert (Hstored : Binary64.profit_margin p s
                    = Binary64.div (Binary64.rint y) Binary64.hundred) by reflexivity.
  split; [| split; [| split; [| split; [| split]]]].
  - intros sign m e Hy. exists (Binary64.half_even (Zpos m) (Z.pow_pos 2 e)).
    rewrite Hstored, Hy.
    assert (Hd : (0 < Z.pow_pos 2 e)%Z).
    { rewrite Z.pow_pos_fold. apply Z.pow_pos_nonneg; lia. }
    destruct (half_even_nearest (Zpos m) (Z.pow_pos 2 e) ltac:(lia) Hd)
      as (H0 & H1 & H2).
    repeat split; assumption.
  - intros sign m e Hy He. rewrite Hstored, Hy. destruct e; try lia; reflexivity.
  - intros Hz. rewrite Hstored. destruct y as [sy | | |]; try discriminate Hz.
    destruct sy; reflexivity.
  - intros Hq. unfold Binary64.profit_margin.
    destruct (Binary64.quotient p s) as [| sq | |]; try discriminate Hq.
    + apply round_2_infinity.
    + reflexivity.
  - cbn [Enhanced.numeric_cols nth]. apply df_cleaned_with_margins.
  - unfold Enhanced.margin_by_category. rewrite map_map. cbn [snd].
    apply df_cleaned_with_margins.
Qed.

(** ** C2: ratios over a whole record set *)

Lemma fdiv_by_zero_not_finite (x : float64) : isfinite (fdiv x (Fin 0%Qc)) = false.
Proof.
  destruct x as [a | | |]; try reflexivity. apply fdiv_zero_not_finite.
Qed.

Lemma ratio_by_zero_not_finite (x : float64) :
  isfinite (fmul (fdiv x (Fin 0%Qc)) hundred) = false.
Proof. apply fmul_hundred_not_finite, fdiv_by_zero_not_finite. Qed.

(** The dashboard's guard: whenever total sales is not above zero the margin
    shown is the number 0. *)
Lemma dashboard_margin_guard (df : list enriched) :
  fgtb (Dashboard.total_sales df) (of_Z 0) = false ->
  Dashboard.profit_margin df = of_Z 0.
Proof. intros H. unfold Dashboard.profit_margin. rewrite H. reflexivity. Qed.

(** C2, refuted as stated.  On a record set whose only row has sales 0 and
    profit 5, total sales is 0 and the dashboard shows a profit margin of 0;
    so it does when the filters leave no record at all. *)
Lemma C2_counterexample :
  Dashboard.total_sales zero_sales_frame = of_Z 0
  /\ Dashboard.profit_margin zero_sales_frame = of_Z 0
  /\ isna (Dashboard.profit_margin zero_sales_frame) = false
  /\ Dashboard.total_sales [] = of_Z 0
  /\ Dashboard.profit_margin [] = of_Z 0.
Proof. split; [float_eq | repeat split; reflexivity]. Qed.

(** C2, amended.  When total sales is 0 the dashboard's profit-margin KPI is
    0, by its explicit guard.  The ratios computed without a guard follow
    float division: with a zero denominator the enhanced report's average
    profit margin, a group's [Profit_Margin] in the dashboard and the average
    order value are not finite numbers (NaN when the numerator is 0 too, an
    infinity otherwise), hence never 0. *)
Theorem C2_zero_denominator
  (df : list enriched) (xdf : list Enhanced.xrow) (t : Dashboard.totals) :
  (Dashboard.total_sales df = Fin 0%Qc -> Dashboard.profit_margin df = of_Z 0)
  /\ (Enhanced.total_sales xdf = Fin 0%Qc ->
        isfinite (Enhanced.avg_profit_margin xdf) = false
        /\ (Enhanced.total_profit xdf = Fin 0%Qc ->
              Enhanced.avg_profit_margin xdf = NaN))
  /\ (Dashboard.sum_Sales t = Fin 0%Qc ->
        isfinite (Dashboard.Profit_Margin_ratio t) = false)
  /\ (Dashboard.total_orders df = 0 ->
        isfinite (Dashboard.avg_order_value df) = false).
Proof.
  repeat split.
  - intros H. apply dashboard_margin_guard. unfold fgtb. rewrite H. reflexivity.
  - unfold Enhanced.avg_profit_margin. rewrite H. apply ratio_by_zero_not_finite.
  - intros Hp. unfold Enhanced.avg_profit_margin. rewrite H, Hp. reflexivity.
  - intros H. unfold Dashboard.Profit_Margin_ratio. rewrite H.
    apply ratio_by_zero_not_finite.
  - intros H. unfold Dashboard.avg_order_value. rewrite H.
    apply fdiv_by_zero_not_finite.
Qed.

Lemma C2_zero_denominator_witness :
  Dashboard.profit_margin zero_sales_frame = of_Z 0
  /\ isfinite (Enhanced.avg_profit_margin (map Enhanced.add_ratios zero_sales_frame)) = false
  /\ isfinite (Dashboard.Profit_Margin_ratio (Dashboard.mkTotals "Ohio" (Fin 0%Qc) (of_Z 5))) = false
  /\ isfinite (Dashboard.avg_order_value []) = false.
Proof.
  destruct (C2_zero_denominator zero_sales_frame
              (map Enhanced.add_ratios zero_sales_frame)
              (Dashboard.mkTotals "Ohio" (Fin 0%Qc) (of_Z 5)))
    as (H1 & H2 & H3 & _).
  destruct (C2_zero_denominator [] [] (Dashboard.mkTotals "Ohio" (Fin 0%Qc) (of_Z 5)))
    as (_ & _ & _ & H4).
  split; [apply H1; float_eq |].
  split; [apply H2; float_eq |].
  split; [apply H3; reflexivity | apply H4; reflexivity].
Defined.

(** ** Order on float cells *)

Lemma Qccompare_spec (a b : Qc) :
  CompareSpec (a = b) (a < b)%Qc (b < a)%Qc (a ?= b)%Qc.
Proof.
  destruct (a ?= b)%Qc eqn:E; constructor.
  - apply Qceq_alt. exact E.
  - apply Qclt_alt. exact E.
  - apply Qcgt_alt. exact E.
Qed.

Ltac qc_order :=
  repeat match goal with
         | H : (_ < _)%Qc |- _ => unfold Qclt in H
         | H : (_ <= _)%Qc |- _ => unfold Qcle in H
         end;
  unfold Qclt, Qcle; lra.

Ltac cmp_cases :=
  repeat match goal with
         | |- context [Qccompare ?a ?b] => destruct (Qccompare_spec a b)
         end;
  intros; subst; try discriminate; try reflexivity; try (exfalso; qc_order).

Lemma fltb_trans (a b c : float64) :
  fltb a b = true -> fltb b c = true -> fltb a c = true.
Proof.
  destruct a as [x | | |], b as [y | | |], c as [z | | |]; simpl;
    try discriminate; try reflexivity.
  cmp_cases.
Qed.

Lemma fleb_not_fltb (v b : float64) : fleb v b = true -> fltb b v = false.
Proof.
  destruct v as [x | | |], b as [y | | |]; simpl; try discriminate; try reflexivity.
  cmp_cases.
Qed.

Lemma fltb_false_fleb (e v : float64) :
  notna e = true -> notna v = true -> fltb e v = false -> fleb v e = true.
Proof.
  destruct e as [x | | |], v as [y | | |]; simpl; try discriminate; try reflexivity.
  cmp_cases.
Qed.

Lemma fltb_notna (a b : float64) :
  fltb a b = true -> notna a = true /\ notna b = true.
Proof. destruct a, b; simpl; try discriminate; auto. Qed.

Lemma fltb_fleb (a b : float64) : fltb a b = true -> fleb a b = true.
Proof.
  destruct a as [x | | |], b as [y | | |]; simpl; try discriminate; try reflexivity.
  destruct (x ?= y)%Qc; try discriminate; reflexivity.
Qed.

(** ** C3: the segmenter *)

Section Cut.
Variable v : float64.

Lemma increasing_tail (a : float64) (t : list float64) :
  increasing (a :: t) = true -> increasing t = true.
Proof.
  destruct t as [| b t]; [reflexivity |].
  cbn [increasing]. intros H. apply andb_true_iff in H. apply H.
Qed.

Lemma increasing_head_lt (t : list float64) :
  forall a i e, increasing (a :: t) = true -> nth_error t i = Some e ->
                fltb a e = true.
Proof.
  induction t as [| b t IH]; intros a i e Hinc Hnth.
  - destruct i; discriminate Hnth.
  - cbn [increasing] in Hinc. apply andb_true_iff in Hinc as [Hab Hrest].
    destruct i as [| i]; cbn [nth_error] in Hnth.
    + injection Hnth as <-. exact Hab.
    + apply fltb_trans with b; [exact Hab |].
      apply (IH b i e); assumption.
Qed.

Lemma increasing_consecutive (bins : list float64) :
  forall i lo hi, increasing bins = true ->
                  nth_error bins i = Some lo -> nth_error bins (S i) = Some hi ->
                  fltb lo hi = true.
Proof.
  induction bins as [| a t IH]; intros i lo hi Hinc Hlo Hhi.
  - destruct i; discriminate Hlo.
  - destruct i as [| i]; cbn [nth_error] in Hlo, Hhi.
    + injection Hlo as <-. apply (increasing_head_lt t a 0 hi); assumption.
    + apply (IH i); [apply (increasing_tail a) | |]; assumption.
Qed.

(** The scan stops at the first edge that is not below [v]. *)
Lemma searchsorted_stop (bins : list float64) :
  (forall j e, j < searchsorted_left bins v -> nth_error bins j = Some e ->
               fltb e v = true)
  /\ (forall e, nth_error bins (searchsorted_left bins v) = Some e ->
                fltb e v = false)
  /\ searchsorted_left bins v <= List.length bins.
Proof.
  induction bins as [| a t (IH1 & IH2 & IH3)]; cbn [searchsorted_left].
  - repeat split; intros; try lia; try discriminate.
  - destruct (fltb a v) eqn:Hav; repeat split.
    + intros [| j] e Hj Hnth; cbn [nth_error] in Hnth.
      * injection Hnth as <-. exact Hav.
      * apply (IH1 j); [lia | exact Hnth].
    + intros e Hnth. cbn [nth_error] in Hnth. apply IH2. exact Hnth.
    + cbn [List.length]. lia.
    + intros j e Hj. lia.
    + intros e Hnth. cbn [nth_error] in Hnth. injection Hnth as <-. exact Hav.
    + lia.
Qed.

Lemma searchsorted_interval (bins : list float64) :
  forall i lo hi, increasing bins = true ->
                  nth_error bins i = Some lo -> nth_error bins (S i) = Some hi ->
                  fltb lo v = true -> fleb v hi = true ->
                  searchsorted_left bins v = S i.
Proof.
  induction bins as [| a t IH]; intros i lo hi Hinc Hlo Hhi Hlt Hle.
  - destruct i; discriminate Hlo.
  - destruct i as [| i]; cbn [nth_error] in Hlo, Hhi; cbn [searchsorted_left].
    + injection Hlo as <-. rewrite Hlt.
      destruct t as [| b t]; [discriminate Hhi |].
      cbn [nth_error] in Hhi. injection Hhi as <-.
      cbn [searchsorted_left]. rewrite (fleb_not_fltb _ _ Hle). reflexivity.
    + assert (Hav : fltb a v = true).
      { apply fltb_trans with lo; [| exact Hlt].
        apply (increasing_head_lt t a i lo); assumption. }
      rewrite Hav. f_equal.
      apply (IH i lo hi); try assumption. apply (increasing_tail a). exact Hinc.
Qed.

Lemma searchsorted_above_last (bins : list float64) :
  forall n en, increasing bins = true -> nth_error bins n = Some en ->
               S n = List.length bins -> fltb en v = true ->
               searchsorted_left bins v = List.length bins.
Proof.
  induction bins as [| a t IH]; intros n en Hinc Hnth Hlen Hlt.
  - discriminate Hlen.
  - cbn [searchsorted_left List.length].
    destruct n as [| n]; cbn [nth_error] in Hnth.
    + injection Hnth as <-. rewrite Hlt.
      destruct t; [reflexivity | discriminate Hlen].
    + assert (Hav : fltb a v = true).
      { apply fltb_trans with en; [| exact Hlt].
        apply (increasing_head_lt t a n en); assumption. }
      rewrite Hav. f_equal. apply (IH n en); try assumption.
      * apply (increasing_tail a). exact Hinc.
      * cbn [List.length] in Hlen. lia.
Qed.
End Cut.

(** With valid bins the call returns: the label at [ids - 1], or NaN. *)
Lemma cut_valid (v : float64) (bins : list float64) (labels : list string) :
  increasing bins = true -> S (List.length labels) = List.length bins ->
  cut v bins labels =
  let ids := searchsorted_left bins v in
  if isna v || (ids =? List.length bins) || (ids =? 0) then Ok None
  else Ok (nth_error labels (ids - 1)).
Proof.
  intros Hinc Hlen. unfold cut. rewrite Hinc, Hlen, Nat.eqb_refl. reflexivity.
Qed.

(** C3.  For strictly increasing edges and one label fewer than edges, the
    value [v] gets the label [lbl] exactly when [lbl] is the label of an
    interval [(e_i, e_(i+1)]] that holds [v]; a value at or below the first
    edge, or above the last, gets no label.  So total sales of exactly 1000
    is Bronze, a discount of exactly 0.1 is in "0-10%", one of 0.2 in
    "10-20%", and a discount of 0 has no band. *)
Theorem C3_cut_right_inclusive
  (v : float64) (bins : list float64) (labels : list string) :
  increasing bins = true -> S (List.length labels) = List.length bins ->
  (forall lbl,
      cut v bins labels = Ok (Some lbl) <->
      exists i lo hi,
        nth_error labels i = Some lbl
        /\ nth_error bins i = Some lo /\ nth_error bins (S i) = Some hi
        /\ fltb lo v = true /\ fleb v hi = true)
  /\ (forall e0 en,
        nth_error bins 0 = Some e0 ->
        nth_error bins (List.length labels) = Some en ->
        fleb v e0 = true \/ fltb en v = true ->
        cut v bins labels = Ok None)
  /\ cut (of_Z 1000) segment_bins segment_labels = Ok (Some "Bronze")
  /\ cut (of_Q (1 # 10)) discount_bins discount_labels = Ok (Some "0-10%")
  /\ cut (of_Q (2 # 10)) discount_bins discount_labels = Ok (Some "10-20%")
  /\ cut (of_Z 0) discount_bins discount_labels = Ok None.
Proof.
  intros Hinc Hlen.
  pose proof (cut_valid v bins labels Hinc Hlen) as Hcut. cbv zeta in Hcut.
  destruct (searchsorted_stop v bins) as (Hbelow & Hstop & Hk).
  split; [| split; [| repeat split; reflexivity]].
  - intros lbl. split.
    + rewrite Hcut.
      destruct (isna v) eqn:Hna; [discriminate |].
      destruct (searchsorted_left bins v =? List.length bins) eqn:Hfull;
        [discriminate |].
      destruct (searchsorted_left bins v =? 0) eqn:Hzero; [discriminate |].
      cbn [orb]. intros Hlbl. injection Hlbl as Hlbl.
      apply Nat.eqb_neq in Hfull, Hzero.
      set (k := searchsorted_left bins v) in *.
      destruct (nth_error bins (k - 1)) as [lo |] eqn:Hlo;
        [| apply nth_error_None in Hlo; lia].
      destruct (nth_error bins k) as [hi |] eqn:Hhi;
        [| apply nth_error_None in Hhi; lia].
      exists (k - 1), lo, hi.
      replace (S (k - 1)) with k by lia.
      assert (Hlov : fltb lo v = true) by (apply (Hbelow (k - 1)); [lia | exact Hlo]).
      repeat split; try assumption.
      apply fltb_false_fleb.
      * assert (Hlh : fltb lo hi = true).
        { apply (increasing_consecutive bins (k - 1)); try assumption.
          replace (S (k - 1)) with k by lia. exact Hhi. }
        apply (fltb_notna _ _ Hlh).
      * unfold notna. rewrite Hna. reflexivity.
      * apply Hstop. reflexivity.
    + intros (i & lo & hi & Hl & Hlo & Hhi & Hlt & Hle).
      rewrite Hcut.
      rewrite (searchsorted_interval v bins i lo hi) by assumption.
      assert (Hi : S i < List.length bins).
      { apply nth_error_Some. rewrite Hhi. discriminate. }
      destruct (fltb_notna _ _ Hlt) as [_ Hv]. unfold notna in Hv.
      apply negb_true_iff in Hv. rewrite Hv.
      replace (S i =? List.length bins) with false
        by (symmetry; apply Nat.eqb_neq; lia).
      cbn [orb Nat.eqb]. replace (S i - 1) with i by lia.
      rewrite Hl. reflexivity.
  - intros e0 en He0 Hen [Hle | Hgt]; rewrite Hcut.
    + destruct bins as [| a t]; [discriminate He0 |].
      cbn [nth_error] in He0. injection He0 as ->.
      cbn [searchsorted_left]. rewrite (fleb_not_fltb _ _ Hle).
      rewrite orb_true_r. reflexivity.
    + rewrite (searchsorted_above_last v bins (List.length labels) en)
        by assumption.
      rewrite Nat.eqb_refl, orb_true_r. reflexivity.
Qed.

Lemma C3_cut_right_inclusive_witness :
  cut (of_Z 1000) segment_bins segment_labels = Ok (Some "Bronze")
  <-> exists i lo hi,
        nth_error segment_labels i = Some "Bronze"
        /\ nth_error segment_bins i = Some lo
        /\ nth_error segment_bins (S i) = Some hi
        /\ fltb lo (of_Z 1000) = true /\ fleb (of_Z 1000) hi = true.
Proof.
  exact (proj1 (C3_cut_right_inclusive (of_Z 1000) segment_bins segment_labels
                  eq_refl eq_refl) "Bronze").
Defined.

(** ** Keys of a grouping *)

Lemma str_lt_irrefl (a : string) : ~ str_lt a a.
Proof. apply (StrictOrder_Irreflexive (R := String_as_OT.lt)). Qed.

Lemma str_lt_trans (a b c : string) : str_lt a b -> str_lt b c -> str_lt a c.
Proof. apply (StrictOrder_Transitive (R := String_as_OT.lt)). Qed.

Lemma in_insert_key (k x : string) (ks : list string) :
  In x (insert_key k ks) <-> x = k \/ In x ks.
Proof.
  induction ks as [| h t IH]; cbn [insert_key].
  - cbn. intuition (subst; auto).
  - destruct (String_as_OT.compare_spec k h) as [E | L | G]; cbn [In].
    + subst. intuition (subst; auto).
    + intuition (subst; auto).
    + rewrite IH. intuition (subst; auto).
Qed.

Lemma in_unique_sorted (x : string) (ks : list string) :
  In x (unique_sorted ks) <-> In x ks.
Proof.
  induction ks as [| k t IH]; cbn [unique_sorted fold_right]; [reflexivity |].
  fold (unique_sorted t). rewrite in_insert_key, IH. cbn [In]. intuition (subst; auto).
Qed.

Lemma insert_key_sorted (k : string) (ks : list string) :
  StronglySorted str_lt ks -> StronglySorted str_lt (insert_key k ks).
Proof.
  induction ks as [| h t IH]; intros Hs; cbn [insert_key].
  - repeat constructor.
  - inversion Hs as [| ? ? Ht Hh]; subst.
    destruct (String_as_OT.compare_spec k h) as [E | L | G].
    + exact Hs.
    + constructor; [exact Hs |].
      constructor; [exact L |].
      eapply Forall_impl; [| exact Hh]. intros y Hy. exact (str_lt_trans _ _ _ L Hy).
    + constructor; [apply IH; exact Ht |].
      apply Forall_forall. intros y Hy. apply in_insert_key in Hy as [-> | Hy].
      * exact G.
      * rewrite Forall_forall in Hh. apply Hh. exact Hy.
Qed.

Lemma unique_sorted_sorted (ks : list string) :
  StronglySorted str_lt (unique_sorted ks).
Proof.
  induction ks as [| k t IH]; cbn [unique_sorted fold_right]; [constructor |].
  apply insert_key_sorted. exact IH.
Qed.

Lemma sorted_NoDup (ks : list string) : StronglySorted str_lt ks -> NoDup ks.
Proof.
  induction 1 as [| h t Ht IH Hh]; constructor; [| exact IH].
  intros Hin. rewrite Forall_forall in Hh. exact (str_lt_irrefl h (Hh h Hin)).
Qed.

Lemma in_present {A} (x : A) (cells : list (option A)) :
  In x (present cells) <-> In (Some x) cells.
Proof.
  unfold present. rewrite in_flat_map. split.
  - intros ([y |] & Hin & Hx); cbn in Hx; [| contradiction].
    destruct Hx as [-> | []]. exact Hin.
  - intros Hin. exists (Some x). split; [exact Hin | left; reflexivity].
Qed.

Section Groups.
Context {R : Type}.
Variable by_ : R -> option string.

Lemma has_key_iff (k : string) (r : R) : has_key by_ k r = true <-> by_ r = Some k.
Proof.
  unfold has_key, opt_eqb. destruct (by_ r) as [k' |].
  - rewrite String.eqb_eq. split; congruence.
  - split; discriminate.
Qed.

Lemma in_group_keys (k : string) (df : list R) :
  In k (group_keys by_ df) <-> exists r, In r df /\ by_ r = Some k.
Proof.
  unfold group_keys. rewrite in_unique_sorted, in_present, in_map_iff.
  split; intros (r & H1 & H2); exists r; auto.
Qed.

Lemma groupby_keys (df : list R) : map fst (groupby by_ df) = group_keys by_ df.
Proof. unfold groupby. rewrite map_map. cbn [fst]. apply map_id. Qed.

Lemma in_groupby (k : string) (g : list R) (df : list R) :
  In (k, g) (groupby by_ df) <->
  In k (group_keys by_ df) /\ g = filter (has_key by_ k) df.
Proof.
  unfold groupby. fold (group_keys by_ df). rewrite in_map_iff. split.
  - intros (k' & Heq & Hin). injection Heq as <- <-. auto.
  - intros (Hin & ->). exists k. auto.
Qed.

(** Rows picked by two keys that exclude each other, put side by side. *)
Lemma filter_disjoint_perm (p q : R -> bool) (l : list R) :
  (forall x, p x = true -> q x = true -> False) ->
  Permutation (filter p l ++ filter q l) (filter (fun x => p x || q x) l).
Proof.
  intros Hpq. induction l as [| x l IH]; cbn [filter]; [constructor |].
  destruct (p x) eqn:Hp, (q x) eqn:Hq; cbn [orb app].
  - destruct (Hpq x Hp Hq).
  - apply perm_skip. exact IH.
  - apply Permutation_trans with (x :: filter p l ++ filter q l).
    + apply Permutation_sym, Permutation_middle.
    + apply perm_skip. exact IH.
  - exact IH.
Qed.

Lemma groups_permutation_keys (df : list R) (ks : list string) :
  NoDup ks ->
  Permutation (List.concat (map (fun k => filter (has_key by_ k) df) ks))
              (filter (fun r => existsb (fun k => has_key by_ k r) ks) df).
Proof.
  induction 1 as [| k ks Hk Hnd IH]; cbn [map List.concat existsb].
  - induction df; cbn; auto.
  - eapply Permutation_trans; [apply Permutation_app_head; exact IH |].
    apply filter_disjoint_perm. intros r Hr Hex.
    apply existsb_exists in Hex as (k' & Hin & Hk').
    apply has_key_iff in Hr, Hk'. assert (k = k') by congruence. subst. auto.
Qed.

(** The groups, laid end to end, are the rows with a key, rearranged. *)
Lemma groups_permutation (df : list R) :
  Permutation (List.concat (map snd (groupby by_ df)))
              (filter (fun r => notnone (by_ r)) df).
Proof.
  unfold groupby. rewrite map_map. cbn [snd]. fold (group_keys by_ df).
  eapply Permutation_trans.
  - apply groups_permutation_keys, sorted_NoDup, unique_sorted_sorted.
  - erewrite filter_ext_in; [apply Permutation_refl |].
    intros r Hr. cbv beta. destruct (by_ r) as [k |] eqn:Hb; cbn.
    + apply existsb_exists. exists k. split.
      * apply in_group_keys. exists r. auto.
      * apply has_key_iff. exact Hb.
    + apply not_true_is_false. intros Hex.
      apply existsb_exists in Hex as (k & _ & Hk).
      apply has_key_iff in Hk. congruence.
Qed.
End Groups.

(** ** C4: grouping as a partition *)

Lemma group_sizes_concat {R} (groups : list (string * list R)) :
  group_sizes groups = List.length (List.concat (map snd groups)).
Proof.
  unfold group_sizes. rewrite length_concat, map_map. reflexivity.
Qed.

Lemma cut_label_in (v : float64) (bins : list float64) (labels : list string)
      (lbl : string) :
  cell_of (cut v bins labels) = Some lbl -> In lbl labels.
Proof.
  unfold cut.
  destruct (negb (increasing bins)); [discriminate |].
  destruct (negb (S (List.length labels) =? List.length bins)); [discriminate |].
  destruct (isna v || (searchsorted_left bins v =? List.length bins)
            || (searchsorted_left bins v =? 0)); [discriminate |].
  cbn [cell_of]. apply nth_error_In.
Qed.

Lemma discount_labels_NoDup : NoDup discount_labels.
Proof.
  apply sorted_NoDup. unfold discount_labels.
  repeat (constructor; [| repeat (constructor; try reflexivity)]). constructor.
Qed.

Lemma discount_groups_permutation (df : list enriched) :
  Permutation
    (List.concat (map snd (groupby_categorical Discount_Bin discount_labels df)))
    (filter (fun r => notnone (Discount_Bin r)) df).
Proof.
  unfold groupby_categorical. rewrite map_map. cbn [snd].
  eapply Permutation_trans.
  - apply groups_permutation_keys, discount_labels_NoDup.
  - erewrite filter_ext; [apply Permutation_refl |].
    intros r. cbv beta. destruct (Discount_Bin r) as [k |] eqn:Hb; cbn [notnone isnone negb].
    + apply existsb_exists. exists k. split.
      * apply (cut_label_in _ _ _ _ Hb).
      * apply has_key_iff. exact Hb.
    + apply not_true_is_false. intros Hex.
      apply existsb_exists in Hex as (k & _ & Hk).
      apply has_key_iff in Hk. congruence.
Qed.

(** C4, refuted as stated.  A record with discount 0 has no discount band;
    it is in none of the groups of the discount analysis, whose sizes add up
    to 0 although the record set holds one record. *)
Lemma C4_counterexample :
  map Discount_Bin zero_discount_frame = [None]
  /\ map (fun g => List.length (snd g))
         (groupby_categorical Discount_Bin discount_labels zero_discount_frame)
     = [0; 0; 0; 0; 0; 0]
  /\ group_sizes (groupby_categorical Discount_Bin discount_labels zero_discount_frame)
     <> List.length zero_discount_frame.
Proof. repeat split; try reflexivity. vm_compute. discriminate. Qed.

(** C4, amended.  [groupby] partitions the records whose key is defined: the
    group keys are pairwise distinct, a group holds exactly records of the
    frame with its key (so no record is in two groups), every record with a
    defined key is in the group of that key, and the group sizes add up to
    the number of records with a defined key.  A record whose key is
    undefined is in no group; in the discount analysis these are the records
    without a discount band. *)
Theorem C4_groupby_partitions_keyed_rows
  (by_ : enriched -> option string) (df : list enriched) :
  NoDup (map fst (groupby by_ df))
  /\ (forall k g r, In (k, g) (groupby by_ df) -> In r g -> In r df /\ by_ r = Some k)
  /\ (forall r k, In r df -> by_ r = Some k ->
                  exists g, In (k, g) (groupby by_ df) /\ In r g)
  /\ group_sizes (groupby by_ df)
     = List.length (filter (fun r => notnone (by_ r)) df)
  /\ group_sizes (groupby_categorical Discount_Bin discount_labels df)
     = List.length (filter (fun r => notnone (Discount_Bin r)) df).
Proof.
  repeat split.
  - rewrite groupby_keys. apply sorted_NoDup, unique_sorted_sorted.
  - apply in_groupby in H as [_ ->]. apply filter_In in H0. apply H0.
  - apply in_groupby in H as [_ ->]. apply filter_In in H0 as [_ Hk].
    apply has_key_iff in Hk. exact Hk.
  - intros r k Hin Hk. exists (filter (has_key by_ k) df). split.
    + apply in_groupby. split; [| reflexivity].
      apply in_group_keys. exists r. auto.
    + apply filter_In. split; [exact Hin | apply has_key_iff; exact Hk].
  - rewrite group_sizes_concat. apply Permutation_length, groups_permutation.
  - rewrite group_sizes_concat. apply Permutation_length, discount_groups_permutation.
Qed.

(** ** C5: group totals against the whole-set total *)

Lemma sum_cons (x : float64) (l : list float64) :
  Float.sum (x :: l) = if notna x then fadd x (Float.sum l) else Float.sum l.
Proof. unfold Float.sum. cbn [filter]. destruct (notna x); reflexivity. Qed.

Lemma sum_finite (l : list float64) :
  (forall x, In x l -> finite_or_na x = true) -> isfinite (Float.sum l) = true.
Proof.
  induction l as [| x l IH]; intros H; [reflexivity |].
  rewrite sum_cons.
  assert (Hl : isfinite (Float.sum l) = true) by (apply IH; intros; apply H; right; auto).
  pose proof (H x (or_introl eq_refl)) as Hx.
  destruct x as [a | | |]; try discriminate Hx; cbn [notna isna negb]; [| exact Hl].
  destruct (Float.sum l); try discriminate Hl. reflexivity.
Qed.

Lemma filter_all {A} (p : A -> bool) (l : list A) :
  (forall x, In x l -> p x = true) -> filter p l = l.
Proof.
  induction l as [| a l IH]; intros H; [reflexivity |].
  cbn [filter]. rewrite (H a (or_introl eq_refl)). f_equal.
  apply IH. intros x Hx. apply H. right. exact Hx.
Qed.






(** Double addition is not associative: 0.1, 0.2 and 0.3 add up to
    0.6000000000000001 from the left and to 0.6 from the right.  So the same
    cells summed in another grouping need not give the same double. *)
Example double_sums_depend_on_grouping :
  Binary64.add (Binary64.add (Binary64.nearest 1 10) (Binary64.nearest 2 10))
               (Binary64.nearest 3 10)
    = SpecFloat.S754_finite false 5404319552844596 (-53)
  /\ Binary64.add (Binary64.nearest 1 10)
                  (Binary64.add (Binary64.nearest 2 10) (Binary64.nearest 3 10))
     = SpecFloat.S754_finite false 5404319552844595 (-53)
  /\ Binary64.nearest 6 10 = SpecFloat.S754_finite false 5404319552844595 (-53).
Proof. repeat split; vm_compute; reflexivity. Qed.


(** ** C6: dates that do not convert *)

(** One cell read day first: 5 March, not 3 May. *)
Example to_datetime_dayfirst :
  to_datetime (Some "05/03/2014") = Some (mkDate 2014 3 5)
  /\ to_datetime (Some "pending") = None.
Proof. repeat split; reflexivity. Qed.

(** What [to_datetime] returns is read off the cell's fields in the order
    day, month, year. *)
Lemma to_datetime_fields (s : string) (dt : date) :
  to_datetime (Some s) = Some dt ->
  exists sep fd fm fy,
    split_on sep s = [fd; fm; fy]
    /\ parse_nat fd = Some (day dt) /\ parse_nat fm = Some (month dt)
    /\ parse_nat fy = Some (year dt)
    /\ valid_date (year dt) (month dt) (day dt) = true.
Proof.
  unfold to_datetime. set (sep := if has_char "/" s then "/"%char else "-"%char).
  destruct (split_on sep s) as [| fd [| fm [| fy [| ? ?]]]] eqn:Hs; cbn [map];
    try discriminate.
  - destruct (parse_nat fd); discriminate.
  - destruct (parse_nat fd), (parse_nat fm); discriminate.
  - destruct (parse_nat fd) as [d |] eqn:Hd; [| discriminate].
    destruct (parse_nat fm) as [m |] eqn:Hm; [| discriminate].
    destruct (parse_nat fy) as [y |] eqn:Hy; [| discriminate].
    destruct (valid_date y m d) eqn:Hv; [| discriminate].
    intros H. injection H as <-. exists sep, fd, fm, fy. cbn. auto.
  - destruct (parse_nat fd), (parse_nat fm), (parse_nat fy); discriminate.
Qed.










(** ** Ranking: [sort_values], [head], [nlargest] *)

Lemma fltb_irrefl (a : float64) : fltb a a = false.
Proof. destruct a as [x | | |]; simpl; try reflexivity. cmp_cases. Qed.

Lemma ftrichotomy (a b : float64) :
  notna a = true -> notna b = true ->
  fltb a b = true \/ a = b \/ fltb b a = true.
Proof.
  destruct a as [x | | |], b as [y | | |]; simpl; try discriminate; auto.
  intros _ _. destruct (Qccompare_spec x y) as [E | L | G]; auto.
  - subst. auto.
  - right. right. destruct (Qccompare_spec y x); auto; exfalso; subst; qc_order.
Qed.

Lemma fleb_trans (a b c : float64) :
  fleb a b = true -> fleb b c = true -> fleb a c = true.
Proof.
  destruct a as [x | | |], b as [y | | |], c as [z | | |]; simpl;
    try discriminate; try reflexivity.
  cmp_cases.
Qed.

Lemma feqb_eq (a b : float64) : feqb a b = true -> a = b.
Proof.
  destruct a as [x | | |], b as [y | | |]; simpl; try discriminate; try reflexivity.
  intros H. f_equal. apply Qc_eq_bool_correct. exact H.
Qed.

Lemma feqb_notna (a v : float64) : feqb a v = true -> notna a = true.
Proof. destruct a, v; simpl; try discriminate; reflexivity. Qed.

Lemma feqb_not_fltb (x y v : float64) :
  feqb x v = true -> feqb y v = true -> fltb x y = false.
Proof.
  intros Hx Hy. apply feqb_eq in Hx, Hy. subst. apply fltb_irrefl.
Qed.

Lemma StronglySorted_app {A} (Q : A -> A -> Prop) (l1 l2 : list A) :
  StronglySorted Q l1 -> StronglySorted Q l2 ->
  (forall a b, In a l1 -> In b l2 -> Q a b) ->
  StronglySorted Q (l1 ++ l2).
Proof.
  induction 1 as [| a l1 Hl1 IH Ha]; intros H2 Hc; cbn [app]; [exact H2 |].
  constructor.
  - apply IH; [exact H2 |]. intros x y Hx Hy. apply Hc; [right; exact Hx | exact Hy].
  - apply Forall_app. split; [exact Ha |].
    apply Forall_forall. intros y Hy. apply Hc; [left; reflexivity | exact Hy].
Qed.

Lemma StronglySorted_split {A} (Q : A -> A -> Prop) (l1 l2 : list A) :
  StronglySorted Q (l1 ++ l2) ->
  StronglySorted Q l1 /\ forall a b, In a l1 -> In b l2 -> Q a b.
Proof.
  induction l1 as [| a l1 IH]; cbn [app]; intros H.
  - split; [constructor | intros a b []].
  - inversion H as [| ? ? Hs Hf]; subst. destruct (IH Hs) as [IH1 IH2].
    apply Forall_app in Hf as [Hf1 Hf2]. split.
    + constructor; assumption.
    + intros x b [<- | Hx] Hb.
      * rewrite Forall_forall in Hf2. apply Hf2. exact Hb.
      * apply IH2; assumption.
Qed.

Section RankingFacts.
Context {A : Type}.
Variable column : A -> float64.

Lemma insert_desc_perm (x : A) (s : list A) :
  Permutation (insert_desc column x s) (x :: s).
Proof.
  induction s as [| y t IH]; cbn [insert_desc]; [apply Permutation_refl |].
  destruct (fltb (column x) (column y)); [| apply Permutation_refl].
  apply Permutation_trans with (y :: x :: t); [apply perm_skip; exact IH | apply perm_swap].
Qed.

Lemma sort_desc_perm (l : list A) : Permutation (sort_desc column l) l.
Proof.
  induction l as [| x l IH]; cbn [sort_desc fold_right]; [constructor |].
  eapply Permutation_trans; [apply insert_desc_perm |]. apply perm_skip. exact IH.
Qed.

Lemma partition_na_perm (l : list A) :
  Permutation (filter (fun r => notna (column r)) l
               ++ filter (fun r => isna (column r)) l) l.
Proof.
  induction l as [| x l IH]; cbn [filter]; [constructor |].
  unfold notna at 1. destruct (isna (column x)); cbn [negb app].
  - eapply Permutation_trans; [apply Permutation_sym, Permutation_middle |].
    apply perm_skip. exact IH.
  - apply perm_skip. exact IH.
Qed.

Lemma sort_values_desc_perm (l : list A) :
  Permutation (sort_values_desc column l) l.
Proof.
  unfold sort_values_desc.
  eapply Permutation_trans; [| apply partition_na_perm].
  apply Permutation_app_tail, sort_desc_perm.
Qed.

Lemma insert_desc_sorted (x : A) (s : list A) :
  notna (column x) = true -> Forall (fun r => notna (column r) = true) s ->
  StronglySorted (fun a b => fleb (column b) (column a) = true) s ->
  StronglySorted (fun a b => fleb (column b) (column a) = true)
                 (insert_desc column x s).
Proof.
  intros Hx Hna Hs. induction Hs as [| y t Ht IH Hy]; cbn [insert_desc].
  - repeat constructor.
  - inversion Hna as [| ? ? Hyna Htna]; subst.
    destruct (fltb (column x) (column y)) eqn:Hxy.
    + constructor; [apply IH; exact Htna |].
      apply Forall_forall. intros z Hz.
      apply (Permutation_in _ (insert_desc_perm x t)) in Hz as [<- | Hz].
      * apply fltb_fleb. exact Hxy.
      * rewrite Forall_forall in Hy. apply Hy. exact Hz.
    + assert (Hyx : fleb (column y) (column x) = true)
        by (apply fltb_false_fleb; assumption).
      constructor; [constructor; assumption |].
      constructor; [exact Hyx |].
      eapply Forall_impl; [| exact Hy]. intros z Hz. cbv beta in Hz.
      apply fleb_trans with (column y); assumption.
Qed.

Lemma sort_desc_sorted (l : list A) :
  Forall (fun r => notna (column r) = true) l ->
  StronglySorted (fun a b => fleb (column b) (column a) = true) (sort_desc column l).
Proof.
  induction 1 as [| x l Hx Hl IH]; cbn [sort_desc fold_right]; [constructor |].
  apply insert_desc_sorted; [exact Hx | | exact IH].
  apply Forall_forall. intros z Hz.
  apply (Permutation_in _ (sort_desc_perm l)) in Hz.
  rewrite Forall_forall in Hl. apply Hl. exact Hz.
Qed.

Lemma sort_values_desc_sorted (l : list A) :
  StronglySorted (ranks_before column) (sort_values_desc column l).
Proof.
  unfold sort_values_desc. apply StronglySorted_app.
  - eapply StronglySorted_ind with
      (P := fun s => StronglySorted (ranks_before column) s);
      [constructor | | apply sort_desc_sorted].
    + intros a s _ IH Ha. constructor; [exact IH |].
      eapply Forall_impl; [| exact Ha]. intros b Hb. right. exact Hb.
    + apply Forall_forall. intros r Hr. apply filter_In in Hr. apply Hr.
  - induction l as [| x l IH]; cbn [filter]; [constructor |].
    destruct (isna (column x)) eqn:Hx; [| exact IH].
    constructor; [exact IH |]. apply Forall_forall. intros b Hb.
    apply filter_In in Hb. left. apply Hb.
  - intros a b _ Hb. apply filter_In in Hb. left. apply Hb.
Qed.
End RankingFacts.

Section Stability.
Context {A : Type}.
Variable column : A -> float64.
Variable v : float64.

Lemma tied_insert_desc (x : A) (s : list A) :
  tied column v (insert_desc column x s) = tied column v (x :: s).
Proof.
  induction s as [| y t IH]; cbn [insert_desc]; [reflexivity |].
  destruct (fltb (column x) (column y)) eqn:Hxy; [| reflexivity].
  unfold tied in *. cbn [filter] in *. rewrite IH.
  destruct (feqb (column x) v) eqn:Hx, (feqb (column y) v) eqn:Hy; try reflexivity.
  rewrite (feqb_not_fltb _ _ _ Hx Hy) in Hxy. discriminate Hxy.
Qed.

Lemma tied_sort_desc (l : list A) : tied column v (sort_desc column l) = tied column v l.
Proof.
  induction l as [| x l IH]; [reflexivity |].
  change (sort_desc column (x :: l)) with (insert_desc column x (sort_desc column l)).
  rewrite tied_insert_desc. unfold tied in *. cbn [filter]. rewrite IH. reflexivity.
Qed.

(** Sorting keeps rows with equal cells in frame order. *)
Lemma tied_sort_values_desc (l : list A) : tied column v (sort_values_desc column l) = tied column v l.
Proof.
  unfold sort_values_desc, tied. rewrite filter_app.
  fold (tied column v (sort_desc column (filter (fun r => notna (column r)) l))).
  rewrite tied_sort_desc. unfold tied.
  induction l as [| x l IH]; [reflexivity |]. cbn [filter].
  unfold notna at 1 3. destruct (isna (column x)) eqn:Hx; cbn [negb filter].
  - replace (feqb (column x) v) with false; [exact IH |].
    destruct (column x); try discriminate Hx. reflexivity.
  - destruct (feqb (column x) v); cbn [app]; rewrite IH; reflexivity.
Qed.
End Stability.

Section NLargest.
Context {A : Type}.
Variable column : A -> float64.

Lemma nlargest_head (n : nat) (l : list A) :
  nlargest column n l = head n (sort_values_desc column l).
Proof. reflexivity. Qed.

(** Rows with equal cells come out in the order they have in the frame. *)
Lemma nlargest_ties (n : nat) (l : list A) (v : float64) :
  exists rest,
    tied column v l = tied column v (nlargest column n l) ++ rest.
Proof.
  exists (tied column v (skipn n (sort_values_desc column l))).
  rewrite nlargest_head. unfold head, tied at 2 3. rewrite <- filter_app, firstn_skipn.
  symmetry. apply tied_sort_values_desc.
Qed.

(** *** Frames whose rows carry ascending keys *)

Variable key : A -> string.

Lemma insert_desc_by_key (x : A) (s : list A) :
  notna (column x) = true -> Forall (fun r => notna (column r) = true) s ->
  Forall (fun r => str_lt (key x) (key r)) s ->
  StronglySorted (desc_then_key column key) s ->
  StronglySorted (desc_then_key column key) (insert_desc column x s).
Proof.
  intros Hx Hna Hkey Hs. induction Hs as [| y t Ht IH Hy]; cbn [insert_desc].
  - repeat constructor.
  - inversion Hna as [| ? ? Hyna Htna]; subst.
    inversion Hkey as [| ? ? Hky Hkt]; subst.
    destruct (fltb (column x) (column y)) eqn:Hxy.
    + constructor; [apply IH; assumption |].
      apply Forall_forall. intros z Hz.
      apply (Permutation_in _ (insert_desc_perm column x t)) in Hz as [<- | Hz].
      * left. exact Hxy.
      * rewrite Forall_forall in Hy. apply Hy. exact Hz.
    + constructor; [constructor; assumption |].
      apply Forall_forall. intros z Hz.
      assert (Hkz : str_lt (key x) (key z)).
      { destruct Hz as [<- | Hz]; [exact Hky |].
        rewrite Forall_forall in Hkt. apply Hkt. exact Hz. }
      assert (Hzna : notna (column z) = true).
      { destruct Hz as [<- | Hz]; [exact Hyna |].
        rewrite Forall_forall in Htna. apply Htna. exact Hz. }
      destruct (ftrichotomy (column x) (column z) Hx Hzna) as [Hlt | [Heq | Hgt]].
      * exfalso. destruct Hz as [<- | Hz]; [congruence |].
        rewrite Forall_forall in Hy. destruct (Hy z Hz) as [Hzy | [Heq _]].
        -- rewrite (fltb_trans _ _ _ Hlt Hzy) in Hxy. discriminate Hxy.
        -- rewrite Heq, Hlt in Hxy. discriminate Hxy.
      * right. auto.
      * left. exact Hgt.
Qed.

Lemma sort_desc_by_key (l : list A) :
  Forall (fun r => notna (column r) = true) l ->
  StronglySorted (fun a b => str_lt (key a) (key b)) l ->
  StronglySorted (desc_then_key column key) (sort_desc column l).
Proof.
  intros Hna Hs. induction Hs as [| x l Hl IH Hx]; cbn [sort_desc fold_right];
    [constructor |].
  inversion Hna as [| ? ? Hxna Hlna]; subst.
  apply insert_desc_by_key; [exact Hxna | | | apply IH; exact Hlna].
  - apply Forall_forall. intros z Hz.
    apply (Permutation_in _ (sort_desc_perm column l)) in Hz.
    rewrite Forall_forall in Hlna. apply Hlna. exact Hz.
  - apply Forall_forall. intros z Hz.
    apply (Permutation_in _ (sort_desc_perm column l)) in Hz.
    rewrite Forall_forall in Hx. apply Hx. exact Hz.
Qed.

Lemma nlargest_by_key (n : nat) (l : list A) :
  Forall (fun r => notna (column r) = true) l ->
  StronglySorted (fun a b => str_lt (key a) (key b)) l ->
  StronglySorted (desc_then_key column key) (nlargest column n l).
Proof.
  intros Hna Hs. unfold nlargest.
  rewrite (filter_all (fun r => notna (column r)) l)
    by (apply Forall_forall; exact Hna).
  replace (filter (fun r => isna (column r)) l) with (@nil A).
  - rewrite app_nil_r.
    pose proof (sort_desc_by_key l Hna Hs) as Hsorted.
    rewrite <- (firstn_skipn n (sort_desc column l)) in Hsorted.
    apply StronglySorted_split in Hsorted. apply Hsorted.
  - symmetry. clear Hs. induction Hna as [| x l Hx Hl IH]; [reflexivity |].
    cbn [filter]. unfold notna in Hx. apply negb_true_iff in Hx. rewrite Hx. exact IH.
Qed.
End NLargest.

(** ** C7: the top rows of a table *)

(** C7, refuted as stated.  Of eleven states, Ohio and Utah share the
    greatest profit margin, 50.  The dashboard takes the top ten states by
    margin from the table already sorted by sales, so Utah (sales 200) comes
    before Ohio (sales 100), against the ascending order of the group keys. *)
Lemma C7_counterexample :
  map Dashboard.index (Dashboard.top_profit_states eleven_states)
  = ["Utah"; "Ohio"; "Hawaii"; "Alaska"; "Kansas"; "Oregon"; "Nevada"; "Texas";
     "Maine"; "Idaho"]
  /\ map (fun t => feqb (Dashboard.Profit_Margin_ratio t) (of_Z 50))
         (Dashboard.top_profit_states eleven_states)
     = [true; true; false; false; false; false; false; false; false; false]
  /\ map Dashboard.index (Dashboard.state_analysis eleven_states)
     = ["Hawaii"; "Alaska"; "Kansas"; "Oregon"; "Nevada"; "Texas"; "Maine";
        "Idaho"; "Iowa"; "Utah"; "Ohio"]
  /\ str_ltb "Ohio" "Utah" = true.
Proof. repeat split; reflexivity. Qed.

Lemma StronglySorted_map {A B} (P : A -> A -> Prop) (Q : B -> B -> Prop)
      (f : A -> B) (l : list A) :
  (forall a b, P a b -> Q (f a) (f b)) ->
  StronglySorted P l -> StronglySorted Q (map f l).
Proof.
  intros HPQ. induction 1 as [| a l Hl IH Ha]; cbn [map]; constructor; [exact IH |].
  apply Forall_forall. intros y Hy. apply in_map_iff in Hy as (b & <- & Hb).
  rewrite Forall_forall in Ha. apply HPQ, Ha, Hb.
Qed.

Lemma isfinite_notna (x : float64) : isfinite x = true -> notna x = true.
Proof. destruct x; try discriminate; reflexivity. Qed.

Lemma customer_analysis_keys_ascending (df : list enriched) :
  StronglySorted (fun a b => str_lt (customer_key a) (customer_key b))
                 (Dashboard.customer_analysis df).
Proof.
  unfold Dashboard.customer_analysis, groupby. rewrite map_map.
  apply StronglySorted_map with (P := str_lt); [| apply unique_sorted_sorted].
  intros a b Hab. exact Hab.
Qed.

(** The first [n] rows of any descending rearrangement of a frame. *)
Lemma top_of_descending {A} (column : A -> float64) (n : nat) (frame sorted : list A) :
  descending_rearrangement column frame sorted ->
  List.length (firstn n sorted) = Nat.min n (List.length frame)
  /\ StronglySorted (ranks_before column) (firstn n sorted)
  /\ Permutation (firstn n sorted ++ skipn n sorted) frame
  /\ (forall a b, In a (firstn n sorted) -> In b (skipn n sorted) ->
                  ranks_before column a b).
Proof.
  intros [Hperm Hsorted].
  rewrite length_firstn, (Permutation_length Hperm).
  rewrite <- (firstn_skipn n sorted) in Hsorted.
  apply StronglySorted_split in Hsorted as [Hfirst Hsplit].
  rewrite firstn_skipn. auto.
Qed.

Lemma sort_values_desc_descending {A} (column : A -> float64) (frame : list A) :
  descending_rearrangement column frame (sort_values_desc column frame).
Proof. split; [apply sort_values_desc_perm | apply sort_values_desc_sorted]. Qed.

(** C7, amended.  [nlargest(n, column)] and [sort_values(ascending=False)
    .head(n)] return [min n (rows)] rows of the frame, in descending order of
    the column with NaN last, and no row left out ranks before a row kept:
    this holds for the first [n] rows of any descending rearrangement of the
    frame, so whatever order the sort leaves equal cells in.  Among rows with
    equal cells, [nlargest] keeps the order of the frame it is given when [n]
    is less than the number of rows.  So with more than ten customers the top
    customers, taken from the frame [groupby] returns, are in descending
    order of sales and customers with equal sales by ascending name.  For a
    frame reordered beforehand, as for the top states by margin, ties follow
    that earlier order; with [n] at least the number of rows, and for
    [sort_values(...).head(n)], the order among ties is that of pandas'
    default sort and nothing is stated about it. *)
Theorem C7_top_rows
  (df : list enriched) (bdf : list dated_row) (frame : list Dashboard.totals)
  (column : Dashboard.totals -> float64) (n : nat) (v : float64) :
  (forall sorted, descending_rearrangement column frame sorted ->
     List.length (firstn n sorted) = Nat.min n (List.length frame)
     /\ StronglySorted (ranks_before column) (firstn n sorted)
     /\ Permutation (firstn n sorted ++ skipn n sorted) frame
     /\ (forall a b, In a (firstn n sorted) -> In b (skipn n sorted) ->
                     ranks_before column a b))
  /\ List.length (nlargest column n frame) = Nat.min n (List.length frame)
  /\ StronglySorted (ranks_before column) (nlargest column n frame)
  /\ (exists rest,
        Permutation (nlargest column n frame ++ rest) frame
        /\ forall a b, In a (nlargest column n frame) -> In b rest ->
                       ranks_before column a b)
  /\ (n < List.length frame ->
      exists rest,
        tied column v frame = tied column v (nlargest column n frame) ++ rest)
  /\ List.length (Basic.top_products bdf)
     = Nat.min 10 (List.length (Basic.sales_by_product bdf))
  /\ StronglySorted (ranks_before snd) (Basic.top_products bdf)
  /\ (exists rest,
        Permutation (Basic.top_products bdf ++ rest) (Basic.sales_by_product bdf)
        /\ forall a b, In a (Basic.top_products bdf) -> In b rest ->
                       ranks_before snd a b)
  /\ (10 < List.length (Dashboard.customer_analysis df) ->
      Forall (fun c => notna (Dashboard.customer_Sales c) = true)
             (Dashboard.customer_analysis df) ->
      StronglySorted (desc_then_key Dashboard.customer_Sales customer_key)
                     (Dashboard.top_customers df)).
Proof.
  split; [intros sorted Hs; apply top_of_descending; exact Hs |].
  destruct (top_of_descending column n frame _ (sort_values_desc_descending column frame))
    as (Hlen & Hsorted & Hperm & Hsplit).
  destruct (top_of_descending snd 10 (Basic.sales_by_product bdf) _
              (sort_values_desc_descending snd (Basic.sales_by_product bdf)))
    as (Hlen' & Hsorted' & Hperm' & Hsplit').
  split; [exact Hlen |].
  split; [exact Hsorted |].
  split; [exists (skipn n (sort_values_desc column frame)); split; assumption |].
  split; [intros _; apply nlargest_ties |].
  split; [exact Hlen' |].
  split; [exact Hsorted' |].
  split; [exists (skipn 10 (sort_values_desc snd (Basic.sales_by_product bdf)));
          split; assumption |].
  intros _ Hna. unfold Dashboard.top_customers. apply nlargest_by_key.
  - exact Hna.
  - apply customer_analysis_keys_ascending.
Qed.

(** Eleven customers: the two who share the greatest sales come first, Bo
    Diaz before Cy Young, and the customer who bought least is left out. *)
Example top_customers_tied :
  map customer_key (Dashboard.top_customers eleven_customers)
  = ["Bo Diaz"; "Cy Young"; "Kit Dunn"; "Jo Park"; "Ida Cole"; "Hal Reed";
     "Gus Pike"; "Flo Hart"; "Ed Moss"; "Di Wong"].
Proof. reflexivity. Qed.

Lemma C7_top_rows_witness :
  StronglySorted (desc_then_key Dashboard.customer_Sales customer_key)
                 (Dashboard.top_customers eleven_customers).
Proof.
  refine (proj2 (proj2 (proj2 (proj2 (proj2 (proj2 (proj2 (proj2
    (C7_top_rows eleven_customers [] [] Dashboard.sum_Sales 2 (of_Z 200))))))))) _ _).
  - apply Nat.ltb_lt. vm_compute. reflexivity.
  - apply Forall_forall.
    apply (forallb_forall (fun c => notna (Dashboard.customer_Sales c))).
    vm_compute. reflexivity.
Defined.

(** ** C8: the loss-making products of the enhanced report *)

Lemma StronglySorted_filter {A} (Q : A -> A -> Prop) (p : A -> bool) (l : list A) :
  StronglySorted Q l -> StronglySorted Q (filter p l).
Proof.
  induction 1 as [| a l Hl IH Ha]; cbn [filter]; [constructor |].
  destruct (p a); [| exact IH]. constructor; [exact IH |].
  apply Forall_forall. intros y Hy. apply filter_In in Hy as [Hy _].
  rewrite Forall_forall in Ha. apply Ha, Hy.
Qed.

Lemma StronglySorted_firstn {A} (Q : A -> A -> Prop) (n : nat) (l : list A) :
  StronglySorted Q l -> StronglySorted Q (firstn n l).
Proof.
  intros H. rewrite <- (firstn_skipn n l) in H.
  apply StronglySorted_split in H. apply H.
Qed.

(** C8: what the code does.  The table the selection reads is sorted by
    sales, so on every input the loss-making products come out in descending
    order of sales.  On the failing inputs: Desk (profit -1) comes before
    Lamp (profit -100), and of eleven loss-makers the one with the greatest
    loss, which sells least, is the one left out. *)
Theorem C8_bottom_10_profit_follows_sales :
  (forall df, StronglySorted (ranks_before Enhanced.sum_Sales)
                             (Enhanced.bottom_10_profit df))
  /\ map Enhanced.index (Enhanced.bottom_10_profit two_losses) = ["Desk"; "Lamp"]
  /\ map (fun t => feqb (Enhanced.sum_Profit t) (of_Z (-1)))
         (Enhanced.bottom_10_profit two_losses) = [true; false]
  /\ map Enhanced.index (Enhanced.bottom_10_profit eleven_losses)
     = ["P01"; "P02"; "P03"; "P04"; "P05"; "P06"; "P07"; "P08"; "P09"; "P10"]
  /\ forallb (fun t => fltb (of_Z (-1000)) (Enhanced.sum_Profit t))
             (Enhanced.bottom_10_profit eleven_losses) = true.
Proof.
  split; [| repeat split; reflexivity].
  intros df. unfold Enhanced.bottom_10_profit, head, Enhanced.top_products.
  apply StronglySorted_firstn, StronglySorted_filter, sort_values_desc_sorted.
Qed.

(** Whatever the input, the selection is a prefix of the loss-making rows of
    the table sorted by sales. *)
Lemma bottom_10_profit_prefix (df : list Enhanced.xrow) :
  exists rest,
    filter (fun t => fltb (Enhanced.sum_Profit t) (of_Z 0)) (Enhanced.top_products df)
    = Enhanced.bottom_10_profit df ++ rest
  /\ List.length (Enhanced.bottom_10_profit df) <= 10.
Proof.
  unfold Enhanced.bottom_10_profit, head.
  exists (skipn 10 (filter (fun t => fltb (Enhanced.sum_Profit t) (of_Z 0))
                           (Enhanced.top_products df))).
  split; [symmetry; apply firstn_skipn | apply firstn_le_length].
Qed.

(** ** C9: counting orders *)

(** [nunique] counts a list without repetition that holds exactly the values
    present. *)
Lemma nunique_counts_distinct (cells : list (option string)) :
  exists values,
    NoDup values
    /\ (forall x, In x values <-> In (Some x) cells)
    /\ nunique cells = List.length values.
Proof.
  exists (unique_sorted (present cells)). split; [| split].
  - apply sorted_NoDup, unique_sorted_sorted.
  - intros x. rewrite in_unique_sorted. apply in_present.
  - reflexivity.
Qed.

(** The enhanced report and the dashboard count distinct order ids and
    divide total sales by that count. *)
Lemma order_count_is_distinct (xdf : list Enhanced.xrow) (df : list enriched) :
  Enhanced.total_orders xdf = nunique (map (fun r => Order_ID (Enhanced.row_of r)) xdf)
  /\ Enhanced.avg_order_value xdf
     = fdiv (Enhanced.total_sales xdf) (of_nat (Enhanced.total_orders xdf))
  /\ Dashboard.total_orders df = nunique (map (fun r => Order_ID (base r)) df)
  /\ Dashboard.avg_order_value df
     = fdiv (Dashboard.total_sales df) (of_nat (Dashboard.total_orders df)).
Proof. repeat split; reflexivity. Qed.

Lemma insert_key_length (k : string) (ks : list string) :
  List.length (insert_key k ks) <= S (List.length ks).
Proof.
  induction ks as [| h t IH]; cbn [insert_key List.length]; [lia |].
  destruct (String_as_OT.compare k h); cbn [List.length]; lia.
Qed.

Lemma nunique_le_length (cells : list (option string)) :
  nunique cells <= List.length cells.
Proof.
  unfold nunique. induction cells as [| c cells IH]; [cbn; lia |].
  destruct c as [k |]; cbn [present flat_map app List.length unique_sorted fold_right].
  - fold (present cells). fold (unique_sorted (present cells)).
    pose proof (insert_key_length k (unique_sorted (present cells))). lia.
  - fold (present cells). fold (unique_sorted (present cells)). lia.
Qed.

(** C9: what the code does.  The basic report prints the number of rows as
    its number of orders, which is never below the number of distinct order
    ids and exceeds it on the failing input: for one order of two lines it
    prints 2, where the order ids hold one distinct value, the count the
    enhanced report and the dashboard use. *)
Theorem C9_basic_report_counts_rows :
  (forall df, Basic.number_of_orders df = List.length df)
  /\ (forall df, nunique (map Order_ID df) <= Basic.number_of_orders df)
  /\ Basic.number_of_orders (Basic.clean one_order_two_lines) = 2
  /\ nunique (map Order_ID (Basic.clean one_order_two_lines)) = 1
  /\ Enhanced.total_orders (Enhanced.df_cleaned one_order_two_lines) = 1
  /\ Dashboard.total_orders (Dashboard.load_data one_order_two_lines) = 1.
Proof.
  split; [reflexivity |]. split; [| repeat split; reflexivity].
  intros df. unfold Basic.number_of_orders.
  pose proof (nunique_le_length (map Order_ID df)) as H.
  rewrite length_map in H. exact H.
Qed.

(** * Further properties of the scripts *)

(** ** Cleaning in the basic report *)

Lemma opt_eqb_refl {A} (eqb : A -> A -> bool) (c : option A) :
  (forall x, eqb x x = true) -> opt_eqb eqb c c = true.
Proof. intros H. destruct c; cbn; auto. Qed.

Lemma cell_eqb_refl (x : float64) : cell_eqb x x = true.
Proof.
  destruct x as [q | | |]; cbn; try reflexivity.
  unfold Qc_eq_bool. destruct (Qc_eq_dec q q); congruence.
Qed.

Lemma date_eqb_refl (d : date) : date_eqb d d = true.
Proof. unfold date_eqb. rewrite !Nat.eqb_refl. reflexivity. Qed.

Lemma row_eqb_refl (r : dated_row) : row_eqb r r = true.
Proof.
  unfold row_eqb.
  rewrite !(opt_eqb_refl String.eqb) by apply String.eqb_refl.
  rewrite !(opt_eqb_refl date_eqb) by apply date_eqb_refl.
  rewrite (opt_eqb_refl Z.eqb) by apply Z.eqb_refl.
  rewrite !cell_eqb_refl. reflexivity.
Qed.

Lemma opt_eqb_notnone {A} (eqb : A -> A -> bool) (a b : option A) :
  opt_eqb eqb a b = true -> notnone a = notnone b.
Proof. destruct a, b; cbn; intros H; try discriminate; reflexivity. Qed.

Lemma cell_eqb_notna (x y : float64) : cell_eqb x y = true -> notna x = notna y.
Proof. destruct x, y; cbn; intros H; try discriminate; reflexivity. Qed.

(** Equal rows are complete together. *)
Lemma row_eqb_complete (a b : dated_row) :
  row_eqb a b = true -> complete a = complete b.
Proof.
  unfold row_eqb, complete. intros H.
  repeat (apply andb_true_iff in H; destruct H as [H ?]).
  repeat match goal with
         | E : opt_eqb _ _ _ = true |- _ => apply opt_eqb_notnone in E; rewrite E; clear E
         | E : cell_eqb _ _ = true |- _ => apply cell_eqb_notna in E; rewrite E; clear E
         end.
  reflexivity.
Qed.

Lemma drop_duplicates_from_unseen (df seen : list dated_row) (x : dated_row) :
  In x (drop_duplicates_from seen df) -> existsb (row_eqb x) seen = false.
Proof.
  revert seen. induction df as [| r rest IH]; intros seen Hx; [destruct Hx |].
  cbn [drop_duplicates_from] in Hx.
  destruct (existsb (row_eqb r) seen) eqn:Hr; [apply IH; exact Hx |].
  destruct Hx as [<- | Hx]; [exact Hr |].
  apply IH in Hx. cbn [existsb] in Hx. apply orb_false_iff in Hx. apply Hx.
Qed.

Lemma drop_duplicates_from_distinct (df seen : list dated_row) :
  StronglySorted (fun a b => row_eqb b a = false) (drop_duplicates_from seen df).
Proof.
  revert seen. induction df as [| r rest IH]; intros seen; [constructor |].
  cbn [drop_duplicates_from].
  destruct (existsb (row_eqb r) seen); [apply IH |].
  constructor; [apply IH |].
  apply Forall_forall. intros x Hx. apply drop_duplicates_from_unseen in Hx.
  cbn [existsb] in Hx. apply orb_false_iff in Hx. apply Hx.
Qed.

Lemma drop_duplicates_from_covers (df seen : list dated_row) (x : dated_row) :
  In x df ->
  existsb (row_eqb x) seen = true
  \/ exists k, In k (drop_duplicates_from seen df) /\ row_eqb x k = true.
Proof.
  revert seen. induction df as [| r rest IH]; intros seen Hx; [destruct Hx |].
  cbn [drop_duplicates_from].
  destruct (existsb (row_eqb r) seen) eqn:Hr.
  - destruct Hx as [<- | Hx]; [left; exact Hr | apply IH; exact Hx].
  - destruct Hx as [<- | Hx].
    + right. exists r. split; [left; reflexivity | apply row_eqb_refl].
    + destruct (IH (r :: seen) Hx) as [Hs | (k & Hk & Hxk)].
      * cbn [existsb] in Hs. apply orb_true_iff in Hs as [Hs | Hs]; [| left; exact Hs].
        right. exists r. split; [left; reflexivity | exact Hs].
      * right. exists k. split; [right; exact Hk | exact Hxk].
Qed.

Lemma drop_duplicates_from_subseq (df seen : list dated_row) :
  subseq (drop_duplicates_from seen df) df.
Proof.
  revert seen. induction df as [| r rest IH]; intros seen; [constructor |].
  cbn [drop_duplicates_from]. destruct (existsb (row_eqb r) seen).
  - apply subseq_skip, IH.
  - apply subseq_keep, IH.
Qed.

(** X1.  [drop_duplicates] keeps rows of the frame in their order, no kept
    row equals an earlier kept row, and every row of the frame equals a kept
    one. *)
Theorem X1_drop_duplicates_keeps_one_of_each (df : list dated_row) :
  subseq (drop_duplicates df) df
  /\ StronglySorted (fun a b => row_eqb b a = false) (drop_duplicates df)
  /\ (forall r, In r df ->
        exists k, In k (drop_duplicates df) /\ row_eqb r k = true).
Proof.
  split; [apply drop_duplicates_from_subseq |].
  split; [apply drop_duplicates_from_distinct |].
  intros r Hr. destruct (drop_duplicates_from_covers df [] r Hr) as [H | H];
    [discriminate H | exact H].
Qed.

(** X2.  Whatever [to_datetime] makes of the date cells, the table the
    basic report analyses has no missing cell and no repeated row, holds
    rows of the converted table in their order, and loses no complete row:
    every converted row without a missing cell equals a row of the table. *)
Theorem X2_clean_table
  (to_datetime_column : list (option string) -> list (option date))
  (raw : list raw_row) :
  (forall r, In r (Basic.clean_with to_datetime_column raw) -> complete r = true)
  /\ StronglySorted (fun a b => row_eqb b a = false)
                    (Basic.clean_with to_datetime_column raw)
  /\ (exists kept,
        subseq kept (convert_dates_with to_datetime_column raw)
        /\ Basic.clean_with to_datetime_column raw = filter complete kept)
  /\ (forall c, In c (convert_dates_with to_datetime_column raw) ->
        complete c = true ->
        exists k, In k (Basic.clean_with to_datetime_column raw)
                  /\ row_eqb c k = true).
Proof.
  unfold Basic.clean_with, dropna. split; [| split; [| split]].
  - intros r Hr. apply filter_In in Hr. apply Hr.
  - apply StronglySorted_filter, drop_duplicates_from_distinct.
  - exists (drop_duplicates (convert_dates_with to_datetime_column raw)).
    split; [apply drop_duplicates_from_subseq | reflexivity].
  - intros c Hc Hcomplete.
    destruct (drop_duplicates_from_covers _ [] c Hc) as [H | (k & Hk & Hck)];
      [discriminate H |].
    exists k. split; [| exact Hck].
    apply filter_In. split; [exact Hk |].
    rewrite <- (row_eqb_complete _ _ Hck). exact Hcomplete.
Qed.

Lemma X2_clean_table_witness :
  exists k, In k (Basic.clean_with (map to_datetime) one_order_two_lines)
            /\ row_eqb (convert_dates (raw_line "CA-2014-1" "Desk")) k = true.
Proof.
  refine (proj2 (proj2 (proj2 (X2_clean_table (map to_datetime) one_order_two_lines)))
                (convert_dates (raw_line "CA-2014-1" "Desk")) _ _).
  - right. left. reflexivity.
  - reflexivity.
Defined.

(** ** The dashboard's filters *)

Lemma filter_twice {A} (p q : A -> bool) (l : list A) :
  filter q (filter p l) = filter (fun x => p x && q x) l.
Proof.
  induction l as [| a l IH]; [reflexivity |]. cbn [filter].
  destruct (p a); cbn [filter andb]; [destruct (q a) |]; rewrite IH; reflexivity.
Qed.

Lemma filter_idempotent {A} (p : A -> bool) (l : list A) :
  filter p (filter p l) = filter p l.
Proof.
  rewrite filter_twice. apply filter_ext. intros x. destruct (p x); reflexivity.
Qed.

Lemma apply_filters_filter (f : Dashboard.filters) (df : list enriched) :
  Dashboard.apply_filters f df = filter (passes f) df.
Proof.
  unfold Dashboard.apply_filters, passes.
  destruct (String.eqb (Dashboard.selected_region f) "All") eqn:Hr;
    destruct (String.eqb (Dashboard.selected_category f) "All") eqn:Hc;
    cbn [negb orb]; rewrite ?filter_twice;
    destruct (Dashboard.date_range f) as [| lo [| hi [| ? ?]]];
    rewrite ?filter_twice;
    try (apply filter_ext; intros x; rewrite ?andb_true_r, ?andb_assoc; reflexivity);
    try (symmetry; apply filter_all; intros; reflexivity).
Qed.

(** X3.  The three sidebar filters act as one selection: the filtered table
    holds, in order, exactly the rows that pass every filter switched on.
    Filtering again changes nothing, and with no pair of dates and both
    select boxes on 'All' the whole table is kept. *)
Theorem X3_filters_select (f : Dashboard.filters) (df : list enriched) :
  Dashboard.apply_filters f df = filter (passes f) df
  /\ Dashboard.apply_filters f (Dashboard.apply_filters f df)
     = Dashboard.apply_filters f df
  /\ (forall e, In e (Dashboard.apply_filters f df) <-> In e df /\ passes f e = true)
  /\ Dashboard.apply_filters (Dashboard.mkFilters [] "All" "All") df = df.
Proof.
  split; [apply apply_filters_filter |]. split; [| split].
  - rewrite !apply_filters_filter. apply filter_idempotent.
  - intros e. rewrite apply_filters_filter. apply filter_In.
  - reflexivity.
Qed.

Lemma nunique_incl (cells cells' : list (option string)) :
  incl cells cells' -> nunique cells <= nunique cells'.
Proof.
  intros Hincl. unfold nunique. apply NoDup_incl_length.
  - apply sorted_NoDup, unique_sorted_sorted.
  - intros x Hx. apply in_unique_sorted, in_present in Hx.
    apply in_unique_sorted, in_present. apply Hincl. exact Hx.
Qed.

(** X4.  Narrowing the filters never raises a count: the filtered table has
    at most as many rows, distinct orders and distinct customers as the
    table it was taken from. *)
Theorem X4_filtered_counts (f : Dashboard.filters) (df : list enriched) :
  List.length (Dashboard.apply_filters f df) <= List.length df
  /\ Dashboard.total_orders (Dashboard.apply_filters f df) <= Dashboard.total_orders df
  /\ Dashboard.total_customers (Dashboard.apply_filters f df)
     <= Dashboard.total_customers df.
Proof.
  rewrite apply_filters_filter. split; [apply filter_length_le |].
  split; apply nunique_incl, incl_map, incl_filter.
Qed.

(** ** The enhanced report and the dashboard on the same file *)

Lemma map_filter_comm {A B} (g : A -> B) (p : B -> bool) (l : list A) :
  map g (filter (fun x => p (g x)) l) = filter p (map g l).
Proof.
  induction l as [| a l IH]; [reflexivity |]. cbn [filter map].
  destruct (p (g a)); cbn [map]; rewrite IH; reflexivity.
Qed.

Lemma loaded_tables_agree (raw : list raw_row) :
  map Enhanced.common (Enhanced.df_cleaned raw) = Dashboard.load_data raw.
Proof.
  unfold Enhanced.df_cleaned, Enhanced.load, Dashboard.load_data.
  rewrite map_filter_comm, map_map. reflexivity.
Qed.

(** X5.  From one file the enhanced report and the unfiltered dashboard work
    on the same rows: the dashboard's table is the enhanced one without the
    two per-unit columns, and total sales, total profit, the order count and
    the average order value agree.  The profit margins agree whenever total
    sales is above zero. *)
Theorem X5_reports_agree (raw : list raw_row) :
  map Enhanced.common (Enhanced.df_cleaned raw) = Dashboard.load_data raw
  /\ Enhanced.total_sales (Enhanced.df_cleaned raw)
     = Dashboard.total_sales (Dashboard.load_data raw)
  /\ Enhanced.total_profit (Enhanced.df_cleaned raw)
     = Dashboard.total_profit (Dashboard.load_data raw)
  /\ Enhanced.total_orders (Enhanced.df_cleaned raw)
     = Dashboard.total_orders (Dashboard.load_data raw)
  /\ Enhanced.avg_order_value (Enhanced.df_cleaned raw)
     = Dashboard.avg_order_value (Dashboard.load_data raw)
  /\ (fgtb (Dashboard.total_sales (Dashboard.load_data raw)) (of_Z 0) = true ->
        Enhanced.avg_profit_margin (Enhanced.df_cleaned raw)
        = Dashboard.profit_margin (Dashboard.load_data raw)).
Proof.
  assert (Hs : Enhanced.total_sales (Enhanced.df_cleaned raw)
               = Dashboard.total_sales (Dashboard.load_data raw)).
  { unfold Enhanced.total_sales, Dashboard.total_sales, Enhanced.row_of.
    rewrite <- loaded_tables_agree, map_map. reflexivity. }
  assert (Hp : Enhanced.total_profit (Enhanced.df_cleaned raw)
               = Dashboard.total_profit (Dashboard.load_data raw)).
  { unfold Enhanced.total_profit, Dashboard.total_profit, Enhanced.row_of.
    rewrite <- loaded_tables_agree, map_map. reflexivity. }
  assert (Ho : Enhanced.total_orders (Enhanced.df_cleaned raw)
               = Dashboard.total_orders (Dashboard.load_data raw)).
  { unfold Enhanced.total_orders, Dashboard.total_orders, Enhanced.row_of.
    rewrite <- loaded_tables_agree, map_map. reflexivity. }
  split; [apply loaded_tables_agree |].
  split; [exact Hs |]. split; [exact Hp |]. split; [exact Ho |]. split.
  - unfold Enhanced.avg_order_value, Dashboard.avg_order_value. rewrite Hs, Ho.
    reflexivity.
  - intros Hpos. unfold Enhanced.avg_profit_margin, Dashboard.profit_margin.
    rewrite Hpos, Hs, Hp. reflexivity.
Qed.

Lemma X5_reports_agree_witness :
  Enhanced.avg_profit_margin (Enhanced.df_cleaned one_order_two_lines)
  = Dashboard.profit_margin (Dashboard.load_data one_order_two_lines).
Proof.
  refine (proj2 (proj2 (proj2 (proj2 (proj2 (X5_reports_agree one_order_two_lines))))) _).
  reflexivity.
Defined.

(** ** Which values get a segment *)

Lemma fltb_fleb_trans (a b c : float64) :
  fltb a b = true -> fleb b c = true -> fltb a c = true.
Proof.
  destruct a as [x | | |], b as [y | | |], c as [z | | |]; simpl;
    try discriminate; try reflexivity.
  cmp_cases.
Qed.

Lemma fleb_refl (a : float64) : notna a = true -> fleb a a = true.
Proof. destruct a as [x | | |]; simpl; try discriminate; try reflexivity. cmp_cases. Qed.

Lemma fleb_PInf (v : float64) : notna v = true -> fleb v PInf = true.
Proof. destruct v; simpl; try discriminate; reflexivity. Qed.

Lemma increasing_positions (bins : list float64) :
  forall i j a b, increasing bins = true -> i < j ->
                  nth_error bins i = Some a -> nth_error bins j = Some b ->
                  fltb a b = true.
Proof.
  induction bins as [| h t IH]; intros i j a b Hinc Hij Ha Hb.
  - destruct i; discriminate Ha.
  - destruct j as [| j]; [lia |]. cbn [nth_error] in Hb.
    destruct i as [| i]; cbn [nth_error] in Ha.
    + injection Ha as <-. apply (increasing_head_lt t h j b); assumption.
    + apply (IH i j); try assumption; [apply (increasing_tail h); exact Hinc | lia].
Qed.

(** With valid bins, a value gets a label exactly when it lies above the
    first edge and not above the last. *)
Lemma cut_defined_iff (v : float64) (bins : list float64) (labels : list string)
      (e0 en : float64) :
  increasing bins = true -> S (List.length labels) = List.length bins ->
  nth_error bins 0 = Some e0 -> nth_error bins (List.length labels) = Some en ->
  (cell_of (cut v bins labels) <> None <-> fltb e0 v = true /\ fleb v en = true).
Proof.
  intros Hinc Hlen He0 Hen.
  rewrite (cut_valid v bins labels Hinc Hlen). cbv zeta.
  destruct (searchsorted_stop v bins) as (Hbelow & Hstop & Hk).
  set (k := searchsorted_left bins v) in *.
  split.
  - destruct (isna v) eqn:Hna; [intros H; exfalso; apply H; reflexivity |].
    destruct (k =? List.length bins) eqn:Hfull; [intros H; exfalso; apply H; reflexivity |].
    destruct (k =? 0) eqn:Hzero; [intros H; exfalso; apply H; reflexivity |].
    intros _. apply Nat.eqb_neq in Hfull, Hzero.
    split; [apply (Hbelow 0); [lia | exact He0] |].
    destruct (nth_error bins k) as [e |] eqn:He; [| apply nth_error_None in He; lia].
    assert (Hve : fleb v e = true).
    { apply fltb_false_fleb; [| unfold notna; rewrite Hna; reflexivity | apply Hstop; reflexivity].
      assert (H0 : fltb e0 e = true)
        by (apply (increasing_positions bins 0 k); try assumption; lia).
      apply (fltb_notna _ _ H0). }
    destruct (Nat.eq_dec k (List.length labels)) as [Hkn | Hkn].
    + rewrite Hkn in He. congruence.
    + apply fleb_trans with e; [exact Hve |]. apply fltb_fleb.
      apply (increasing_positions bins k (List.length labels)); try assumption. lia.
  - intros [Hlo Hhi].
    destruct (fltb_notna _ _ Hlo) as [_ Hv]. unfold notna in Hv.
    apply negb_true_iff in Hv. rewrite Hv.
    assert (Hk0 : k <> 0).
    { unfold k. destruct bins as [| h t]; [discriminate He0 |].
      cbn [nth_error] in He0. injection He0 as ->.
      cbn [searchsorted_left]. rewrite Hlo. discriminate. }
    assert (Hkn : k <> List.length bins).
    { intros Hkn.
      assert (Hgt : fltb en v = true)
        by (apply (Hbelow (List.length labels)); [lia | exact Hen]).
      apply fleb_not_fltb in Hhi. congruence. }
    apply Nat.eqb_neq in Hk0, Hkn. rewrite Hk0, Hkn. cbn [orb cell_of].
    apply nth_error_Some. apply Nat.eqb_neq in Hk0, Hkn. lia.
Qed.

(** X6.  A discount gets a band exactly when it is above 0 and at most 1; a
    customer gets a tier exactly when the total sales are above 0, however
    large. *)
Theorem X6_segments_defined (e : enriched) (c : Dashboard.customer) :
  (Discount_Bin e <> None <->
   fltb (of_Z 0) (Discount (base e)) = true /\ fleb (Discount (base e)) (of_Z 1) = true)
  /\ (Dashboard.Customer_Segment c <> None <->
      fltb (of_Z 0) (Dashboard.customer_Sales c) = true).
Proof.
  split.
  - unfold Discount_Bin.
    apply (cut_defined_iff _ discount_bins discount_labels); reflexivity.
  - unfold Dashboard.Customer_Segment.
    rewrite (cut_defined_iff _ segment_bins segment_labels (of_Z 0) PInf) by reflexivity.
    split; [intros [H _]; exact H |].
    intros H. split; [exact H |]. apply fleb_PInf. apply (fltb_notna _ _ H).
Qed.

Lemma searchsorted_monotone (bins : list float64) (v w : float64) :
  fleb v w = true -> searchsorted_left bins v <= searchsorted_left bins w.
Proof.
  intros Hvw. induction bins as [| e t IH]; cbn [searchsorted_left]; [lia |].
  destruct (fltb e v) eqn:Hev; [| lia].
  rewrite (fltb_fleb_trans _ _ _ Hev Hvw). lia.
Qed.

(** X7.  Tiers follow sales: of two customers with a tier, the one with no
    more sales is in the same tier or in one listed earlier (Bronze, Silver,
    Gold, Platinum). *)
Theorem X7_tiers_follow_sales (a b : Dashboard.customer) (ta tb : string) :
  fleb (Dashboard.customer_Sales a) (Dashboard.customer_Sales b) = true ->
  Dashboard.Customer_Segment a = Some ta ->
  Dashboard.Customer_Segment b = Some tb ->
  exists i j, nth_error segment_labels i = Some ta
              /\ nth_error segment_labels j = Some tb /\ i <= j.
Proof.
  unfold Dashboard.Customer_Segment. intros Hab Ha Hb.
  rewrite (cut_valid _ segment_bins segment_labels) in Ha by reflexivity.
  rewrite (cut_valid _ segment_bins segment_labels) in Hb by reflexivity.
  cbv zeta in Ha, Hb.
  pose proof (searchsorted_monotone segment_bins _ _ Hab) as Hmono.
  destruct (isna (Dashboard.customer_Sales a)
            || (searchsorted_left segment_bins (Dashboard.customer_Sales a)
                =? List.length segment_bins)
            || (searchsorted_left segment_bins (Dashboard.customer_Sales a) =? 0));
    [discriminate Ha |].
  destruct (isna (Dashboard.customer_Sales b)
            || (searchsorted_left segment_bins (Dashboard.customer_Sales b)
                =? List.length segment_bins)
            || (searchsorted_left segment_bins (Dashboard.customer_Sales b) =? 0));
    [discriminate Hb |].
  cbn [cell_of] in Ha, Hb.
  exists (searchsorted_left segment_bins (Dashboard.customer_Sales a) - 1),
         (searchsorted_left segment_bins (Dashboard.customer_Sales b) - 1).
  split; [exact Ha |]. split; [exact Hb | lia].
Qed.

Lemma X7_tiers_follow_sales_witness :
  exists i j, nth_error segment_labels i = Some "Bronze"
              /\ nth_error segment_labels j = Some "Gold" /\ i <= j.
Proof.
  refine (X7_tiers_follow_sales
            (Dashboard.mkCustomer (Dashboard.mkTotals "Ann Lee" (of_Z 1000) (of_Z 5)) 1)
            (Dashboard.mkCustomer (Dashboard.mkTotals "Bo Diaz" (of_Z 7000) (of_Z 9)) 2)
            "Bronze" "Gold" _ _ _); reflexivity.
Defined.

(** ** Tables sorted by sales *)

Lemma map_agg_totals_keys (by_ : enriched -> option string) (df : list enriched) :
  map Dashboard.index (map Dashboard.agg_totals (groupby by_ df)) = group_keys by_ df.
Proof. rewrite map_map. apply (groupby_keys by_ df). Qed.

(** X8.  The dashboard's state table holds each state of the record set
    once, with its totals, in descending order of sales; the top states are
    its first ten rows at most, and no state left out ranks before one
    shown. *)
Theorem X8_state_table (df : list enriched) :
  Permutation (Dashboard.state_analysis df)
              (map Dashboard.agg_totals (groupby (fun r => State (base r)) df))
  /\ StronglySorted (ranks_before Dashboard.sum_Sales) (Dashboard.state_analysis df)
  /\ NoDup (map Dashboard.index (Dashboard.state_analysis df))
  /\ (forall k, In k (map Dashboard.index (Dashboard.state_analysis df)) <->
                exists r, In r df /\ State (base r) = Some k)
  /\ List.length (Dashboard.top_states df) <= 10
  /\ exists rest,
       Dashboard.state_analysis df = Dashboard.top_states df ++ rest
       /\ forall a b, In a (Dashboard.top_states df) -> In b rest ->
                      ranks_before Dashboard.sum_Sales a b.
Proof.
  pose proof (sort_values_desc_perm Dashboard.sum_Sales
                (map Dashboard.agg_totals (groupby (fun r => State (base r)) df)))
    as Hperm.
  pose proof (sort_values_desc_sorted Dashboard.sum_Sales
                (map Dashboard.agg_totals (groupby (fun r => State (base r)) df)))
    as Hsorted.
  fold (Dashboard.state_analysis df) in Hperm, Hsorted.
  assert (Hkeys : Permutation (map Dashboard.index (Dashboard.state_analysis df))
                              (group_keys (fun r => State (base r)) df)).
  { rewrite <- map_agg_totals_keys. apply Permutation_map. exact Hperm. }
  split; [exact Hperm |]. split; [exact Hsorted |]. split; [| split; [| split]].
  - apply (Permutation_NoDup (Permutation_sym Hkeys)).
    apply sorted_NoDup, unique_sorted_sorted.
  - intros k. rewrite <- (in_group_keys (fun r => State (base r)) k df). split.
    + apply (Permutation_in _ Hkeys).
    + apply (Permutation_in _ (Permutation_sym Hkeys)).
  - unfold Dashboard.top_states, head. apply firstn_le_length.
  - exists (skipn 10 (Dashboard.state_analysis df)).
    unfold Dashboard.top_states, head. split; [symmetry; apply firstn_skipn |].
    apply StronglySorted_split. rewrite firstn_skipn. exact Hsorted.
Qed.

(** ** Grouped totals and the order of the rows *)

Lemma sorted_same_members (l1 l2 : list string) :
  StronglySorted str_lt l1 -> StronglySorted str_lt l2 ->
  (forall x, In x l1 <-> In x l2) -> l1 = l2.
Proof.
  intros H1. revert l2. induction H1 as [| a t Ht IH Ha]; intros l2 H2 Hmem.
  - destruct l2 as [| b u]; [reflexivity |].
    destruct (proj2 (Hmem b) (or_introl eq_refl)).
  - destruct H2 as [| b u Hu Hb].
    + destruct (proj1 (Hmem a) (or_introl eq_refl)).
    + rewrite Forall_forall in Ha, Hb.
      assert (Hab : a = b).
      { destruct (proj1 (Hmem a) (or_introl eq_refl)) as [E | Hin]; [auto |].
        destruct (proj2 (Hmem b) (or_introl eq_refl)) as [E | Hin']; [auto |].
        exfalso. apply (str_lt_irrefl a).
        apply str_lt_trans with b; [apply Ha, Hin' | apply Hb, Hin]. }
      subst b. f_equal. apply IH; [exact Hu |].
      intros x. split; intros Hx.
      * destruct (proj1 (Hmem x) (or_intror Hx)) as [E | Hin]; [| exact Hin].
        subst x. exfalso. exact (str_lt_irrefl a (Ha a Hx)).
      * destruct (proj2 (Hmem x) (or_intror Hx)) as [E | Hin]; [| exact Hin].
        subst x. exfalso. exact (str_lt_irrefl a (Hb a Hx)).
Qed.

Lemma filter_permutation {A} (p : A -> bool) (l l' : list A) :
  Permutation l l' -> Permutation (filter p l) (filter p l').
Proof.
  induction 1 as [| x l l' _ IH | x y l | l l' l'' _ IH1 _ IH2]; cbn [filter].
  - constructor.
  - destruct (p x); [apply perm_skip |]; exact IH.
  - destruct (p x), (p y); try apply Permutation_refl. apply perm_swap.
  - eapply Permutation_trans; eassumption.
Qed.

Lemma group_keys_permutation {R} (by_ : R -> option string) (df df' : list R) :
  Permutation df df' -> group_keys by_ df = group_keys by_ df'.
Proof.
  intros Hp. apply sorted_same_members; try apply unique_sorted_sorted.
  intros k. rewrite !in_group_keys.
  split; intros (r & Hr & Hk); exists r; split; try exact Hk.
  - apply (Permutation_in _ Hp). exact Hr.
  - apply (Permutation_in _ (Permutation_sym Hp)). exact Hr.
Qed.

Lemma unique_sorted_same_members (ks ks' : list string) :
  (forall k, In k ks <-> In k ks') -> unique_sorted ks = unique_sorted ks'.
Proof.
  intros H. apply sorted_same_members; try apply unique_sorted_sorted.
  intros k. rewrite !in_unique_sorted. apply H.
Qed.

(** The count of distinct values does not depend on the order of the cells. *)
Lemma nunique_permutation (cells cells' : list (option string)) :
  Permutation cells cells' -> nunique cells = nunique cells'.
Proof.
  intros Hp. unfold nunique. f_equal. apply unique_sorted_same_members.
  intros k. rewrite !in_present. split; apply Permutation_in;
    [exact Hp | apply Permutation_sym; exact Hp].
Qed.

(** X9.  What a grouping holds does not depend on the order of the rows: two
    record sets with the same rows in different orders give the same keys
    in the same order, each group holding the same records, and so the same
    counts of records, distinct orders and distinct customers, per region and
    over the whole set.  (The sums, added up in another order, may differ in
    their last bits.) *)
Theorem X9_groups_ignore_row_order
  (by_ : enriched -> option string) (df df' : list enriched) :
  Permutation df df' ->
  map fst (groupby by_ df) = map fst (groupby by_ df')
  /\ (forall k g g', In (k, g) (groupby by_ df) -> In (k, g') (groupby by_ df') ->
                     Permutation g g')
  /\ Dashboard.total_orders df = Dashboard.total_orders df'
  /\ Dashboard.total_customers df = Dashboard.total_customers df'
  /\ map (fun t => (Dashboard.index (Dashboard.regional_totals t),
                    Dashboard.nunique_Customer_Name t, Dashboard.regional_Order_ID t))
         (Dashboard.regional_analysis df)
     = map (fun t => (Dashboard.index (Dashboard.regional_totals t),
                      Dashboard.nunique_Customer_Name t, Dashboard.regional_Order_ID t))
           (Dashboard.regional_analysis df').
Proof.
  intros Hp.
  assert (Hcount : forall (col : enriched -> option string) (p : enriched -> bool),
             nunique (map col (filter p df)) = nunique (map col (filter p df'))).
  { intros col p. apply nunique_permutation, Permutation_map, filter_permutation, Hp. }
  split; [| split; [| split; [| split]]].
  - rewrite !groupby_keys. apply group_keys_permutation. exact Hp.
  - intros k g g' Hg Hg'. apply in_groupby in Hg as [_ ->].
    apply in_groupby in Hg' as [_ ->]. apply filter_permutation. exact Hp.
  - unfold Dashboard.total_orders. apply nunique_permutation, Permutation_map, Hp.
  - unfold Dashboard.total_customers. apply nunique_permutation, Permutation_map, Hp.
  - unfold Dashboard.regional_analysis, groupby.
    fold (group_keys (fun r : enriched => Region (base r)) df).
    fold (group_keys (fun r : enriched => Region (base r)) df').
    rewrite (group_keys_permutation _ df df' Hp).
    rewrite !map_map. apply map_ext. intros k.
    cbn [Dashboard.regional_totals Dashboard.nunique_Customer_Name
         Dashboard.regional_Order_ID Dashboard.agg_totals Dashboard.index fst snd].
    rewrite !Hcount. reflexivity.
Qed.

Lemma X9_groups_ignore_row_order_witness :
  Dashboard.total_orders banded_and_unbanded
  = Dashboard.total_orders (rev banded_and_unbanded).
Proof.
  refine (proj1 (proj2 (proj2 (X9_groups_ignore_row_order
                                 (fun r => Category (base r))
                                 banded_and_unbanded (rev banded_and_unbanded) _)))).
  apply perm_swap.
Defined.

(** ** Distinct counts per group *)

Lemma nunique_app (l1 l2 : list (option string)) :
  nunique (l1 ++ l2) <= nunique l1 + nunique l2.
Proof.
  unfold nunique. rewrite <- length_app. apply NoDup_incl_length.
  - apply sorted_NoDup, unique_sorted_sorted.
  - intros x Hx. apply in_unique_sorted, in_present, in_app_or in Hx.
    apply in_or_app. destruct Hx as [Hx | Hx]; [left | right];
      apply in_unique_sorted, in_present; exact Hx.
Qed.

Lemma nunique_concat (ls : list (list (option string))) :
  nunique (List.concat ls) <= list_sum (map nunique ls).
Proof.
  induction ls as [| l ls IH]; [apply Nat.le_refl |].
  cbn [List.concat map].
  change (list_sum (nunique l :: map nunique ls))
    with (nunique l + list_sum (map nunique ls)).
  pose proof (nunique_app l (List.concat ls)). lia.
Qed.

(** X12.  In the dashboard's regional table no region has more distinct
    customers than the whole record set, and the regions' customer counts
    add up to at least the number of distinct customers among the records
    that have a region: a customer buying in two regions is counted in
    both. *)
Theorem X12_regional_customer_counts (df : list enriched) :
  (forall g, In g (Dashboard.regional_analysis df) ->
             Dashboard.nunique_Customer_Name g <= Dashboard.total_customers df)
  /\ Dashboard.total_customers (filter (fun r => notnone (Region (base r))) df)
     <= list_sum (map Dashboard.nunique_Customer_Name (Dashboard.regional_analysis df)).
Proof.
  split.
  - intros g Hg. unfold Dashboard.regional_analysis in Hg.
    apply in_map_iff in Hg as ([k rows] & <- & Hin).
    apply in_groupby in Hin as [_ ->]. cbn [Dashboard.nunique_Customer_Name snd].
    apply nunique_incl, incl_map, incl_filter.
  - unfold Dashboard.regional_analysis, Dashboard.total_customers.
    rewrite map_map. cbn [Dashboard.nunique_Customer_Name].
    pose proof (groups_permutation (fun r => Region (base r)) df) as Hperm.
    eapply Nat.le_trans;
      [apply (nunique_incl _ (map (fun r => Customer_Name (base r))
                                  (List.concat (map snd (groupby (fun r => Region (base r)) df)))))
      |].
    + apply incl_map. intros r Hr.
      apply (Permutation_in _ (Permutation_sym Hperm)). exact Hr.
    + rewrite concat_map, map_map.
      eapply Nat.le_trans; [apply nunique_concat |].
      rewrite map_map. apply Nat.le_refl.
Qed.

(** ** The best row of a table *)

Section FirstMax.
Context {A : Type}.
Variable column : A -> float64.

Lemma first_max_step (x h : A) (t : list A) :
  first_max column x (h :: t) = first_max column (pick column x h) t.
Proof. unfold pick. cbn [first_max]. destruct (fltb (column x) (column h)); reflexivity. Qed.

Lemma first_max_in (x : A) (t : list A) : In (first_max column x t) (x :: t).
Proof.
  revert x. induction t as [| h t IH]; intros x; [left; reflexivity |].
  cbn [first_max]. destruct (fltb (column x) (column h)).
  - right. apply IH.
  - destruct (IH x) as [E | Hin]; [left; exact E | right; right; exact Hin].
Qed.

Lemma pick_assoc (a b c : A) :
  notna (column a) = true -> notna (column b) = true -> notna (column c) = true ->
  pick column (pick column a b) c = pick column a (pick column b c).
Proof.
  intros Ha Hb Hc. unfold pick.
  destruct (fltb (column a) (column b)) eqn:Hab;
    destruct (fltb (column b) (column c)) eqn:Hbc;
    rewrite ?Hab, ?Hbc; try reflexivity.
  - rewrite (fltb_trans _ _ _ Hab Hbc). reflexivity.
  - destruct (fltb (column a) (column c)) eqn:Hac; [| reflexivity].
    exfalso.
    destruct (ftrichotomy (column a) (column b) Ha Hb) as [H | [H | H]].
    + congruence.
    + rewrite H in Hac. congruence.
    + rewrite (fltb_trans _ _ _ H Hac) in Hbc. discriminate Hbc.
Qed.

Lemma first_max_cons (t : list A) :
  forall x h, notna (column x) = true -> notna (column h) = true ->
              Forall (fun r => notna (column r) = true) t ->
              first_max column x (h :: t) = pick column x (first_max column h t).
Proof.
  induction t as [| k t IH]; intros x h Hx Hh Ht; [reflexivity |].
  inversion Ht as [| ? ? Hk Ht']; subst.
  assert (Hp : forall a b, notna (column a) = true -> notna (column b) = true ->
                           notna (column (pick column a b)) = true)
    by (intros a b Ha Hb; unfold pick; destruct (fltb (column a) (column b)); assumption).
  rewrite first_max_step, (IH (pick column x h) k) by auto.
  rewrite (IH h k) by auto.
  apply pick_assoc; try assumption.
  destruct (first_max_in k t) as [<- | Hin]; [exact Hk |].
  rewrite Forall_forall in Ht'. apply Ht'. exact Hin.
Qed.

(** The stable descending sort starts with the first greatest row. *)
Lemma sort_desc_head (t : list A) :
  forall x, notna (column x) = true ->
            Forall (fun r => notna (column r) = true) t ->
            exists rest, sort_desc column (x :: t) = first_max column x t :: rest.
Proof.
  induction t as [| h t IH]; intros x Hx Ht; [exists []; reflexivity |].
  inversion Ht as [| ? ? Hh Ht']; subst.
  destruct (IH h Hh Ht') as [rest Hrest].
  change (sort_desc column (x :: h :: t))
    with (insert_desc column x (sort_desc column (h :: t))).
  rewrite Hrest, first_max_cons by assumption.
  cbn [insert_desc]. unfold pick.
  destruct (fltb (column x) (column (first_max column h t))); eexists; reflexivity.
Qed.

Lemma loc_idxmax_nlargest (n : nat) (df : list A) :
  Forall (fun r => notna (column r) = true) df ->
  loc_idxmax column df
  = match nlargest column (S n) df with
    | [] => ValueError
    | best :: _ => Ok best
    end.
Proof.
  intros Hna. unfold loc_idxmax, nlargest.
  rewrite (filter_all (fun r => notna (column r)) df)
    by (apply Forall_forall; exact Hna).
  destruct df as [| x t]; [reflexivity |].
  inversion Hna as [| ? ? Hx Ht]; subst.
  destruct (sort_desc_head t x Hx Ht) as [rest ->]. reflexivity.
Qed.
End FirstMax.

Lemma groupby_nil_iff {R} (by_ : R -> option string) (df : list R) :
  groupby by_ df = [] <-> forall r, In r df -> by_ r = None.
Proof.
  split.
  - intros Hnil r Hr. destruct (by_ r) as [k |] eqn:Hk; [| reflexivity].
    assert (Hin : In k (group_keys by_ df)) by (apply in_group_keys; exists r; auto).
    rewrite <- groupby_keys, Hnil in Hin. destruct Hin.
  - intros Hall. unfold groupby. fold (group_keys by_ df).
    destruct (group_keys by_ df) as [| k ks] eqn:Hk; [reflexivity |].
    assert (Hin : In k (group_keys by_ df)) by (rewrite Hk; left; reflexivity).
    apply in_group_keys in Hin as (r & Hr & Hb). rewrite (Hall r Hr) in Hb.
    discriminate Hb.
Qed.

Lemma first_max_best {A} (column : A -> float64) (t : list A) :
  forall x, notna (column x) = true ->
            Forall (fun r => notna (column r) = true) t ->
            forall r, In r (x :: t) -> fleb (column r) (column (first_max column x t)) = true.
Proof.
  induction t as [| h t IH]; intros x Hx Ht r Hr.
  - destruct Hr as [<- | []]. cbn [first_max].
    apply fltb_false_fleb; [exact Hx | exact Hx | apply fltb_irrefl].
  - inversion Ht as [| ? ? Hh Ht']; subst. cbn [first_max].
    destruct (fltb (column x) (column h)) eqn:Hxh.
    + destruct Hr as [<- | Hr]; [| apply IH; assumption].
      apply fleb_trans with (column h); [apply fltb_fleb; exact Hxh |].
      apply IH; [exact Hh | exact Ht' | left; reflexivity].
    + destruct Hr as [<- | [<- | Hr]].
      * apply IH; [exact Hx | exact Ht' | left; reflexivity].
      * apply fleb_trans with (column x);
          [apply fltb_false_fleb; assumption |].
        apply IH; [exact Hx | exact Ht' | left; reflexivity].
      * apply IH; [exact Hx | exact Ht' | right; exact Hr].
Qed.

(** X13.  When no product's total sales is NaN, the dashboard's best product
    (idxmax of sales) is a row of the product table that no product
    outsells, and the first of its top products sells as much; with more
    than ten products it is that first row.  Looking it up raises exactly
    when no record of the filtered table names a product. *)
Theorem X13_best_product_and_top_products (df : list enriched) :
  Forall (fun p => notna (Dashboard.product_Sales p) = true)
         (Dashboard.product_analysis df) ->
  (forall best, Dashboard.best_product df = Ok best ->
     In best (Dashboard.product_analysis df)
     /\ (forall p, In p (Dashboard.product_analysis df) ->
                   fleb (Dashboard.product_Sales p) (Dashboard.product_Sales best) = true)
     /\ (forall first rest, Dashboard.top_products df = first :: rest ->
                            Dashboard.product_Sales first = Dashboard.product_Sales best))
  /\ (10 < List.length (Dashboard.product_analysis df) ->
      Dashboard.best_product df
      = match Dashboard.top_products df with
        | [] => ValueError
        | best :: _ => Ok best
        end)
  /\ (Dashboard.best_product df = ValueError <->
      forall r, In r df -> Product_Name (base r) = None).
Proof.
  intros Hna.
  pose proof (loc_idxmax_nlargest Dashboard.product_Sales 9 _ Hna) as Hhead.
  fold (Dashboard.best_product df) in Hhead. fold (Dashboard.top_products df) in Hhead.
  split; [| split].
  - intros best Hbest.
    assert (Hfm : exists x t, Dashboard.product_analysis df = x :: t
                              /\ best = first_max Dashboard.product_Sales x t).
    { unfold Dashboard.best_product, loc_idxmax in Hbest.
      rewrite (filter_all _ (Dashboard.product_analysis df)) in Hbest
        by (apply Forall_forall; exact Hna).
      destruct (Dashboard.product_analysis df) as [| x t]; [discriminate Hbest |].
      injection Hbest as <-. exists x, t. auto. }
    destruct Hfm as (x & t & Hxt & ->). rewrite Hxt in *.
    inversion Hna as [| ? ? Hx Ht]; subst.
    split; [apply first_max_in |].
    split; [intros p Hp; apply first_max_best; assumption |].
    intros first rest Htop. rewrite Htop in Hhead. rewrite Hhead in Hbest.
    injection Hbest as ->. reflexivity.
  - intros _. exact Hhead.
  - rewrite <- (groupby_nil_iff (fun r => Product_Name (base r)) df).
    unfold Dashboard.best_product, loc_idxmax.
    rewrite (filter_all _ (Dashboard.product_analysis df))
      by (apply Forall_forall; exact Hna).
    unfold Dashboard.product_analysis.
    destruct (groupby (fun r => Product_Name (base r)) df) as [| g gs];
      cbn [map]; split; intros H; try reflexivity; discriminate H.
Qed.

Lemma X13_best_product_and_top_products_witness :
  Dashboard.best_product (map Enhanced.common eleven_losses)
  = match Dashboard.top_products (map Enhanced.common eleven_losses) with
    | [] => ValueError
    | best :: _ => Ok best
    end.
Proof.
  refine (proj1 (proj2 (X13_best_product_and_top_products
                          (map Enhanced.common eleven_losses) _)) _).
  - apply Forall_forall.
    apply (forallb_forall (fun p => notna (Dashboard.product_Sales p))).
    vm_compute. reflexivity.
  - apply Nat.ltb_lt. vm_compute. reflexivity.
Defined.

(** X14.  The enhanced report's best product is the first row of the table
    sorted by sales: no product ranks before it, and taking it raises
    [IndexError] exactly when no record names a product. *)
Theorem X14_enhanced_best_product (df : list Enhanced.xrow) :
  (Enhanced.best_product df = IndexError <->
   forall r, In r df -> Product_Name (Enhanced.row_of r) = None)
  /\ (forall best, Enhanced.best_product df = Found best ->
        In best (Enhanced.top_products df)
        /\ forall t, In t (Enhanced.top_products df) ->
                     t = best \/ ranks_before Enhanced.sum_Sales best t).
Proof.
  unfold Enhanced.best_product, iloc0, Enhanced.top_products.
  match goal with
  | |- context [sort_values_desc ?c ?l] =>
      pose proof (sort_values_desc_perm c l) as Hperm;
      pose proof (sort_values_desc_sorted c l) as Hsorted;
      set (sorted := sort_values_desc c l) in *
  end.
  split.
  - rewrite <- (groupby_nil_iff (fun r => Product_Name (Enhanced.row_of r)) df).
    split.
    + destruct sorted as [| b rest]; [| discriminate].
      intros _. apply Permutation_nil in Hperm. apply map_eq_nil in Hperm.
      exact Hperm.
    + intros Hnil. rewrite Hnil in Hperm. cbn [map] in Hperm.
      apply Permutation_sym, Permutation_nil in Hperm. rewrite Hperm. reflexivity.
  - intros best Hbest.
    destruct sorted as [| b rest]; [discriminate Hbest |].
    injection Hbest as ->. split; [left; reflexivity |].
    inversion Hsorted as [| ? ? _ Hb]; subst.
    intros t [<- | Hin]; [left; reflexivity | right].
    rewrite Forall_forall in Hb. apply Hb, Hin.
Qed.

Lemma X14_enhanced_best_product_witness :
  exists best, Enhanced.best_product two_losses = Found best
               /\ In best (Enhanced.top_products two_losses).
Proof.
  destruct (Enhanced.best_product two_losses) as [best |] eqn:E.
  - exists best. split; [reflexivity |].
    apply (proj2 (X14_enhanced_best_product two_losses) best E).
  - vm_compute in E. discriminate E.
Defined.

(** ** The loss-making products, continued *)

(** X15.  Every product the enhanced report lists as loss-making has a
    rounded total profit below 0 and is a row of the product table; at most
    ten are listed; and a loss-making product is left out only when ten are
    listed that rank no lower by sales. *)
Theorem X15_bottom_10_profit_selection (df : list Enhanced.xrow) :
  (forall t, In t (Enhanced.bottom_10_profit df) ->
             fltb (Enhanced.sum_Profit t) (of_Z 0) = true
             /\ In t (Enhanced.top_products df))
  /\ List.length (Enhanced.bottom_10_profit df) <= 10
  /\ (forall t, In t (Enhanced.top_products df) ->
                fltb (Enhanced.sum_Profit t) (of_Z 0) = true ->
                In t (Enhanced.bottom_10_profit df)
                \/ (List.length (Enhanced.bottom_10_profit df) = 10
                    /\ forall a, In a (Enhanced.bottom_10_profit df) ->
                                 ranks_before Enhanced.sum_Sales a t)).
Proof.
  unfold Enhanced.bottom_10_profit, head.
  set (losses := filter (fun t => fltb (Enhanced.sum_Profit t) (of_Z 0))
                        (Enhanced.top_products df)).
  assert (Hsorted : StronglySorted (ranks_before Enhanced.sum_Sales) losses)
    by (apply StronglySorted_filter, sort_values_desc_sorted).
  split; [| split].
  - intros t Ht. apply (In_nth_error (firstn 10 losses)) in Ht as [i Hi].
    assert (Hin : In t losses).
    { rewrite <- (firstn_skipn 10 losses). apply in_or_app. left.
      apply (nth_error_In _ i Hi). }
    apply filter_In in Hin. split; apply Hin.
  - apply firstn_le_length.
  - intros t Ht Hneg.
    assert (Hin : In t losses) by (apply filter_In; auto).
    rewrite <- (firstn_skipn 10 losses) in Hin, Hsorted.
    apply in_app_or in Hin as [Hin | Hin]; [left; exact Hin | right].
    split.
    + rewrite length_firstn.
      assert (Hlen : List.length (skipn 10 losses) <> 0)
        by (destruct (skipn 10 losses); [destruct Hin | discriminate]).
      rewrite length_skipn in Hlen. lia.
    + intros a Ha. apply StronglySorted_split in Hsorted.
      apply (proj2 Hsorted a t Ha Hin).
Qed.

Lemma X15_bottom_10_profit_selection_witness :
  forallb (fun t => fltb (Enhanced.sum_Profit t) (of_Z 0))
          (Enhanced.bottom_10_profit eleven_losses) = true.
Proof.
  apply forallb_forall. intros t Ht.
  destruct (proj1 (X15_bottom_10_profit_selection eleven_losses) t Ht) as [Hneg _].
  exact Hneg.
Defined.

(** ** Labels *)

Lemma string_length_append (a b : string) :
  String.length (String.append a b) = String.length a + String.length b.
Proof. induction a as [| c a IH]; cbn; [reflexivity | rewrite IH; reflexivity]. Qed.

Lemma substring_length (n : nat) (s : string) :
  String.length (String.substring 0 n s) = Nat.min n (String.length s).
Proof.
  revert s. induction n as [| n IH]; intros [| c s]; cbn; try reflexivity.
  rewrite IH. reflexivity.
Qed.

Lemma substring_short (n : nat) (s : string) :
  String.length s <= n -> String.substring 0 n s = s.
Proof.
  revert s. induction n as [| n IH]; intros [| c s]; cbn; intros H; try reflexivity;
    try lia.
  rewrite IH by lia. reflexivity.
Qed.

(** X16.  A tick label of the enhanced report is the product name when the
    name has at most 30 characters and its first 30 characters followed by
    three dots otherwise, so never longer than 33.  The dashboard's label for
    the best product appends the three dots to every name, also to one of 30
    characters or fewer. *)
Theorem X16_labels (name : string) (p : Dashboard.product) :
  String.length (Enhanced.tick_label name) <= 33
  /\ (String.length name <= 30 -> Enhanced.tick_label name = name)
  /\ (30 < String.length name ->
        Enhanced.tick_label name
        = String.append (String.substring 0 30 name) "..."
        /\ String.length (Enhanced.tick_label name) = 33)
  /\ String.length (Dashboard.best_product_label p)
     = Nat.min 30 (String.length (Dashboard.index (Dashboard.product_totals p))) + 3
  /\ (String.length (Dashboard.index (Dashboard.product_totals p)) <= 30 ->
        Dashboard.best_product_label p
        = String.append (Dashboard.index (Dashboard.product_totals p)) "...").
Proof.
  unfold Enhanced.tick_label, Dashboard.best_product_label, clip.
  split; [| split; [| split; [| split]]].
  - destruct (30 <? String.length name) eqn:H.
    + rewrite string_length_append, substring_length. cbn [String.length]. lia.
    + apply Nat.ltb_ge in H. lia.
  - intros H. apply Nat.ltb_ge in H. rewrite H. reflexivity.
  - intros H. pose proof H as H'. apply Nat.ltb_lt in H'. rewrite H'.
    split; [reflexivity |].
    rewrite string_length_append, substring_length. cbn [String.length]. lia.
  - rewrite string_length_append, substring_length. reflexivity.
  - intros H. rewrite substring_short by exact H. reflexivity.
Qed.

Lemma X16_labels_witness :
  Enhanced.tick_label "Task Chair" = "Task Chair"
  /\ Dashboard.best_product_label
       (Dashboard.mkProductRow (Dashboard.mkTotals "Task Chair" (of_Z 1) (of_Z 1)) (of_Z 1))
     = "Task Chair...".
Proof.
  destruct (X16_labels "Task Chair"
              (Dashboard.mkProductRow (Dashboard.mkTotals "Task Chair" (of_Z 1) (of_Z 1))
                                      (of_Z 1)))
    as (_ & H1 & _ & _ & H2).
  split; [apply H1 | apply H2]; apply Nat.leb_le; reflexivity.
Defined.

(** ** The average of the product margins *)

Lemma fadd_finite (x y : float64) :
  isfinite (fadd x y) = isfinite x && isfinite y.
Proof. destruct x, y; reflexivity. Qed.

Lemma total_with_infinity (m : float64) (l : list float64) :
  In m l -> isfinite m = false ->
  isfinite (fold_right fadd (Fin 0%Qc) l) = false.
Proof.
  induction l as [| x l IH]; intros Hin Hm; [destruct Hin |].
  cbn [fold_right]. rewrite fadd_finite.
  destruct Hin as [-> | Hin]; [rewrite Hm; reflexivity |].
  rewrite (IH Hin Hm). apply andb_false_r.
Qed.

Lemma fdiv_not_finite (x : float64) (b : Qc) :
  isfinite x = false -> isfinite (fdiv x (Fin b)) = false.
Proof.
  destruct x; cbn; intros H; try discriminate; try reflexivity;
    destruct (sgn b); reflexivity.
Qed.

Lemma mean_with_infinity (m : float64) (xs : list float64) :
  In m xs -> isfinite m = false -> isna m = false -> isfinite (mean xs) = false.
Proof.
  intros Hin Hinf Hna. unfold mean.
  assert (Hm : In m (filter notna xs))
    by (apply filter_In; split; [exact Hin | unfold notna; rewrite Hna; reflexivity]).
  destruct (filter notna xs) as [| x t]; [destruct Hm |].
  apply fdiv_not_finite. apply (total_with_infinity m); assumption.
Qed.

(** X17.  The dashboard's average profit margin is the plain mean of the
    products' margins: a single product with total sales 0 and a total
    profit other than 0 has an infinite margin and makes the average not a
    finite number; with no product at all the average is NaN. *)
Theorem X17_average_margin_of_products (df : list enriched) :
  (Dashboard.product_analysis df = [] -> Dashboard.avg_profit_margin df = NaN)
  /\ (forall p q, In p (Dashboard.product_analysis df) ->
        Dashboard.product_Sales p = Fin 0%Qc ->
        Dashboard.sum_Profit (Dashboard.product_totals p) = Fin q -> q <> 0%Qc ->
        isfinite (Dashboard.avg_profit_margin df) = false).
Proof.
  split.
  - intros H. unfold Dashboard.avg_profit_margin. rewrite H. reflexivity.
  - intros p q Hp Hs Hq Hq0. unfold Dashboard.avg_profit_margin.
    assert (Hm : Dashboard.product_Margin p = PInf \/ Dashboard.product_Margin p = NInf).
    { unfold Dashboard.product_Margin, Dashboard.Profit_Margin_ratio.
      unfold Dashboard.product_Sales in Hs. rewrite Hs, Hq, fdiv_zero.
      destruct (sgn q) eqn:Hsg; [apply sgn_Eq in Hsg; contradiction | right | left];
        reflexivity. }
    apply (mean_with_infinity (Dashboard.product_Margin p)).
    + apply in_map. exact Hp.
    + destruct Hm as [-> | ->]; reflexivity.
    + destruct Hm as [-> | ->]; reflexivity.
Qed.

Lemma X17_average_margin_of_products_witness :
  isfinite (Dashboard.avg_profit_margin zero_sales_frame) = false.
Proof.
  refine (proj2 (X17_average_margin_of_products zero_sales_frame)
                (Dashboard.mkProductRow
                   (Dashboard.mkTotals "Task Chair" (Fin (0 + 0)%Qc)
                                       (Fin (Q2Qc (inject_Z 5) + 0)%Qc))
                   (Fin (Q2Qc (inject_Z 2) + 0)%Qc))
                (Q2Qc (inject_Z 5) + 0)%Qc _ eq_refl eq_refl _).
  - left. reflexivity.
  - intros H. apply (f_equal (fun q : Qc => Qnum q)) in H. vm_compute in H.
    discriminate H.
Defined.

(** ** Monthly tables *)

Lemma period_ltb_spec (a b : period) : period_ltb a b = true <-> period_lt a b.
Proof.
  unfold period_ltb, period_lt.
  rewrite orb_true_iff, andb_true_iff, !Nat.ltb_lt, Nat.eqb_eq. reflexivity.
Qed.

Lemma period_ltb_neither (a b : period) :
  period_ltb a b = false -> period_ltb b a = false -> a = b.
Proof.
  unfold period_ltb. destruct a as [y m], b as [y' m']. cbn [fst snd].
  rewrite !orb_false_iff, !andb_false_iff, !Nat.ltb_ge, !Nat.eqb_neq.
  intros [H1 H2] [H3 H4]. f_equal; lia.
Qed.

Lemma period_lt_irrefl (a : period) : ~ period_lt a a.
Proof. unfold period_lt. lia. Qed.

Lemma period_lt_trans (a b c : period) : period_lt a b -> period_lt b c -> period_lt a c.
Proof. unfold period_lt. lia. Qed.

Lemma period_eqb_eq (a b : period) : period_eqb a b = true <-> a = b.
Proof.
  unfold period_eqb. destruct a as [y m], b as [y' m']. cbn [fst snd].
  rewrite andb_true_iff, !Nat.eqb_eq. split; [intros [-> ->]; reflexivity |].
  intros H. injection H as -> ->. auto.
Qed.

Lemma in_insert_period (k x : period) (ks : list period) :
  In x (insert_period k ks) <-> x = k \/ In x ks.
Proof.
  induction ks as [| h t IH]; cbn [insert_period].
  - cbn. intuition (subst; auto).
  - destruct (period_ltb k h) eqn:Hkh; [cbn [In]; intuition (subst; auto) |].
    destruct (period_ltb h k) eqn:Hhk.
    + cbn [In]. rewrite IH. intuition (subst; auto).
    + rewrite (period_ltb_neither k h Hkh Hhk). cbn [In]. intuition (subst; auto).
Qed.

Lemma in_unique_periods (x : period) (ks : list period) :
  In x (unique_periods ks) <-> In x ks.
Proof.
  induction ks as [| k t IH]; [reflexivity |].
  change (unique_periods (k :: t)) with (insert_period k (unique_periods t)).
  rewrite in_insert_period, IH. cbn [In]. intuition (subst; auto).
Qed.

Lemma insert_period_sorted (k : period) (ks : list period) :
  StronglySorted period_lt ks -> StronglySorted period_lt (insert_period k ks).
Proof.
  induction ks as [| h t IH]; intros Hs; cbn [insert_period].
  - repeat constructor.
  - inversion Hs as [| ? ? Ht Hh]; subst.
    destruct (period_ltb k h) eqn:Hkh.
    + apply period_ltb_spec in Hkh. constructor; [exact Hs |].
      constructor; [exact Hkh |].
      eapply Forall_impl; [| exact Hh]. intros y Hy.
      exact (period_lt_trans _ _ _ Hkh Hy).
    + destruct (period_ltb h k) eqn:Hhk; [| exact Hs].
      apply period_ltb_spec in Hhk.
      constructor; [apply IH; exact Ht |].
      apply Forall_forall. intros y Hy. apply in_insert_period in Hy as [-> | Hy].
      * exact Hhk.
      * rewrite Forall_forall in Hh. apply Hh. exact Hy.
Qed.

Lemma unique_periods_sorted (ks : list period) :
  StronglySorted period_lt (unique_periods ks).
Proof.
  induction ks as [| k t IH]; [constructor |].
  change (unique_periods (k :: t)) with (insert_period k (unique_periods t)).
  apply insert_period_sorted. exact IH.
Qed.

Lemma periods_NoDup (ks : list period) : StronglySorted period_lt ks -> NoDup ks.
Proof.
  induction 1 as [| h t Ht IH Hh]; constructor; [| exact IH].
  intros Hin. rewrite Forall_forall in Hh. exact (period_lt_irrefl h (Hh h Hin)).
Qed.

(** Rows picked by keys that exclude one another, group after group. *)
Lemma parts_permutation {R K} (sel : K -> R -> bool) (df : list R) (ks : list K) :
  (forall k k' r, sel k r = true -> sel k' r = true -> k = k') ->
  NoDup ks ->
  Permutation (List.concat (map (fun k => filter (sel k) df) ks))
              (filter (fun r => existsb (fun k => sel k r) ks) df).
Proof.
  intros Hex. induction 1 as [| k ks Hk Hnd IH]; cbn [map List.concat existsb].
  - induction df; cbn; auto.
  - eapply Permutation_trans; [apply Permutation_app_head; exact IH |].
    apply filter_disjoint_perm. intros r Hr Hany.
    apply existsb_exists in Hany as (k' & Hin & Hk').
    rewrite (Hex k k' r Hr Hk') in Hk. contradiction.
Qed.

Section MonthlyGroups.
Context {R : Type}.
Variable by1 by2 : R -> option nat.

Lemma has_period_iff (k : period) (r : R) :
  has_period by1 by2 k r = true <-> period_of by1 by2 r = Some k.
Proof.
  unfold has_period. destruct (period_of by1 by2 r) as [k' |].
  - rewrite period_eqb_eq. split; congruence.
  - split; discriminate.
Qed.

Lemma groupby2_keys (df : list R) :
  map fst (groupby2 by1 by2 df)
  = unique_periods (present (map (period_of by1 by2) df)).
Proof. unfold groupby2. rewrite map_map. cbn [fst]. apply map_id. Qed.

Lemma in_groupby2_keys (k : period) (df : list R) :
  In k (map fst (groupby2 by1 by2 df)) <->
  exists r, In r df /\ period_of by1 by2 r = Some k.
Proof.
  rewrite groupby2_keys, in_unique_periods, in_present, in_map_iff.
  split; intros (r & H1 & H2); exists r; auto.
Qed.

Lemma groups2_permutation (df : list R) :
  Permutation (List.concat (map snd (groupby2 by1 by2 df)))
              (filter (fun r => notnone (period_of by1 by2 r)) df).
Proof.
  unfold groupby2. rewrite map_map. cbn [snd].
  eapply Permutation_trans.
  - apply parts_permutation; [| apply periods_NoDup, unique_periods_sorted].
    intros k k' r Hk Hk'. apply has_period_iff in Hk, Hk'. congruence.
  - erewrite filter_ext_in; [apply Permutation_refl |].
    intros r Hr. cbv beta. destruct (period_of by1 by2 r) as [k |] eqn:Hb; cbn.
    + apply existsb_exists. exists k. split; [| apply has_period_iff; exact Hb].
      apply in_unique_periods, in_present, in_map_iff. exists r. auto.
    + apply not_true_is_false. intros Hex.
      apply existsb_exists in Hex as (k & _ & Hk).
      apply has_period_iff in Hk. congruence.
Qed.
End MonthlyGroups.

Lemma to_datetime_valid (cell : option string) (d : date) :
  to_datetime cell = Some d -> valid_date (year d) (month d) (day d) = true.
Proof.
  destruct cell as [s |]; [| discriminate]. intros H.
  destruct (to_datetime_fields s d H) as (_ & _ & _ & _ & _ & _ & _ & _ & Hv).
  exact Hv.
Qed.

(** X18.  The dashboard's monthly sales table lists the months that have a
    record, each once, in calendar order.  Its totals are the sums over
    groups that together hold every record with an order date once: a record
    without an order date is in no month.  For a table loaded from a file,
    filtered or not, every month number is between 1 and 12. *)
Theorem X18_monthly_sales (df : list enriched) (raw : list raw_row) :
  StronglySorted period_lt (map fst (Dashboard.monthly_sales df))
  /\ (forall k, In k (map fst (Dashboard.monthly_sales df)) <->
                exists r, In r df /\ Order_Year r = Some (fst k)
                          /\ Order_Month r = Some (snd k))
  /\ (let months := groupby2 Order_Year Order_Month df in
      Dashboard.monthly_sales df
      = map (fun g => (fst g, Float.sum (map (fun r => Sales (base r)) (snd g)))) months
      /\ Permutation (List.concat (map snd months))
                     (filter (fun r => notnone (period_of Order_Year Order_Month r)) df))
  /\ (forall f k,
        In k (map fst (Dashboard.monthly_sales
                         (Dashboard.apply_filters f (Dashboard.load_data raw)))) ->
        1 <= snd k <= 12).
Proof.
  assert (Hkeys : forall d, map fst (Dashboard.monthly_sales d)
                            = map fst (groupby2 Order_Year Order_Month d)).
  { intros d. unfold Dashboard.monthly_sales. rewrite map_map. reflexivity. }
  assert (Hin : forall d k, In k (map fst (Dashboard.monthly_sales d)) <->
                            exists r, In r d /\ Order_Year r = Some (fst k)
                                      /\ Order_Month r = Some (snd k)).
  { intros d k. rewrite Hkeys, in_groupby2_keys.
    split; intros (r & Hr & Hk); exists r; (split; [exact Hr |]).
    - unfold period_of in Hk. destruct (Order_Year r), (Order_Month r);
        try discriminate Hk. injection Hk as <-. auto.
    - destruct Hk as [Hy Hm]. unfold period_of. rewrite Hy, Hm.
      destruct k; reflexivity. }
  split; [| split; [| split]].
  - rewrite Hkeys, groupby2_keys. apply unique_periods_sorted.
  - apply Hin.
  - cbv zeta. split; [reflexivity | apply groups2_permutation].
  - intros f k Hk. apply Hin in Hk as (e & He & _ & Hm).
    rewrite apply_filters_filter in He. apply filter_In in He as [He _].
    unfold Dashboard.load_data in He. apply filter_In in He as [He _].
    apply in_map_iff in He as (r & <- & _). cbn in Hm.
    destruct (to_datetime (Order_Date r)) as [d |] eqn:Hd; [| discriminate Hm].
    cbn in Hm. injection Hm as Hm. apply to_datetime_valid in Hd.
    unfold valid_date in Hd. rewrite !andb_true_iff, !Nat.leb_le in Hd. lia.
Qed.

(** ** The basic report's bar charts *)

Section AscendingFacts.
Context {A : Type}.
Variable column : A -> float64.

Lemma insert_asc_perm (x : A) (s : list A) :
  Permutation (insert_asc column x s) (x :: s).
Proof.
  induction s as [| y t IH]; cbn [insert_asc]; [apply Permutation_refl |].
  destruct (fltb (column y) (column x)); [| apply Permutation_refl].
  apply Permutation_trans with (y :: x :: t); [apply perm_skip; exact IH | apply perm_swap].
Qed.

Lemma sort_asc_perm (l : list A) : Permutation (sort_asc column l) l.
Proof.
  induction l as [| x l IH]; [constructor |].
  change (sort_asc column (x :: l)) with (insert_asc column x (sort_asc column l)).
  eapply Permutation_trans; [apply insert_asc_perm |]. apply perm_skip. exact IH.
Qed.

Lemma sort_values_asc_perm (l : list A) : Permutation (sort_values_asc column l) l.
Proof.
  unfold sort_values_asc.
  eapply Permutation_trans; [| apply partition_na_perm].
  apply Permutation_app_tail, sort_asc_perm.
Qed.

Lemma insert_asc_sorted (x : A) (s : list A) :
  notna (column x) = true -> Forall (fun r => notna (column r) = true) s ->
  StronglySorted (fun a b => fleb (column a) (column b) = true) s ->
  StronglySorted (fun a b => fleb (column a) (column b) = true)
                 (insert_asc column x s).
Proof.
  intros Hx Hna Hs. induction Hs as [| y t Ht IH Hy]; cbn [insert_asc].
  - repeat constructor.
  - inversion Hna as [| ? ? Hyna Htna]; subst.
    destruct (fltb (column y) (column x)) eqn:Hyx.
    + constructor; [apply IH; exact Htna |].
      apply Forall_forall. intros z Hz.
      apply (Permutation_in _ (insert_asc_perm x t)) in Hz as [<- | Hz].
      * apply fltb_fleb. exact Hyx.
      * rewrite Forall_forall in Hy. apply Hy. exact Hz.
    + assert (Hxy : fleb (column x) (column y) = true)
        by (apply fltb_false_fleb; assumption).
      constructor; [constructor; assumption |].
      constructor; [exact Hxy |].
      eapply Forall_impl; [| exact Hy]. intros z Hz. cbv beta in Hz.
      apply fleb_trans with (column y); assumption.
Qed.

Lemma sort_asc_sorted (l : list A) :
  Forall (fun r => notna (column r) = true) l ->
  StronglySorted (fun a b => fleb (column a) (column b) = true) (sort_asc column l).
Proof.
  induction 1 as [| x l Hx Hl IH]; [constructor |].
  change (sort_asc column (x :: l)) with (insert_asc column x (sort_asc column l)).
  apply insert_asc_sorted; [exact Hx | | exact IH].
  apply Forall_forall. intros z Hz.
  apply (Permutation_in _ (sort_asc_perm l)) in Hz.
  rewrite Forall_forall in Hl. apply Hl. exact Hz.
Qed.
End AscendingFacts.

(** X19.  A bar chart of the basic report (profit by region, by category, by
    sub-category, sales by sub-category) shows every key of the cleaned
    table once with its total, and with cells that are numbers the bars go
    from the least total to the greatest. *)
Theorem X19_basic_totals_ascending
  (key : dated_row -> option string) (column : dated_row -> float64)
  (df : list dated_row) :
  (forall r, In r df -> finite_or_na (column r) = true) ->
  Permutation (Basic.total_by key column df)
              (map (fun g => (fst g, group_total column g)) (groupby key df))
  /\ NoDup (map fst (Basic.total_by key column df))
  /\ (forall k, In k (map fst (Basic.total_by key column df)) <->
                exists r, In r df /\ key r = Some k)
  /\ StronglySorted (fun a b => fleb (snd a) (snd b) = true)
                    (Basic.total_by key column df)
  /\ Basic.region_profit df = Basic.total_by Region Profit df.
Proof.
  intros Hfin. unfold Basic.total_by.
  set (table := map (fun g => (fst g, Float.sum (map column (snd g)))) (groupby key df)).
  pose proof (sort_values_asc_perm snd table) as Hperm.
  assert (Hkeys : map fst table = group_keys key df).
  { unfold table. rewrite map_map. cbn [fst]. apply (groupby_keys key df). }
  assert (Hpk : Permutation (map fst (sort_values_asc snd table)) (group_keys key df)).
  { rewrite <- Hkeys. apply Permutation_map. exact Hperm. }
  assert (Hna : Forall (fun r : string * float64 => notna (snd r) = true) table).
  { apply Forall_forall. intros [k x] Hk. unfold table in Hk.
    apply in_map_iff in Hk as ([k' g] & Heq & Hg). injection Heq as <- <-.
    apply in_groupby in Hg as [_ ->]. cbn [snd].
    apply isfinite_notna, sum_finite. intros y Hy.
    apply in_map_iff in Hy as (r & <- & Hr). apply filter_In in Hr. apply Hfin, Hr. }
  split; [exact Hperm |]. split; [| split; [| split; [| reflexivity]]].
  - apply (Permutation_NoDup (Permutation_sym Hpk)).
    apply sorted_NoDup, unique_sorted_sorted.
  - intros k. rewrite <- (in_group_keys key k df). split.
    + apply (Permutation_in _ Hpk).
    + apply (Permutation_in _ (Permutation_sym Hpk)).
  - unfold sort_values_asc.
    rewrite (filter_all (fun r => notna (snd r)) table)
      by (apply Forall_forall; exact Hna).
    replace (filter (fun r : string * float64 => isna (snd r)) table) with (@nil (string * float64)).
    + rewrite app_nil_r. apply sort_asc_sorted. exact Hna.
    + symmetry. clear - Hna. induction Hna as [| x l Hx Hl IH]; [reflexivity |].
      cbn [filter]. unfold notna in Hx. apply negb_true_iff in Hx. rewrite Hx. exact IH.
Qed.

Lemma X19_basic_totals_ascending_witness :
  StronglySorted (fun a b => fleb (snd a) (snd b) = true)
                 (Basic.total_by Region Profit (Basic.clean one_order_two_lines)).
Proof.
  refine (proj1 (proj2 (proj2 (proj2
    (X19_basic_totals_ascending Region Profit (Basic.clean one_order_two_lines) _))))).
  intros r [<- | [<- | []]]; reflexivity.
Defined.

(** ** The best category *)

Section BestRow.
Context {A : Type}.
Variable column : A -> float64.
Variable key : A -> string.

Lemma nlargest_all (df : list A) :
  Permutation (nlargest column (S (List.length df)) df) df.
Proof.
  unfold nlargest.
  pose proof (sort_values_desc_perm column df) as Hperm.
  unfold sort_values_desc in Hperm.
  rewrite firstn_all2; [exact Hperm |].
  rewrite (Permutation_length Hperm). lia.
Qed.

(** On a frame with ascending keys and no NaN cell, [idxmax] picks a row no
    other row beats; among rows with the greatest cell it picks the one with
    the least key. *)
Lemma loc_idxmax_best (df : list A) :
  Forall (fun r => notna (column r) = true) df ->
  StronglySorted (fun a b => str_lt (key a) (key b)) df ->
  match loc_idxmax column df with
  | ValueError => df = []
  | Ok best =>
      In best df
      /\ forall c, In c df -> c = best \/ desc_then_key column key best c
  end.
Proof.
  intros Hna Hs.
  rewrite (loc_idxmax_nlargest column (List.length df) df Hna).
  pose proof (nlargest_by_key column key (S (List.length df)) df Hna Hs) as Hsorted.
  pose proof (nlargest_all df) as Hperm.
  destruct (nlargest column (S (List.length df)) df) as [| best rest].
  - apply Permutation_nil in Hperm. exact Hperm.
  - split; [apply (Permutation_in _ Hperm); left; reflexivity |].
    intros c Hc. apply (Permutation_in _ (Permutation_sym Hperm)) in Hc.
    destruct Hc as [<- | Hc]; [left; reflexivity | right].
    inversion Hsorted as [| ? ? _ Hb]; subst.
    rewrite Forall_forall in Hb. apply Hb, Hc.
Qed.
End BestRow.

Lemma round_finite (d : nat) (x : float64) :
  isfinite x = true -> isfinite (round d x) = true.
Proof. destruct x; cbn; intros H; try discriminate; reflexivity. Qed.

(** X20.  With sales cells that are numbers or missing, the enhanced
    report's best category is a row of the category table whose rounded
    sales no other category exceeds; of categories with equal rounded sales
    it is the first in alphabetical order.  Looking it up raises exactly
    when no record has a category. *)
Theorem X20_best_category (df : list Enhanced.xrow) :
  (forall r, In r df -> finite_or_na (Sales (Enhanced.row_of r)) = true) ->
  match Enhanced.best_category df with
  | ValueError => forall r, In r df -> Category (Enhanced.row_of r) = None
  | Ok best =>
      In best (Enhanced.category_analysis df)
      /\ forall c, In c (Enhanced.category_analysis df) ->
                   c = best
                   \/ desc_then_key Enhanced.category_Sales category_key best c
  end.
Proof.
  intros Hfin.
  assert (Hna : Forall (fun c => notna (Enhanced.category_Sales c) = true)
                       (Enhanced.category_analysis df)).
  { apply Forall_forall. intros c Hc. unfold Enhanced.category_analysis in Hc.
    apply in_map_iff in Hc as ([k g] & <- & Hg). apply in_groupby in Hg as [_ ->].
    unfold Enhanced.category_Sales.
    cbn [Enhanced.category_sums Enhanced.sum_Sales fst snd].
    apply isfinite_notna, round_finite, sum_finite.
    intros x Hx. apply in_map_iff in Hx as (r & <- & Hr).
    apply filter_In in Hr. apply Hfin, Hr. }
  assert (Hs : StronglySorted (fun a b => str_lt (category_key a) (category_key b))
                              (Enhanced.category_analysis df)).
  { unfold Enhanced.category_analysis, groupby. rewrite map_map.
    apply StronglySorted_map with (P := str_lt); [| apply unique_sorted_sorted].
    intros a b Hab. exact Hab. }
  pose proof (loc_idxmax_best Enhanced.category_Sales category_key
                (Enhanced.category_analysis df) Hna Hs) as Hbest.
  unfold Enhanced.best_category.
  destruct (loc_idxmax Enhanced.category_Sales (Enhanced.category_analysis df));
    [exact Hbest |].
  apply (groupby_nil_iff (fun r => Category (Enhanced.row_of r)) df).
  unfold Enhanced.category_analysis in Hbest. apply map_eq_nil in Hbest. exact Hbest.
Qed.

Lemma X20_best_category_witness :
  match Enhanced.best_category two_losses with
  | ValueError => forall r, In r two_losses -> Category (Enhanced.row_of r) = None
  | Ok best =>
      In best (Enhanced.category_analysis two_losses)
      /\ forall c, In c (Enhanced.category_analysis two_losses) ->
                   c = best
                   \/ desc_then_key Enhanced.category_Sales category_key best c
  end.
Proof.
  apply (X20_best_category two_losses).
  intros r [<- | [<- | []]]; reflexivity.
Defined.

(** ** What a group holds *)

Lemma filter_subseq {A} (p : A -> bool) (l : list A) : subseq (filter p l) l.
Proof.
  induction l as [| a l IH]; cbn [filter]; [constructor |].
  destruct (p a); [apply subseq_keep | apply subseq_skip]; exact IH.
Qed.

(** X22.  [groupby] makes no empty group: every group holds at least one
    record, and holds its records in the order they have in the table.  So
    in the dashboard's customer table every customer stands for at least
    one record, and no customer has more distinct orders than records. *)
Theorem X22_groups_are_inhabited
  (by_ : enriched -> option string) (df : list enriched) :
  (forall k g, In (k, g) (groupby by_ df) -> g <> [] /\ subseq g df)
  /\ (forall c, In c (Dashboard.customer_analysis df) ->
        exists g, In (customer_key c, g)
                     (groupby (fun r => Customer_Name (base r)) df)
                  /\ 0 < List.length g
                  /\ Dashboard.nunique_Order_ID c <= List.length g).
Proof.
  assert (Hne : forall (key : enriched -> option string) k g,
             In (k, g) (groupby key df) -> g <> [] /\ subseq g df).
  { intros key k g Hg. apply in_groupby in Hg as [Hk ->].
    split; [| apply filter_subseq].
    apply in_group_keys in Hk as (r & Hr & Hb). intros Hnil.
    assert (Hin : In r (filter (has_key key k) df))
      by (apply filter_In; split; [exact Hr | apply has_key_iff; exact Hb]).
    rewrite Hnil in Hin. destruct Hin. }
  split; [apply Hne |].
  intros c Hc. unfold Dashboard.customer_analysis in Hc.
  apply in_map_iff in Hc as ([k g] & <- & Hg). exists g.
  split; [exact Hg |]. destruct (Hne _ k g Hg) as [Hg0 _]. split.
  - destruct g; [contradiction | cbn; lia].
  - cbn [Dashboard.nunique_Order_ID snd].
    pose proof (nunique_le_length (map (fun r : enriched => Order_ID (base r)) g)) as H.
    rewrite length_map in H. exact H.
Qed.
